(** * The bridge network driver: a shallow embedding and its properties

    The driver (package [bridge]) programs kernel networking state for
    containers attached to one Linux bridge.  This development embeds the
    driver's operations as functions over an explicit world (kernel link
    list, IP allocator, port mapper, firewall log) and proves or refutes
    the properties stated about them. *)

From Stdlib Require Import ZArith Lia Ascii.
From stdpp Require Import gmap strings list.

Local Open Scope Z_scope.

(** ** Errors *)

(** The driver's error values.  [ErrSys] stands for an error coming from
    the operating system or from netlink, with the text of its [Error()]
    method. *)
Inductive error : Type :=
  | ErrInvalidMtu
  | ErrInvalidContainerSubnet
  | ErrInvalidGateway
  | ErrConfigExists
  | ErrInvalidDriverConfig
  | ErrInvalidNetworkConfig
  | ErrInvalidEndpointConfig
  | ErrNetworkExists
  | ErrIfaceName
  | ErrNoNetwork
  | ErrEndpointExists
  | ActiveEndpointsError (nid : string)
  | InvalidNetworkIDError (nid : string)
  | InvalidEndpointIDError (eid : string)
  | EndpointNotFoundError (eid : string)
  | ErrNoAvailableIPs
  | ErrAllocatePort
  | ErrSys (msg : string).

(** A Go function returning [(T, error)] with exactly one of the two
    set. *)
Inductive result (A : Type) : Type :=
  | Ok (a : A)
  | Err (e : error).
Arguments Ok {A} a.
Arguments Err {A} e.

(** A Go call either returns or panics (nil dereference, index out of
    range). *)
Inductive outcome (A : Type) : Type :=
  | Returns (a : A)
  | Panics.
Arguments Returns {A} a.
Arguments Panics {A}.

(** ** Addresses: Go's [net.IP], [net.IPMask], [net.IPNet] *)

(** A byte is an integer in [0, 256); [net.IP] and [net.IPMask] are byte
    slices. *)
Definition IP := list Z.
Definition IPMask := list Z.

Record IPNet : Type := mkIPNet { ipnIP : IP; ipnMask : IPMask }.

Global Instance IPNet_eq_dec : EqDecision IPNet.
Proof. solve_decision. Defined.

Global Instance IPNet_countable : Countable IPNet.
Proof.
  refine (inj_countable' (fun n => (ipnIP n, ipnMask n))
                         (fun p => mkIPNet p.1 p.2) _).
  by intros [].
Defined.

Definition IPv4len : nat := 4.
Definition IPv6len : nat := 16.

Definition bytes_eqb (a b : list Z) : bool := bool_decide (a = b).

(** [ip.To4()]: the 4-byte form of an IPv4 address, or nil. *)
Definition To4 (ip : IP) : option IP :=
  if Nat.eqb (length ip) IPv4len then Some ip
  else if Nat.eqb (length ip) IPv6len
          && bytes_eqb (take 10 ip) (replicate 10 0)
          && bytes_eqb (take 2 (drop 10 ip)) [255; 255]
       then Some (drop 12 ip)
       else None.

(** The number of leading one bits of a byte, and what is left of the byte
    after shifting them out (the loop [for v&0x80 != 0 { n++; v <<= 1 }]). *)
Fixpoint leadingOnes (fuel : nat) (v : Z) : Z * Z :=
  match fuel with
  | O => (0, v)
  | S fuel' =>
      if Z.testbit v 7
      then let '(n, r) := leadingOnes fuel' (Z.land (Z.shiftl v 1) 255) in
           (n + 1, r)
      else (0, v)
  end.

(** [simpleMaskLength]: the prefix length of a canonical mask, -1
    otherwise. *)
Fixpoint simpleMaskLength (mask : IPMask) : Z :=
  match mask with
  | [] => 0
  | v :: rest =>
      if Z.eqb v 255 then
        let n := simpleMaskLength rest in
        if Z.eqb n (-1) then -1 else 8 + n
      else
        let '(n, r) := leadingOnes 8 v in
        if negb (Z.eqb r 0) then -1
        else if forallb (Z.eqb 0) rest then n else -1
  end.

(** [m.Size()]: (ones, bits), or (0, 0) for a mask that is not
    canonical. *)
Definition Size (m : IPMask) : Z * Z :=
  let ones := simpleMaskLength m in
  if Z.eqb ones (-1) then (0, 0) else (ones, Z.of_nat (length m) * 8).

(** [networkNumberAndMask]; nil results are empty slices. *)
Definition networkNumberAndMask (n : IPNet) : IP * IPMask :=
  let ip4 := To4 (ipnIP n) in
  let ip := match ip4 with Some x => x | None => ipnIP n end in
  if bool_decide (ip4 = None) && negb (Nat.eqb (length ip) IPv6len) then ([], [])
  else
    let m := ipnMask n in
    if Nat.eqb (length m) IPv4len then
      if negb (Nat.eqb (length ip) IPv4len) then ([], []) else (ip, m)
    else if Nat.eqb (length m) IPv6len then
      if Nat.eqb (length ip) IPv4len then (ip, drop 12 m) else (ip, m)
    else ([], []).

Fixpoint maskedEq (nn : IP) (m : IPMask) (ip : IP) : bool :=
  match nn, m, ip with
  | a :: nn', k :: m', b :: ip' =>
      Z.eqb (Z.land a k) (Z.land b k) && maskedEq nn' m' ip'
  | _, _, _ => true
  end.

(** [n.Contains(ip)]. *)
Definition Contains (n : IPNet) (ip : IP) : bool :=
  let '(nn, m) := networkNumberAndMask n in
  let ip := match To4 ip with Some x => x | None => ip end in
  if negb (Nat.eqb (length ip) (length nn)) then false
  else maskedEq nn m ip.

(** ** Driver configuration *)

Record Configuration : Type := mkConfiguration {
  BridgeName : string;
  AddressIPv4 : option IPNet;
  FixedCIDR : option IPNet;
  FixedCIDRv6 : option IPNet;
  EnableIPv6 : bool;
  EnableIPTables : bool;
  EnableIPMasquerade : bool;
  EnableICC : bool;
  EnableIPForwarding : bool;
  AllowNonDefaultBridge : bool;
  Mtu : Z;
  DefaultGatewayIPv4 : option IP;
  DefaultGatewayIPv6 : option IP;
  DefaultBindingIP : option IP
}.

(** [Configuration.Validate]: [None] is the nil error. *)
Definition Validate (c : Configuration) : option error :=
  if Z.ltb (Mtu c) 0 then Some ErrInvalidMtu
  else
    let v4 :=
      match AddressIPv4 c with
      | Some addr =>
          let fixed :=
            match FixedCIDR c with
            | Some f =>
                if negb (Contains addr (ipnIP f)) then Some ErrInvalidContainerSubnet
                else
                  let brNetLen := fst (Size (ipnMask addr)) in
                  let cnNetLen := fst (Size (ipnMask f)) in
                  if Z.gtb brNetLen cnNetLen then Some ErrInvalidContainerSubnet
                  else None
            | None => None
            end in
          match fixed with
          | Some e => Some e
          | None =>
              match DefaultGatewayIPv4 c with
              | Some gw =>
                  if negb (Contains addr gw) then Some ErrInvalidGateway else None
              | None => None
              end
          end
      | None => None
      end in
    match v4 with
    | Some e => Some e
    | None =>
        match EnableIPv6 c, DefaultGatewayIPv6 c with
        | true, Some gw6 =>
            match FixedCIDRv6 c with
            | None => Some ErrInvalidGateway
            | Some f6 =>
                if negb (Contains f6 gw6) then Some ErrInvalidGateway else None
            end
        | _, _ => None
        end
    end.

(** ** Endpoint, network and driver records *)

Inductive Protocol : Type := TCP | UDP | SCTP.

Global Instance Protocol_eq_dec : EqDecision Protocol.
Proof. solve_decision. Defined.

Global Instance Protocol_countable : Countable Protocol.
Proof.
  refine (inj_countable' (fun p => match p with TCP => 0%nat | UDP => 1%nat | SCTP => 2%nat end)
                         (fun n => match n with O => TCP | S O => UDP | _ => SCTP end) _).
  by intros [].
Defined.

(** Modelled from the spec: [netutils.PortBinding], whose declaration is
    not part of the sources at hand.  Section 3 gives its fields: protocol,
    container IP and port, host IP and port, and an optional host-port
    range (here its upper end, 0 when there is no range). *)
Record PortBinding : Type := mkPortBinding {
  pbProto : Protocol;
  pbIP : IP;
  pbPort : Z;
  pbHostIP : option IP;
  pbHostPort : Z;
  pbHostPortEnd : Z
}.

Definition HardwareAddr := list Z.

Record EndpointConfiguration : Type := mkEndpointConfiguration {
  MacAddress : option HardwareAddr;
  PortBindings : option (list PortBinding)
}.

Record ContainerConfiguration : Type := mkContainerConfiguration {
  parentEndpoints : list string;
  childEndpoints : list string
}.

(** [sandbox.Interface] and [sandbox.Info], by the fields the driver
    fills in. *)
Record Interface : Type := mkInterface {
  SrcName : string;
  DstName : string;
  Address : option IPNet;
  AddressIPv6 : option IPNet
}.

Record Info : Type := mkInfo {
  Interfaces : list Interface;
  Gateway : option IP;
  GatewayIPv6 : option IP
}.

Record bridgeEndpoint : Type := mkBridgeEndpoint {
  ep_id : string;
  ep_intf : option Interface;
  ep_config : option EndpointConfiguration;
  ep_portMapping : list PortBinding
}.

(** ** The kernel link list, as netlink shows it *)

Inductive LinkKind : Type :=
  | KBridge
  | KVeth (peer : string)
  | KDevice.

Record Link : Type := mkLink {
  linkName : string;
  linkKind : LinkKind;
  linkHardwareAddr : HardwareAddr;
  linkMTU : Z;
  linkMaster : option string;
  linkUp : bool
}.

(** The bridge interface handle: the kernel link (nil when the device
    does not exist) and the addresses recorded by the setup steps. *)
Record bridgeInterface : Type := mkBridgeInterface {
  bi_Link : option Link;
  bridgeIPv4 : option IPNet;
  bridgeIPv6 : option IPNet;
  gatewayIPv4 : option IP;
  gatewayIPv6 : option IP
}.

(** In the source [CreateNetwork] installs the network with a nil
    [bridge] and assigns the field in its next statements; no other
    operation of a sequential run sees the field nil, so the record holds
    the interface itself. *)
Record bridgeNetwork : Type := mkBridgeNetwork {
  n_id : string;
  n_bridge : bridgeInterface;
  n_endpoints : gmap string bridgeEndpoint
}.

Record driver : Type := mkDriver {
  d_config : option Configuration;
  d_network : option bridgeNetwork
}.

(** ** The world outside the driver *)

(** A link rule pair as [newLink] builds it. *)
Record link : Type := mkLinkRule {
  lnkParentIP : IP;
  lnkChildIP : IP;
  lnkPorts : list PortBinding;
  lnkBridge : string
}.

(** Calls made to the firewall programmer for links. *)
Inductive fwEvent : Type :=
  | EvEnable (l : link)
  | EvDisable (l : link).

Record World : Type := mkWorld {
  links : list Link;                      (* kernel link list *)
  allocatedIPs : gset (IPNet * IP);       (* ipAllocator: per-subnet pools *)
  reservedIPs : gset (IPNet * IP);        (* ipAllocator: reserved gateways *)
  boundPorts : gset (Protocol * IP * Z);  (* portMapper: (proto, host IP, host port) *)
  ephemeralPorts : list Z;                (* portMapper: the ephemeral pool, in order *)
  fwlog : list fwEvent                    (* firewall: link calls, oldest first *)
}.

Definition setLinks (w : World) (ls : list Link) : World :=
  mkWorld ls (allocatedIPs w) (reservedIPs w) (boundPorts w) (ephemeralPorts w) (fwlog w).
Definition setAllocated (w : World) (s : gset (IPNet * IP)) : World :=
  mkWorld (links w) s (reservedIPs w) (boundPorts w) (ephemeralPorts w) (fwlog w).
Definition setReserved (w : World) (s : gset (IPNet * IP)) : World :=
  mkWorld (links w) (allocatedIPs w) s (boundPorts w) (ephemeralPorts w) (fwlog w).
Definition setBound (w : World) (s : gset (Protocol * IP * Z)) : World :=
  mkWorld (links w) (allocatedIPs w) (reservedIPs w) s (ephemeralPorts w) (fwlog w).
Definition logFw (w : World) (e : fwEvent) : World :=
  mkWorld (links w) (allocatedIPs w) (reservedIPs w) (boundPorts w) (ephemeralPorts w)
          (fwlog w ++ [e]).

(** What the driver cannot decide: failures of system calls, and
    randomness.  Every field is an input of a run. *)
Inductive NetlinkCall : Type :=
  | CLinkAdd (name : string)
  | CLinkByName (name : string)
  | CLinkDel (name : string)
  | CLinkSetHardwareAddr (name : string)
  | CLinkSetMTU (name : string)
  | CLinkSetMaster (name : string).

Inductive setupStep : Type :=
  | setupDevice
  | setupBridgeIPv4
  | setupBridgeIPv6
  | setupVerifyAndReconcile
  | setupFixedCIDRv4
  | setupFixedCIDRv6
  | setupIPTables
  | setupIPForwarding
  | setupGatewayIPv4
  | setupGatewayIPv6
  | setupDeviceUp.

Global Instance setupStep_eq_dec : EqDecision setupStep.
Proof. solve_decision. Defined.

Record Env : Type := mkEnv {
  netlinkFault : NetlinkCall -> option error;  (* a netlink call fails *)
  ifaceFault : string -> bool;   (* listing the host's interfaces fails *)
  randHost : nat -> option N;    (* entropy of the i-th draw for the host-side name *)
  randSbox : nat -> option N;    (* entropy of the i-th draw for the sandbox-side name *)
  randMAC : HardwareAddr;        (* what GenerateRandomMAC returns *)
  stepFault : setupStep -> option error;       (* a setup step fails *)
  candidateIPv4 : option IPNet;  (* first predefined subnet free of host routes *)
  enableFault : link -> option error;          (* programming a link's rules fails *)
  releaseFault : IPNet -> IP -> option error   (* the allocator fails to release *)
}.

Definition findLink (name : string) (ls : list Link) : option Link :=
  List.find (fun l => String.eqb (linkName l) name) ls.

Definition hasLink (name : string) (ls : list Link) : bool :=
  match findLink name ls with Some _ => true | None => false end.

Definition updateLink (name : string) (f : Link -> Link) (ls : list Link) : list Link :=
  List.map (fun l => if String.eqb (linkName l) name then f l else l) ls.

Definition newLinkRecord (name : string) (k : LinkKind) : Link :=
  mkLink name k [] 1500 None false.

(** [netlink.LinkAdd] of a veth pair: both ends appear, or neither. *)
Definition LinkAddVeth (env : Env) (name peerName : string) (w : World)
  : option error * World :=
  match netlinkFault env (CLinkAdd name) with
  | Some e => (Some e, w)
  | None =>
      if hasLink name (links w) || hasLink peerName (links w) || String.eqb name peerName
      then (Some (ErrSys "file exists"), w)
      else (None, setLinks w (links w ++ [newLinkRecord name (KVeth peerName);
                                         newLinkRecord peerName (KVeth name)]))
  end.

(** [netlink.LinkAdd] of a bridge device. *)
Definition LinkAddBridge (env : Env) (name : string) (w : World)
  : option error * World :=
  match netlinkFault env (CLinkAdd name) with
  | Some e => (Some e, w)
  | None =>
      if hasLink name (links w) then (Some (ErrSys "file exists"), w)
      else (None, setLinks w (links w ++ [newLinkRecord name KBridge]))
  end.

(** [netlink.LinkByName]. *)
Definition LinkByName (env : Env) (name : string) (w : World) : result Link :=
  match netlinkFault env (CLinkByName name) with
  | Some e => Err e
  | None =>
      match findLink name (links w) with
      | Some l => Ok l
      | None => Err (ErrSys "Link not found")
      end
  end.

(** [netlink.LinkDel]: deleting one end of a veth pair deletes its peer
    too. *)
Definition LinkDel (env : Env) (l : Link) (w : World) : option error * World :=
  match netlinkFault env (CLinkDel (linkName l)) with
  | Some e => (Some e, w)
  | None =>
      match findLink (linkName l) (links w) with
      | None => (Some (ErrSys "no such device"), w)
      | Some cur =>
          let gone (x : Link) : bool :=
            String.eqb (linkName x) (linkName cur)
            || match linkKind cur with
               | KVeth peer => String.eqb (linkName x) peer
               | _ => false
               end in
          (None, setLinks w (List.filter (fun x => negb (gone x)) (links w)))
      end
  end.

Definition linkSet (env : Env) (call : NetlinkCall) (l : Link) (f : Link -> Link)
    (w : World) : option error * World :=
  match netlinkFault env call with
  | Some e => (Some e, w)
  | None =>
      if hasLink (linkName l) (links w)
      then (None, setLinks w (updateLink (linkName l) f (links w)))
      else (Some (ErrSys "no such device"), w)
  end.

Definition LinkSetHardwareAddr (env : Env) (l : Link) (mac : HardwareAddr) (w : World) :=
  linkSet env (CLinkSetHardwareAddr (linkName l)) l
    (fun x => mkLink (linkName x) (linkKind x) mac (linkMTU x) (linkMaster x) (linkUp x)) w.

Definition LinkSetMTU (env : Env) (l : Link) (mtu : Z) (w : World) :=
  linkSet env (CLinkSetMTU (linkName l)) l
    (fun x => mkLink (linkName x) (linkKind x) (linkHardwareAddr x) mtu (linkMaster x) (linkUp x)) w.

Definition LinkSetMaster (env : Env) (l : Link) (master : string) (w : World) :=
  if hasLink master (links w)
  then linkSet env (CLinkSetMaster (linkName l)) l
         (fun x => mkLink (linkName x) (linkKind x) (linkHardwareAddr x) (linkMTU x)
                          (Some master) (linkUp x)) w
  else (Some (ErrSys "no such device"), w).

Definition LinkSetUp (l : Link) (w : World) : World :=
  setLinks w (updateLink (linkName l)
    (fun x => mkLink (linkName x) (linkKind x) (linkHardwareAddr x) (linkMTU x)
                     (linkMaster x) true) (links w)).

(** ** The IP allocator *)

(** Big-endian value of a byte slice, and back. *)
Definition bytesToZ (bs : list Z) : Z :=
  fold_left (fun acc b => acc * 256 + b) bs 0.

Fixpoint ZToBytes (len : nat) (z : Z) : list Z :=
  match len with
  | O => []
  | S k => ZToBytes k (z / 256) ++ [z mod 256]
  end.

Definition networkNumber (n : IPNet) : Z :=
  bytesToZ (zip_with Z.land (ipnIP n) (ipnMask n)).

Definition broadcastNumber (n : IPNet) : Z :=
  bytesToZ (zip_with (fun a k => Z.lor (Z.land a k) (Z.lxor k 255)) (ipnIP n) (ipnMask n)).

Definition ipFree (network : IPNet) (ip : IP) (w : World) : bool :=
  bool_decide ((network, ip) ∉ allocatedIPs w) && bool_decide ((network, ip) ∉ reservedIPs w).

(** The lowest candidate from [cand] up to [last] that is not taken. *)
Fixpoint firstFree (fuel : nat) (taken : Z -> bool) (cand last : Z) : option Z :=
  match fuel with
  | O => None
  | S fuel' =>
      if Z.gtb cand last then None
      else if taken cand then firstFree fuel' taken (cand + 1) last
      else Some cand
  end.

(** Modelled from the spec: [ipallocator.RequestIP], which is not part of
    the sources at hand.  Section 4.6: the pool is keyed by subnet; a
    preferred address that is non-null and free is returned; otherwise the
    lowest free host address, excluding the network and broadcast addresses
    and any reserved gateway; exhaustion yields [NoAvailableIPs].  Every
    taken address is in one of the two finite sets, so a search of one more
    step than their sizes finds a free address if there is one. *)
Definition RequestIP (network : IPNet) (preferred : option IP) (w : World)
  : result IP * World :=
  let grant (ip : IP) :=
    (Ok ip, setAllocated w ({[ (network, ip) ]} ∪ allocatedIPs w)) in
  let search :=
    let len := length (ipnIP network) in
    let taken (z : Z) := negb (ipFree network (ZToBytes len z) w) in
    match firstFree (S (size (allocatedIPs w) + size (reservedIPs w))) taken
                    (networkNumber network + 1) (broadcastNumber network - 1) with
    | Some z => grant (ZToBytes len z)
    | None => (Err ErrNoAvailableIPs, w)
    end in
  match preferred with
  | Some ip => if ipFree network ip w then grant ip else search
  | None => search
  end.

(** Modelled from the spec: [ipallocator.ReleaseIP] (section 4.6), which
    returns the address to the pool of the subnet it is given.  The only
    failure it can report is one injected by the environment. *)
Definition ReleaseIP (env : Env) (network : IPNet) (ip : IP) (w : World)
  : option error * World :=
  match releaseFault env network ip with
  | Some e => (Some e, w)
  | None => (None, setAllocated w (allocatedIPs w ∖ {[ (network, ip) ]}))
  end.

(** ** The port mapper *)

Definition maxAllocatePortAttempts : nat := 10.

Definition defaultBindingIP : IP := [0; 0; 0; 0].

Definition portCandidates (b : PortBinding) (w : World) : list Z :=
  if Z.eqb (pbHostPort b) 0 then ephemeralPorts w
  else if Z.ltb (pbHostPort b) (pbHostPortEnd b)
       then List.map (fun i => pbHostPort b + Z.of_nat i)
                     (seq 0 (Z.to_nat (pbHostPortEnd b - pbHostPort b + 1)))
       else [pbHostPort b].

(** Modelled from the spec: [allocatePort], not part of the sources at
    hand.  Section 4.4: an exact host port is used as given; a range is
    tried in order; with neither, the port is drawn from the ephemeral
    pool; a binding is installed whole or not at all, and failure is
    [AllocatePort].  The world is deterministic, so the retries bounded by
    [maxAllocatePortAttempts] would each see the same answer and are not
    modelled. *)
Definition allocatePort (b : PortBinding) (containerIP defHostIP : IP) (w : World)
  : result PortBinding * World :=
  let hip := match pbHostIP b with Some ip => ip | None => defHostIP end in
  match List.find (fun p => bool_decide ((pbProto b, hip, p) ∉ boundPorts w))
                  (portCandidates b w) with
  | Some p =>
      (Ok (mkPortBinding (pbProto b) containerIP (pbPort b) (Some hip) p p),
       setBound w ({[ (pbProto b, hip, p) ]} ∪ boundPorts w))
  | None => (Err ErrAllocatePort, w)
  end.

Definition releasePort (b : PortBinding) (w : World) : World :=
  match pbHostIP b with
  | Some hip => setBound w (boundPorts w ∖ {[ (pbProto b, hip, pbHostPort b) ]})
  | None => w
  end.

(** Modelled from the spec: release of realized bindings (section 4.4):
    idempotent, and never failing the caller. *)
Definition releasePortsInternal (bs : list PortBinding) (w : World) : World :=
  fold_left (fun acc b => releasePort b acc) bs w.

(** Modelled from the spec: bindings are installed in order; sections 4.2
    and 7 have a failed endpoint creation leave no port binding behind
    while [CreateEndpoint] releases none itself, so a failure releases the
    bindings this call had installed. *)
Fixpoint allocatePortsInternal (bindings : list PortBinding) (containerIP defHostIP : IP)
    (installed : list PortBinding) (w : World) : result (list PortBinding) * World :=
  match bindings with
  | [] => (Ok installed, w)
  | b :: rest =>
      match allocatePort b containerIP defHostIP w with
      | (Ok r, w') =>
          allocatePortsInternal rest containerIP defHostIP (installed ++ [r]) w'
      | (Err e, w') => (Err e, releasePortsInternal installed w')
      end
  end.

(** Modelled from the spec: [allocatePorts] (step 13 of section 4.2): the
    requested bindings of the endpoint configuration are installed for the
    address of the first sandbox interface, on the given default binding
    address.  A missing interface address is a nil dereference. *)
Definition allocatePorts (epConfig : option EndpointConfiguration) (sinfo : Info)
    (reqDefBindIP : option IP) (w : World)
  : outcome (result (list PortBinding) * World) :=
  match epConfig with
  | None => Returns (Ok [], w)
  | Some ec =>
      match PortBindings ec with
      | None => Returns (Ok [], w)
      | Some bs =>
          let defHostIP :=
            match reqDefBindIP with Some ip => ip | None => defaultBindingIP end in
          match Interfaces sinfo with
          | {| Address := Some a |} :: _ =>
              Returns (allocatePortsInternal bs (ipnIP a) defHostIP [] w)
          | _ => Panics
          end
      end
  end.

(** Modelled from the spec: [releasePorts] releases the realized bindings
    of an endpoint. *)
Definition releasePorts (ep : bridgeEndpoint) (w : World) : World :=
  releasePortsInternal (ep_portMapping ep) w.

(** ** Interface names *)

Definition networkType : string := "bridge".
Definition vethPrefix : string := "veth".
Definition vethLen : nat := 7.
Definition containerVeth : string := "eth0".

Definition hexDigit (n : N) : ascii :=
  nth (N.to_nat (n mod 16))
      ["0"; "1"; "2"; "3"; "4"; "5"; "6"; "7"; "8"; "9"; "a"; "b"; "c"; "d"; "e"; "f"]%char
      "0"%char.

Fixpoint hexString (size : nat) (e : N) : string :=
  match size with
  | O => EmptyString
  | S k => String (hexDigit e) (hexString k (e / 16))
  end.

(** Modelled from the spec: [netutils.GenerateRandomName], not part of
    the sources at hand: the prefix followed by [size] random hex
    characters (section 4.2, step 4).  The randomness is an input; [None]
    is a failure of the random source. *)
Definition GenerateRandomName (prefix : string) (size : nat) (entropy : option N)
  : result string :=
  match entropy with
  | Some e => Ok (prefix +:+ hexString size e)
  | None => Err (ErrSys "random source failed")
  end.

Fixpoint isPrefixOf (p s : string) : bool :=
  match p, s with
  | EmptyString, _ => true
  | String a p', String b s' => Ascii.eqb a b && isPrefixOf p' s'
  | String _ _, EmptyString => false
  end.

(** [strings.Contains]. *)
Fixpoint strContains (s sub : string) : bool :=
  isPrefixOf sub s
  || match s with
     | EmptyString => false
     | String _ s' => strContains s' sub
     end.

(** [net.InterfaceByName]: the interface, or the text of the error.  An
    absent interface is reported as "no such network interface"; any other
    failure comes from listing the interfaces of the host. *)
Definition InterfaceByName (env : Env) (name : string) (w : World) : Link + string :=
  if ifaceFault env name
  then inr "route ip+net: netlinkrib: too many open files"
  else
    match findLink name (links w) with
    | Some l => inl l
    | None => inr "route ip+net: no such network interface"
    end.

(** The loop of [generateIfaceName]: [i] is the loop counter, [fuel] the
    iterations left. *)
Fixpoint generateIfaceNameFrom (env : Env) (rand : nat -> option N) (w : World)
    (i fuel : nat) : result string :=
  match fuel with
  | O => Err ErrIfaceName
  | S fuel' =>
      match GenerateRandomName vethPrefix vethLen (rand i) with
      | Err _ => generateIfaceNameFrom env rand w (S i) fuel'
      | Ok name =>
          match InterfaceByName env name w with
          | inr msg =>
              if strContains msg "no such" then Ok name else Err (ErrSys msg)
          | inl _ => generateIfaceNameFrom env rand w (S i) fuel'
          end
      end
  end.

Definition generateIfaceName (env : Env) (rand : nat -> option N) (w : World)
  : result string :=
  generateIfaceNameFrom env rand w 0 3.

(** ** Option maps *)

(** The keys of package [options] that the driver reads. *)
Module options.
Definition GenericData : string := "GenericData".
Definition MacAddress : string := "MacAddress".
Definition PortMap : string := "PortMap".
End options.

(** A value of a [map[string]interface{}], by its dynamic type.  A value
    of type [options.Generic] is decoded by [options.GenerateFromModel],
    which is not part of the sources at hand: the value carries what the
    decoding into each model returns. *)
Inductive anyval : Type :=
  | VGeneric (asConfiguration : result Configuration)
             (asContainerConfiguration : result ContainerConfiguration)
  | VConfiguration (c : option Configuration)
  | VContainerConfiguration (cc : option ContainerConfiguration)
  | VHardwareAddr (mac : HardwareAddr)
  | VPortBindings (bs : list PortBinding)
  | VOther.

(** An option map; [None] is the nil map. *)
Definition Options := option (gmap string anyval).

Definition optionLookup (o : Options) (key : string) : option anyval :=
  match o with
  | Some m => m !! key
  | None => None
  end.

Definition parseEndpointOptions (epOptions : Options)
  : result (option EndpointConfiguration) :=
  match epOptions with
  | None => Ok None
  | Some m =>
      let mac :=
        match m !! options.MacAddress with
        | Some (VHardwareAddr mac) => Ok (Some mac)
        | Some _ => Err ErrInvalidEndpointConfig
        | None => Ok None
        end in
      match mac with
      | Err e => Err e
      | Ok mac =>
          match m !! options.PortMap with
          | Some (VPortBindings bs) => Ok (Some (mkEndpointConfiguration mac (Some bs)))
          | Some _ => Err ErrInvalidEndpointConfig
          | None => Ok (Some (mkEndpointConfiguration mac None))
          end
      end
  end.

Definition parseContainerOptions (cOptions : Options)
  : result (option ContainerConfiguration) :=
  match cOptions with
  | None => Ok None
  | Some m =>
      match m !! options.GenericData with
      | None => Ok None
      | Some (VGeneric _ (Err e)) => Err e
      | Some (VGeneric _ (Ok cc)) => Ok (Some cc)
      | Some (VContainerConfiguration cc) => Ok cc
      | Some _ => Ok None
      end
  end.

Definition electMacAddress (env : Env) (epConfig : option EndpointConfiguration)
  : HardwareAddr :=
  match epConfig with
  | Some {| MacAddress := Some mac |} => mac
  | _ => randMAC env
  end.

(** ** Deferred functions *)

(** How a function body ends: what it returns (or a panic), the value its
    own variable [err] holds at that moment, and the state it leaves.  The
    deferred closures of the driver all read that variable [err], which a
    [return] of a shadowing [err] does not set. *)
Record Exit (S R : Type) : Type := mkExit {
  ex_result : outcome R;
  ex_err : option error;
  ex_state : S
}.
Arguments mkExit {S R} _ _ _.
Arguments ex_result {S R} _.
Arguments ex_err {S R} _.
Arguments ex_state {S R} _.

(** [defer func() { if err != nil { cleanup } }()] followed by [rest]. *)
Definition onError {S R : Type} (cleanup : S -> S) (rest : Exit S R) : Exit S R :=
  match ex_err rest with
  | Some _ => mkExit (ex_result rest) (ex_err rest) (cleanup (ex_state rest))
  | None => rest
  end.

(** [return nil, err] and [return err] of the function's own [err]. *)
Definition failWith {S A : Type} (e : error) (s : S) : Exit S (result A) :=
  mkExit (Returns (Err e)) (Some e) s.

(** [return nil, err] where [err] is a variable of an inner block that
    shadows the function's own, which stays nil. *)
Definition failShadowed {S A : Type} (e : error) (s : S) : Exit S (result A) :=
  mkExit (Returns (Err e)) None s.

(** A panic unwinds through the deferred functions with [err] as it
    stands; at each place the driver can panic, [err] is nil. *)
Definition panicked {S R : Type} (s : S) : Exit S R :=
  mkExit Panics None s.

(** ** Networks and endpoints *)

Definition setEndpoints (n : bridgeNetwork) (m : gmap string bridgeEndpoint)
  : bridgeNetwork :=
  mkBridgeNetwork (n_id n) (n_bridge n) m.

Definition getEndpoint (n : bridgeNetwork) (eid : string)
  : result (option bridgeEndpoint) :=
  if String.eqb eid "" then Err (InvalidEndpointIDError eid)
  else Ok (n_endpoints n !! eid).

(** The loop [for i, h := range mac { ip6[i+10] = h }]; an index past the
    end of [ip6] panics. *)
Fixpoint copyMAC (ip6 : IP) (i : nat) (mac : HardwareAddr) : outcome IP :=
  match mac with
  | [] => Returns ip6
  | h :: rest =>
      if Nat.ltb (i + 10) (length ip6)
      then copyMAC (<[(i + 10)%nat := h]> ip6) (S i) rest
      else Panics
  end.

(** The preferred IPv6 address of [CreateEndpoint]: nil unless the prefix
    is at most 80 bits long. *)
Definition preferredIPv6 (network : IPNet) (mac : HardwareAddr) : outcome (option IP) :=
  let ones := fst (Size (ipnMask network)) in
  if Z.leb ones 80 then
    match copyMAC (ipnIP network) 0 mac with
    | Returns ip6 => Returns (Some ip6)
    | Panics => Panics
    end
  else Returns None.

Definition NetState : Type := bridgeNetwork * World.

(** The IPv6 network of [CreateEndpoint]: [config.FixedCIDRv6] when it is
    set, otherwise [n.bridge.bridgeIPv6]; nil makes the use of its mask
    panic. *)
Definition ipv6Network (config : Configuration) (n : bridgeNetwork) : option IPNet :=
  match FixedCIDRv6 config with
  | Some f => Some f
  | None => bridgeIPv6 (n_bridge n)
  end.

(** [CreateEndpoint], from the IPv4 allocation to the end.  [endpoint] is
    the placeholder that the table already holds under [eid]; assignments
    through the pointer show in the table. *)
Definition CreateEndpoint_addresses (env : Env) (config : Configuration) (eid : string)
    (epConfig : option EndpointConfiguration) (name2 : string) (mac : HardwareAddr)
    (s : NetState) : Exit NetState (result Info) :=
  let '(n, w) := s in
  match bridgeIPv4 (n_bridge n) with
  | None => panicked s
  | Some br4 =>
      match RequestIP br4 None w with
      | (Err e, w) => failWith e (n, w)
      | (Ok ip4, w) =>
          let ipv4Addr := mkIPNet ip4 (ipnMask br4) in
          let v6 : Exit NetState (result (option IPNet)) :=
            if EnableIPv6 config then
              match ipv6Network config n with
              | None => panicked (n, w)
              | Some network =>
                  match preferredIPv6 network mac with
                  | Panics => panicked (n, w)
                  | Returns ip6 =>
                      (* ip6, err := ipAllocator.RequestIP(network, ip6) *)
                      match RequestIP network ip6 w with
                      | (Err e, w) => failShadowed e (n, w)
                      | (Ok ip6, w) =>
                          mkExit (Returns (Ok (Some (mkIPNet ip6 (ipnMask network)))))
                                 None (n, w)
                      end
                  end
              end
            else mkExit (Returns (Ok None)) None (n, w) in
          match ex_result v6 with
          | Panics => panicked (ex_state v6)
          | Returns (Err e) => mkExit (Returns (Err e)) (ex_err v6) (ex_state v6)
          | Returns (Ok ipv6Addr) =>
              let '(n, w) := ex_state v6 in
              let intf :=
                mkInterface name2 containerVeth (Some ipv4Addr)
                            (if EnableIPv6 config then ipv6Addr else None) in
              let sinfo :=
                mkInfo [intf] (gatewayIPv4 (n_bridge n))
                       (if EnableIPv6 config then gatewayIPv6 (n_bridge n) else None) in
              match allocatePorts epConfig sinfo (DefaultBindingIP config) w with
              | Panics =>
                  panicked (setEndpoints n (<[eid := mkBridgeEndpoint eid (Some intf) epConfig []]>
                                              (n_endpoints n)), w)
              | Returns (Err e, w) =>
                  failWith e (setEndpoints n (<[eid := mkBridgeEndpoint eid (Some intf) epConfig []]>
                                                (n_endpoints n)), w)
              | Returns (Ok pm, w) =>
                  mkExit (Returns (Ok sinfo)) None
                         (setEndpoints n (<[eid := mkBridgeEndpoint eid (Some intf) epConfig pm]>
                                            (n_endpoints n)), w)
              end
          end
      end
  end.

(** [CreateEndpoint], from the creation of the veth pair to the
    attachment to the bridge, with the two deferred deletions. *)
Definition CreateEndpoint_veth (env : Env) (config : option Configuration) (eid : string)
    (epConfig : option EndpointConfiguration) (s : NetState)
  : Exit NetState (result Info) :=
  let '(n, w) := s in
  match generateIfaceName env (randHost env) w with
  | Err e => failWith e s
  | Ok name1 =>
  match generateIfaceName env (randSbox env) w with
  | Err e => failWith e s
  | Ok name2 =>
  match LinkAddVeth env name1 name2 w with
  | (Some e, w) => failWith e (n, w)
  | (None, w) =>
  match LinkByName env name1 w with
  | Err e => failWith e (n, w)
  | Ok host =>
  onError (fun s => (fst s, snd (LinkDel env host (snd s))))
  match LinkByName env name2 w with
  | Err e => failWith e (n, w)
  | Ok sbox =>
  onError (fun s => (fst s, snd (LinkDel env sbox (snd s))))
  (let mac := electMacAddress env epConfig in
   match LinkSetHardwareAddr env sbox mac w with
   | (Some e, w) => failWith e (n, w)
   | (None, w) =>
   match config with
   | None => panicked (n, w)
   | Some config =>
       let mtu : option error * World :=
         if negb (Z.eqb (Mtu config) 0) then
           match LinkSetMTU env host (Mtu config) w with
           | (Some e, w) => (Some e, w)
           | (None, w) => LinkSetMTU env sbox (Mtu config) w
           end
         else (None, w) in
       match mtu with
       | (Some e, w) => failWith e (n, w)
       | (None, w) =>
       match LinkSetMaster env host (BridgeName config) w with
       | (Some e, w) => failWith e (n, w)
       | (None, w) => CreateEndpoint_addresses env config eid epConfig name2 mac (n, w)
       end
       end
   end
   end)
  end
  end
  end
  end
  end.

Definition CreateEndpoint (env : Env) (nid eid : string) (epOptions : Options)
    (d : driver) (w : World) : outcome (result Info) * driver * World :=
  match d_network d with
  | None => (Returns (Err ErrNoNetwork), d, w)
  | Some n =>
      if negb (String.eqb (n_id n) nid)
      then (Returns (Err (InvalidNetworkIDError nid)), d, w)
      else
        match getEndpoint n eid with
        | Err e => (Returns (Err e), d, w)
        | Ok (Some _) => (Returns (Err ErrEndpointExists), d, w)
        | Ok None =>
            match parseEndpointOptions epOptions with
            | Err e => (Returns (Err e), d, w)
            | Ok epConfig =>
                let endpoint := mkBridgeEndpoint eid None epConfig [] in
                let n1 := setEndpoints n (<[eid := endpoint]> (n_endpoints n)) in
                let ex :=
                  onError (fun s => (setEndpoints (fst s) (delete eid (n_endpoints (fst s))),
                                     snd s))
                          (CreateEndpoint_veth env (d_config d) eid epConfig (n1, w)) in
                (ex_result ex,
                 mkDriver (d_config d) (Some (fst (ex_state ex))),
                 snd (ex_state ex))
            end
        end
  end.

(** [DeleteEndpoint] after the endpoint has been taken out of the table:
    release of ports and addresses, removal of the link. *)
Definition DeleteEndpoint_release (env : Env) (config : option Configuration)
    (ep : bridgeEndpoint) (s : NetState) : Exit NetState (option error) :=
  let '(n, w) := s in
  let w := releasePorts ep w in
  match bridgeIPv4 (n_bridge n), ep_intf ep with
  | Some br4, Some intf =>
      match Address intf with
      | None => panicked (n, w)
      | Some a4 =>
          match ReleaseIP env br4 (ipnIP a4) w with
          | (Some e, w) => mkExit (Returns (Some e)) (Some e) (n, w)
          | (None, w) =>
              match config with
              | None => panicked (n, w)
              | Some config =>
                  let v6 : Exit NetState (option error) :=
                    if EnableIPv6 config then
                      match bridgeIPv6 (n_bridge n), AddressIPv6 intf with
                      | Some br6, Some a6 =>
                          (* err := ipAllocator.ReleaseIP(n.bridge.bridgeIPv6, ...) *)
                          match ReleaseIP env br6 (ipnIP a6) w with
                          | (Some e, w) => mkExit (Returns (Some e)) None (n, w)
                          | (None, w) => mkExit (Returns None) None (n, w)
                          end
                      | _, _ => panicked (n, w)
                      end
                    else mkExit (Returns None) None (n, w) in
                  match ex_result v6 with
                  | Returns None =>
                      let '(n, w) := ex_state v6 in
                      (* link, err := netlink.LinkByName(ep.intf.SrcName) *)
                      match LinkByName env (SrcName intf) w with
                      | Ok l => mkExit (Returns None) None (n, snd (LinkDel env l w))
                      | Err e => mkExit (Returns None) (Some e) (n, w)
                      end
                  | _ => v6
                  end
              end
          end
      end
  | _, _ => panicked (n, w)
  end.

Definition DeleteEndpoint (env : Env) (nid eid : string) (d : driver) (w : World)
  : outcome (option error) * driver * World :=
  match d_network d with
  | None => (Returns (Some ErrNoNetwork), d, w)
  | Some n =>
      if negb (String.eqb (n_id n) nid)
      then (Returns (Some (InvalidNetworkIDError nid)), d, w)
      else
        match getEndpoint n eid with
        | Err e => (Returns (Some e), d, w)
        | Ok None => (Returns (Some (EndpointNotFoundError eid)), d, w)
        | Ok (Some ep) =>
            let n1 := setEndpoints n (delete eid (n_endpoints n)) in
            let ex :=
              onError (fun s =>
                         match n_endpoints (fst s) !! eid with
                         | None => (setEndpoints (fst s) (<[eid := ep]> (n_endpoints (fst s))),
                                    snd s)
                         | Some _ => s
                         end)
                      (DeleteEndpoint_release env (d_config d) ep (n1, w)) in
            (ex_result ex,
             mkDriver (d_config d) (Some (fst (ex_state ex))),
             snd (ex_state ex))
        end
  end.

(** ** Links between containers *)

(** Modelled from the spec: [newLink], [link.Enable] and [link.Disable]
    are not part of the sources at hand.  Section 4.5: enabling installs
    the ACCEPT rules of the pair and can fail; disabling removes them and
    reports nothing.  Each call that reaches the firewall is logged. *)
Definition newLink (parentIP childIP : IP) (ports : list PortBinding) (bridge : string)
  : link :=
  mkLinkRule parentIP childIP ports bridge.

Definition Enable (env : Env) (l : link) (w : World) : option error * World :=
  match enableFault env l with
  | Some e => (Some e, w)
  | None => (None, logFw w (EvEnable l))
  end.

Definition Disable (l : link) (w : World) : World := logFw w (EvDisable l).

(** [ep.intf.Address.IP], which panics on a nil [intf] or [Address]. *)
Definition endpointIPv4 (ep : bridgeEndpoint) : outcome IP :=
  match ep_intf ep with
  | Some {| Address := Some a |} => Returns (ipnIP a)
  | _ => Panics
  end.

(** One iteration body shared by the two loops of [link]: enable [l] and
    defer its disabling, or disable it at once. *)
Definition programLink (env : Env) (enable : bool) (l : link)
    (rest : World -> Exit World (option error)) (w : World)
  : Exit World (option error) :=
  if enable then
    match Enable env l w with
    | (Some e, w) => mkExit (Returns (Some e)) (Some e) w
    | (None, w) => onError (Disable l) (rest w)
    end
  else rest (Disable l w).

(** The loop over [cc.parentEndpoints]; [rest] is what follows it. *)
Fixpoint linkParents (env : Env) (network : bridgeNetwork) (endpoint : bridgeEndpoint)
    (ports : list PortBinding) (bridge : string) (enable : bool) (ps : list string)
    (rest : World -> Exit World (option error)) (w : World)
  : Exit World (option error) :=
  match ps with
  | [] => rest w
  | p :: ps' =>
      match getEndpoint network p with
      | Err e => mkExit (Returns (Some e)) (Some e) w
      | Ok None =>
          mkExit (Returns (Some (InvalidEndpointIDError p))) (Some (InvalidEndpointIDError p)) w
      | Ok (Some parentEndpoint) =>
          match endpointIPv4 parentEndpoint, endpointIPv4 endpoint with
          | Returns pip, Returns cip =>
              programLink env enable (newLink pip cip ports bridge)
                (linkParents env network endpoint ports bridge enable ps' rest) w
          | _, _ => panicked w
          end
      end
  end.

(** The loop over [cc.childEndpoints], and the final [return nil]. *)
Fixpoint linkChildren (env : Env) (network : bridgeNetwork) (endpoint : bridgeEndpoint)
    (bridge : string) (enable : bool) (cs : list string) (w : World)
  : Exit World (option error) :=
  match cs with
  | [] => mkExit (Returns None) None w
  | c :: cs' =>
      match getEndpoint network c with
      | Err e => mkExit (Returns (Some e)) (Some e) w
      | Ok None =>
          mkExit (Returns (Some (InvalidEndpointIDError c))) (Some (InvalidEndpointIDError c)) w
      | Ok (Some childEndpoint) =>
          match ep_config childEndpoint with
          | Some {| PortBindings := Some childPorts |} =>
              match endpointIPv4 endpoint, endpointIPv4 childEndpoint with
              | Returns pip, Returns cip =>
                  programLink env enable (newLink pip cip childPorts bridge)
                    (linkChildren env network endpoint bridge enable cs') w
              | _, _ => panicked w
              end
          | _ => linkChildren env network endpoint bridge enable cs' w
          end
      end
  end.

(** [driver.link]; [d.getNetwork] returns the only network, and calling
    [getEndpoint] on a nil network panics. *)
Definition link_ (env : Env) (config : Configuration) (eid : string)
    (opts : Options) (enable : bool) (d : driver) (w : World)
  : Exit World (option error) :=
  match d_network d with
  | None => panicked w
  | Some network =>
      match getEndpoint network eid with
      | Err e => mkExit (Returns (Some e)) (Some e) w
      | Ok None =>
          mkExit (Returns (Some (EndpointNotFoundError eid))) (Some (EndpointNotFoundError eid)) w
      | Ok (Some endpoint) =>
          match parseContainerOptions opts with
          | Err e => mkExit (Returns (Some e)) (Some e) w
          | Ok None => mkExit (Returns None) None w
          | Ok (Some cc) =>
              let children :=
                linkChildren env network endpoint (BridgeName config) enable
                             (childEndpoints cc) in
              match ep_config endpoint with
              | Some {| PortBindings := Some ports |} =>
                  linkParents env network endpoint ports (BridgeName config) enable
                              (parentEndpoints cc) children w
              | _ => children w
              end
          end
      end
  end.

(** [Join] and [Leave]; the network id and the sandbox key are not
    read. *)
Definition Join (env : Env) (nid eid sboxKey : string) (opts : Options)
    (d : driver) (w : World) : outcome (option error) * World :=
  match d_config d with
  | None => (Panics, w)
  | Some config =>
      if negb (EnableICC config) then
        let ex := link_ env config eid opts true d w in
        (ex_result ex, ex_state ex)
      else (Returns None, w)
  end.

Definition Leave (env : Env) (nid eid : string) (opts : Options)
    (d : driver) (w : World) : outcome (option error) * World :=
  match d_config d with
  | None => (Panics, w)
  | Some config =>
      if negb (EnableICC config) then
        let ex := link_ env config eid opts false d w in
        (ex_result ex, ex_state ex)
      else (Returns None, w)
  end.

(** ** Driver configuration and the network *)

(** [driver.Config]. *)
Definition Config (opts : Options) (d : driver) : outcome (option error) * driver :=
  match d_config d with
  | Some _ => (Returns (Some ErrConfigExists), d)
  | None =>
      match optionLookup opts options.GenericData with
      | None => (Returns None, d)
      | Some genericData =>
          let decoded : outcome (result Configuration) :=
            match genericData with
            | VGeneric (Err e) _ => Returns (Err e)
            | VGeneric (Ok c) _ => Returns (Ok c)
            | VConfiguration (Some c) => Returns (Ok c)
            | VConfiguration None => Panics
            | _ => Returns (Err ErrInvalidDriverConfig)
            end in
          match decoded with
          | Panics => (Panics, d)
          | Returns (Err e) => (Returns (Some e), d)
          | Returns (Ok config) =>
              match Validate config with
              | Some e => (Returns (Some e), d)
              | None => (Returns None, mkDriver (Some config) (d_network d))
              end
          end
      end
  end.

(** Modelled from the spec: [newInterface] and [exists], not part of the
    sources at hand: the handle retrieves the kernel link bearing the
    configured bridge name, and the bridge exists when there is one. *)
Definition newInterface (env : Env) (config : Configuration) (w : World)
  : bridgeInterface :=
  mkBridgeInterface
    (match LinkByName env (BridgeName config) w with Ok l => Some l | Err _ => None end)
    None None None None.

Definition exists_ (i : bridgeInterface) : bool :=
  match bi_Link i with Some _ => true | None => false end.

(** Modelled from the spec: the setup queue of section 4.3, whose
    declaration is not part of the sources at hand: [queueStep] appends
    and [apply] runs the steps in enqueue order, stopping at the first
    error. *)
Record bridgeSetup : Type := mkBridgeSetup {
  bs_config : Configuration;
  bs_bridge : bridgeInterface;
  bs_steps : list setupStep
}.

Definition newBridgeSetup (c : Configuration) (i : bridgeInterface) : bridgeSetup :=
  mkBridgeSetup c i [].

Definition queueStep (b : bridgeSetup) (step : setupStep) : bridgeSetup :=
  mkBridgeSetup (bs_config b) (bs_bridge b) (bs_steps b ++ [step]).

Fixpoint applySteps {S : Type} (run : setupStep -> S -> option error * S)
    (steps : list setupStep) (s : S) : option error * S :=
  match steps with
  | [] => (None, s)
  | step :: rest =>
      match run step s with
      | (Some e, s') => (Some e, s')
      | (None, s') => applySteps run rest s'
      end
  end.

Definition linkLocalIPv6 : IPNet :=
  mkIPNet [254; 128; 0; 0; 0; 0; 0; 0; 0; 0; 0; 0; 0; 0; 0; 1]
          [255; 255; 255; 255; 255; 255; 255; 255; 0; 0; 0; 0; 0; 0; 0; 0].

Definition setBridgeLink (i : bridgeInterface) (l : option Link) : bridgeInterface :=
  mkBridgeInterface l (bridgeIPv4 i) (bridgeIPv6 i) (gatewayIPv4 i) (gatewayIPv6 i).
Definition setBridgeIPv4 (i : bridgeInterface) (a : option IPNet) : bridgeInterface :=
  mkBridgeInterface (bi_Link i) a (bridgeIPv6 i) (gatewayIPv4 i) (gatewayIPv6 i).
Definition setBridgeIPv6 (i : bridgeInterface) (a : option IPNet) : bridgeInterface :=
  mkBridgeInterface (bi_Link i) (bridgeIPv4 i) a (gatewayIPv4 i) (gatewayIPv6 i).
Definition setGatewayIPv4 (i : bridgeInterface) (g : option IP) : bridgeInterface :=
  mkBridgeInterface (bi_Link i) (bridgeIPv4 i) (bridgeIPv6 i) g (gatewayIPv6 i).
Definition setGatewayIPv6 (i : bridgeInterface) (g : option IP) : bridgeInterface :=
  mkBridgeInterface (bi_Link i) (bridgeIPv4 i) (bridgeIPv6 i) (gatewayIPv4 i) g.

(** The subnet of the bridge: the configured one, otherwise the first
    predefined candidate that overlaps no host route. *)
Definition electBridgeIPv4 (env : Env) (config : Configuration) : option IPNet :=
  match AddressIPv4 config with
  | Some a => Some a
  | None => candidateIPv4 env
  end.

(** Modelled from the spec: the setup steps, none of which is part of
    the sources at hand, by the step semantics of section 4.3, as far as
    they reach the world of this model: [setupDevice] creates the bridge
    link; the address steps record the addresses on the interface; the
    fixed-CIDR step reserves the bridge address with the allocator; the
    gateway steps record the configured gateways; [setupDeviceUp] brings
    the link up.  Firewall chains and sysctls are outside the world.  A
    step can also fail for a reason of its own, given by the
    environment. *)
Definition runStep (env : Env) (config : Configuration) (step : setupStep)
    (s : bridgeInterface * World) : option error * (bridgeInterface * World) :=
  let '(i, w) := s in
  match stepFault env step with
  | Some e => (Some e, s)
  | None =>
      match step with
      | setupDevice =>
          match LinkAddBridge env (BridgeName config) w with
          | (Some e, w') => (Some e, (i, w'))
          | (None, w') => (None, (setBridgeLink i (findLink (BridgeName config) (links w')), w'))
          end
      | setupBridgeIPv4 | setupVerifyAndReconcile =>
          match electBridgeIPv4 env config with
          | Some a => (None, (setBridgeIPv4 i (Some a), w))
          | None => (Some (ErrSys "no available network"), s)
          end
      | setupBridgeIPv6 => (None, (setBridgeIPv6 i (Some linkLocalIPv6), w))
      | setupFixedCIDRv4 =>
          match bridgeIPv4 i with
          | Some b => (None, (i, setReserved w ({[ (b, ipnIP b) ]} ∪ reservedIPs w)))
          | None => (None, s)
          end
      | setupFixedCIDRv6 =>
          match FixedCIDRv6 config with
          | Some f => (None, (i, setReserved w ({[ (f, ipnIP f) ]} ∪ reservedIPs w)))
          | None => (None, s)
          end
      | setupIPTables | setupIPForwarding => (None, s)
      | setupGatewayIPv4 => (None, (setGatewayIPv4 i (DefaultGatewayIPv4 config), w))
      | setupGatewayIPv6 => (None, (setGatewayIPv6 i (DefaultGatewayIPv6 config), w))
      | setupDeviceUp =>
          match bi_Link i with
          | Some l => (None, (i, LinkSetUp l w))
          | None => (Some (ErrSys "no such device"), s)
          end
      end
  end.

Definition apply (env : Env) (b : bridgeSetup) (w : World)
  : option error * (bridgeInterface * World) :=
  applySteps (runStep env (bs_config b)) (bs_steps b) (bs_bridge b, w).

Definition isSet {A : Type} (o : option A) : bool :=
  match o with Some _ => true | None => false end.

(** The queue that [CreateNetwork] prepares. *)
Definition queueSetupSteps (config : Configuration) (bridgeAlreadyExists : bool)
    (setup : bridgeSetup) : bridgeSetup :=
  let setup :=
    if negb bridgeAlreadyExists
    then queueStep (queueStep setup setupDevice) setupBridgeIPv4
    else setup in
  let setup :=
    fold_left
      (fun b (step : bool * setupStep) => if fst step then queueStep b (snd step) else b)
      [ (EnableIPv6 config, setupBridgeIPv6);
        (bridgeAlreadyExists, setupVerifyAndReconcile);
        (isSet (FixedCIDR config), setupFixedCIDRv4);
        (isSet (FixedCIDRv6 config), setupFixedCIDRv6);
        (EnableIPTables config, setupIPTables);
        (EnableIPForwarding config, setupIPForwarding);
        (isSet (DefaultGatewayIPv4 config), setupGatewayIPv4);
        (isSet (DefaultGatewayIPv6 config), setupGatewayIPv6) ]
      setup in
  queueStep setup setupDeviceUp.

(** [CreateNetwork].  The option map is not read.  The placeholder
    network is installed under the lock; its [bridge] is the interface
    that the steps update; the deferred function resets [d.network] when
    [err] is set. *)
Definition CreateNetwork (env : Env) (id : string) (d : driver) (w : World)
  : option error * driver * World :=
  match d_config d with
  | None => (Some ErrInvalidNetworkConfig, d, w)
  | Some config =>
      match d_network d with
      | Some _ => (Some ErrNetworkExists, d, w)
      | None =>
          let bridgeIface := newInterface env config w in
          let setup := newBridgeSetup config bridgeIface in
          let bridgeAlreadyExists := exists_ bridgeIface in
          let setup := queueSetupSteps config bridgeAlreadyExists setup in
          let '(err, (bridgeIface, w)) := apply env setup w in
          let installed := mkDriver (d_config d) (Some (mkBridgeNetwork id bridgeIface ∅)) in
          let ex :=
            onError (fun d : driver => mkDriver (d_config d) None)
                    (mkExit (Returns err) err installed) in
          (err, ex_state ex, w)
      end
  end.

(** [DeleteNetwork]; the network id is not read.  The body runs with the
    driver unlocked: [others] is what other callers do to the driver
    between the detachment and the deferred function.  A nil link handle
    makes [netlink.LinkDel] panic. *)
Definition DeleteNetworkAmong (others : driver -> driver) (env : Env) (d : driver)
    (w : World) : outcome (option error) * driver * World :=
  let n := d_network d in
  let detached := mkDriver (d_config d) None in
  let body : Exit World (option error) :=
    match n with
    | None => mkExit (Returns (Some ErrNoNetwork)) (Some ErrNoNetwork) w
    | Some n =>
        if negb (Nat.eqb (size (n_endpoints n)) 0)
        then mkExit (Returns (Some (ActiveEndpointsError (n_id n))))
                    (Some (ActiveEndpointsError (n_id n))) w
        else
          match bi_Link (n_bridge n) with
          | None => panicked w
          | Some l =>
              let '(err, w) := LinkDel env l w in
              mkExit (Returns err) err w
          end
    end in
  let ex :=
    onError (fun d : driver =>
               match d_network d with
               | None => mkDriver (d_config d) n
               | Some _ => d
               end)
            (mkExit (ex_result body) (ex_err body) (others detached)) in
  (ex_result ex, ex_state ex, ex_state body).

Definition DeleteNetwork (env : Env) (d : driver) (w : World)
  : outcome (option error) * driver * World :=
  DeleteNetworkAmong (fun d => d) env d w.

(** ** Configuration invariants, as stated *)

(** The invariants on configuration in the words of section 3: "MTU >= 0;
    if a container sub-CIDR is set, it must be contained in the bridge
    subnet and its prefix length >= the bridge's; if an IPv4 default
    gateway is set, it must lie within the bridge subnet; if IPv6 is
    enabled and a v6 gateway is set, a v6 sub-CIDR must be set and contain
    the gateway".  To be contained in the bridge subnet there has to be
    one. *)
Definition ConfigurationInvariants (c : Configuration) : Prop :=
  0 <= Mtu c
  /\ (forall sub, FixedCIDR c = Some sub ->
        exists br, AddressIPv4 c = Some br
                   /\ Contains br (ipnIP sub) = true
                   /\ fst (Size (ipnMask br)) <= fst (Size (ipnMask sub)))
  /\ (forall gw, DefaultGatewayIPv4 c = Some gw ->
        exists br, AddressIPv4 c = Some br /\ Contains br gw = true)
  /\ (EnableIPv6 c = true ->
      forall gw6, DefaultGatewayIPv6 c = Some gw6 ->
        exists f6, FixedCIDRv6 c = Some f6 /\ Contains f6 gw6 = true).

(** The same invariants with the two IPv4 conditions applying only to a
    configuration that gives the bridge a subnet. *)
Definition fixedCIDRInvariant (c : Configuration) : Prop :=
  forall br sub, AddressIPv4 c = Some br -> FixedCIDR c = Some sub ->
    Contains br (ipnIP sub) = true
    /\ fst (Size (ipnMask br)) <= fst (Size (ipnMask sub)).

Definition gatewayIPv4Invariant (c : Configuration) : Prop :=
  forall br gw, AddressIPv4 c = Some br -> DefaultGatewayIPv4 c = Some gw ->
    Contains br gw = true.

Definition gatewayIPv6Invariant (c : Configuration) : Prop :=
  EnableIPv6 c = true ->
  forall gw6, DefaultGatewayIPv6 c = Some gw6 ->
    exists f6, FixedCIDRv6 c = Some f6 /\ Contains f6 gw6 = true.

Definition ConfigurationInvariantsOfSubnet (c : Configuration) : Prop :=
  0 <= Mtu c /\ fixedCIDRInvariant c /\ gatewayIPv4Invariant c /\ gatewayIPv6Invariant c.

(** A configuration with a default gateway and no bridge subnet. *)
Definition gatewayWithoutSubnet : Configuration :=
  mkConfiguration "docker0" None None None false false false true false false 0
                  (Some [10; 1; 2; 3]) None None.

(** ** The setup queue, as stated *)

(** The order in which section 4.1 lists the setup steps, and the
    condition under which it has each queued. *)
Definition canonicalOrder : list setupStep :=
  [ setupDevice; setupBridgeIPv4; setupBridgeIPv6; setupVerifyAndReconcile;
    setupFixedCIDRv4; setupFixedCIDRv6; setupIPTables; setupIPForwarding;
    setupGatewayIPv4; setupGatewayIPv6; setupDeviceUp ].

Definition queuedWhen (config : Configuration) (bridgeAlreadyExists : bool)
    (step : setupStep) : bool :=
  match step with
  | setupDevice | setupBridgeIPv4 => negb bridgeAlreadyExists
  | setupBridgeIPv6 => EnableIPv6 config
  | setupVerifyAndReconcile => bridgeAlreadyExists
  | setupFixedCIDRv4 => isSet (FixedCIDR config)
  | setupFixedCIDRv6 => isSet (FixedCIDRv6 config)
  | setupIPTables => EnableIPTables config
  | setupIPForwarding => EnableIPForwarding config
  | setupGatewayIPv4 => isSet (DefaultGatewayIPv4 config)
  | setupGatewayIPv6 => isSet (DefaultGatewayIPv6 config)
  | setupDeviceUp => true
  end.

(** ** Sequential runs of the driver *)

(** The drivers that a sequence of calls can produce from a new one. *)
Inductive reachable : driver -> Prop :=
  | reach_New : reachable (mkDriver None None)
  | reach_Config opts d r d' :
      reachable d -> Config opts d = (r, d') -> reachable d'
  | reach_CreateNetwork env id d w r d' w' :
      reachable d -> CreateNetwork env id d w = (r, d', w') -> reachable d'
  | reach_DeleteNetwork env d w r d' w' :
      reachable d -> DeleteNetwork env d w = (r, d', w') -> reachable d'
  | reach_CreateEndpoint env nid eid opts d w r d' w' :
      reachable d -> CreateEndpoint env nid eid opts d w = (r, d', w') -> reachable d'
  | reach_DeleteEndpoint env nid eid d w r d' w' :
      reachable d -> DeleteEndpoint env nid eid d w = (r, d', w') -> reachable d'.

(** ** Scenarios *)

(** An environment in which no system call fails; the random source
    yields fixed draws. *)
Definition quietEnv : Env :=
  mkEnv (fun _ => None) (fun _ => false)
        (fun i => Some (N.of_nat (1000 + i))) (fun i => Some (N.of_nat (2000 + i)))
        [2; 66; 172; 20; 0; 2] (fun _ => None) None (fun _ => None) (fun _ _ => None).

Definition emptyWorld : World :=
  mkWorld [] ∅ ∅ ∅ [49153; 49154; 49155] [].

(** Scenario S1: bridge [br-test] on 172.20.0.0/16, ICC enabled. *)
Definition subnetS1 : IPNet := mkIPNet [172; 20; 0; 0] [255; 255; 0; 0].

Definition configS1 : Configuration :=
  mkConfiguration "br-test" (Some subnetS1) None None false true false true false false
                  0 None None None.

Definition configuredS1 : driver := mkDriver (Some configS1) None.

(** The driver and the world after [CreateNetwork("n1")] in scenario
    S1. *)
Definition networkS1 : driver * World :=
  let '(_, d, w) := CreateNetwork quietEnv "n1" configuredS1 emptyWorld in (d, w).

(** An environment in which programming the firewall fails. *)
Definition iptablesDown : Env :=
  mkEnv (fun _ => None) (fun _ => false)
        (fun i => Some (N.of_nat (1000 + i))) (fun i => Some (N.of_nat (2000 + i)))
        [2; 66; 172; 20; 0; 2]
        (fun step => match step with
                     | setupIPTables => Some (ErrSys "iptables not found")
                     | _ => None
                     end)
        None (fun _ => None) (fun _ _ => None).

(** A world whose kernel already has the bridge of scenario S1. *)
Definition worldWithBridge : World :=
  mkWorld [newLinkRecord "br-test" KBridge] ∅ ∅ ∅ [49153; 49154; 49155] [].

(** An environment in which the kernel refuses to delete links. *)
Definition linkDelRefused : Env :=
  mkEnv (fun c => match c with
                  | CLinkDel _ => Some (ErrSys "operation not permitted")
                  | _ => None
                  end)
        (fun _ => false)
        (fun i => Some (N.of_nat (1000 + i))) (fun i => Some (N.of_nat (2000 + i)))
        [2; 66; 172; 20; 0; 2] (fun _ => None) None (fun _ => None) (fun _ _ => None).

(** Another caller that installs a network of its own while the driver
    is unlocked. *)
Definition installsOther (d : driver) : driver :=
  mkDriver (d_config d)
           (Some (mkBridgeNetwork "n2" (mkBridgeInterface None None None None None) ∅)).

(** ** Interface names, as stated *)

Definition isHexDigit (c : ascii) : bool :=
  existsb (Ascii.eqb c)
          ["0"; "1"; "2"; "3"; "4"; "5"; "6"; "7"; "8"; "9";
           "a"; "b"; "c"; "d"; "e"; "f"]%char.

Fixpoint allHex (s : string) : bool :=
  match s with
  | EmptyString => true
  | String c s' => isHexDigit c && allHex s'
  end.

(** The [i]-th attempt is rejected: the random source fails, or the name
    it yields is found on the host. *)
Definition rejected (env : Env) (rand : nat -> option N) (w : World) (i : nat) : Prop :=
  match rand i with
  | None => True
  | Some e =>
      ifaceFault env (vethPrefix +:+ hexString vethLen e) = false
      /\ hasLink (vethPrefix +:+ hexString vethLen e) (links w) = true
  end.

(** A world in which the names of the first draws for the host side are
    taken. *)
Definition crowdedWorld : World :=
  mkWorld [newLinkRecord "veth8e30000" KDevice; newLinkRecord "veth9e30000" KDevice;
           newLinkRecord "vethae30000" KDevice; newLinkRecord "br-test" KBridge]
          ∅ ∅ ∅ [49153; 49154; 49155] [].

Definition crowdedDriver : driver :=
  mkDriver (Some configS1)
           (Some (mkBridgeNetwork "n1"
                    (mkBridgeInterface (Some (newLinkRecord "br-test" KBridge))
                                       (Some subnetS1) None None None) ∅)).

(** [getEndpoint] refuses the empty id whatever the table holds. *)
Definition getEndpoint_rejects_empty : Prop :=
  forall n : bridgeNetwork, getEndpoint n "" = Err (InvalidEndpointIDError "").

(** ** The firewall log, as stated *)

(** The world after further calls to the firewall programmer. *)
Definition addLog (w : World) (evs : list fwEvent) : World :=
  mkWorld (links w) (allocatedIPs w) (reservedIPs w) (boundPorts w) (ephemeralPorts w)
          (fwlog w ++ evs).

(** The calls of a run of [link] that enables [enabled], in this order:
    every one of them is disabled again, last first, when the run ends
    with [err] set. *)
Definition enableCalls (enabled : list link) (err : option error) : list fwEvent :=
  List.map EvEnable enabled
  ++ match err with
     | Some _ => List.map EvDisable (rev enabled)
     | None => []
     end.

(** The error a run returns, if it returns one. *)
Definition returnedError (r : outcome (option error)) : option error :=
  match r with
  | Returns o => o
  | Panics => None
  end.

(** What a run of [link] that enables links leaves behind, seen from the
    world [w] it started in: its [err] is the error it returns, and the
    firewall saw its enabling calls, undone if [err] is set. *)
Definition transactionalFrom (w : World) (ex : Exit World (option error)) : Prop :=
  ex_err ex = returnedError (ex_result ex)
  /\ exists enabled, ex_state ex = addLog w (enableCalls enabled (ex_err ex)).

(** A run of [link] that disables links only adds disabling calls. *)
Definition disablesFrom (w : World) (ex : Exit World (option error)) : Prop :=
  exists disabled, ex_state ex = addLog w (List.map EvDisable disabled).

(** Scenario S6: ICC disabled, a parent endpoint and two children that
    publish 80/tcp. *)
Definition configS6 : Configuration :=
  mkConfiguration "br-test" (Some subnetS1) None None false true false false false false
                  0 None None None.

Definition web : list PortBinding := [mkPortBinding TCP [] 80 None 8080 0].

Definition endpointS6 (eid : string) (host : Z) (ports : option (list PortBinding))
  : bridgeEndpoint :=
  mkBridgeEndpoint eid
    (Some (mkInterface ("veth" +:+ eid) "eth0"
                       (Some (mkIPNet [172; 20; 0; host] [255; 255; 0; 0])) None))
    (Some (mkEndpointConfiguration None ports)) [].

Definition driverS6 : driver :=
  mkDriver (Some configS6)
           (Some (mkBridgeNetwork "n1"
                    (mkBridgeInterface (Some (newLinkRecord "br-test" KBridge))
                                       (Some subnetS1) None None None)
                    (<["parentEp" := endpointS6 "parentEp" 2 None]>
                       (<["childA" := endpointS6 "childA" 3 (Some web)]>
                          (<["childB" := endpointS6 "childB" 4 (Some web)]> ∅))))).

Definition linkTo (child : Z) : link :=
  newLink [172; 20; 0; 2] [172; 20; 0; child] web "br-test".

(** Joining the parent endpoint with both children. *)
Definition joinChildren : Options :=
  Some {[ options.GenericData :=
            VContainerConfiguration
              (Some (mkContainerConfiguration [] ["childA"; "childB"])) ]}.

(** An environment in which the rules of the second child cannot be
    installed. *)
Definition secondLinkFails : Env :=
  mkEnv (fun _ => None) (fun _ => false)
        (fun i => Some (N.of_nat (1000 + i))) (fun i => Some (N.of_nat (2000 + i)))
        [2; 66; 172; 20; 0; 2] (fun _ => None) None
        (fun l => if bool_decide (lnkChildIP l = [172; 20; 0; 4])
                  then Some (ErrSys "iptables failed") else None)
        (fun _ _ => None).

(** ** The allocator and the port mapper, as stated *)

(** The state of the IP allocator and of the port mapper in a world. *)
Definition sameBooks (w w' : World) : Prop :=
  allocatedIPs w' = allocatedIPs w
  /\ reservedIPs w' = reservedIPs w
  /\ boundPorts w' = boundPorts w
  /\ ephemeralPorts w' = ephemeralPorts w.

(** The host side of a realized binding, as the port mapper keys it. *)
Definition bindingKey (b : PortBinding) : option (Protocol * IP * Z) :=
  match pbHostIP b with
  | Some hip => Some (pbProto b, hip, pbHostPort b)
  | None => None
  end.

Definition keysOf (bs : list PortBinding) : gset (Protocol * IP * Z) :=
  list_to_set (omap bindingKey bs).

(** ** IPv6 addresses from the MAC, as stated *)

(** Scenario S4: scenario S1 with IPv6 enabled on fd00::/64. *)
Definition subnetS4 : IPNet :=
  mkIPNet [253; 0; 0; 0; 0; 0; 0; 0; 0; 0; 0; 0; 0; 0; 0; 0]
          [255; 255; 255; 255; 255; 255; 255; 255; 0; 0; 0; 0; 0; 0; 0; 0].

Definition configS4 : Configuration :=
  mkConfiguration "br-test" (Some subnetS1) None (Some subnetS4) true true false true
                  false false 0 None None None.

(** The driver and the world after [CreateNetwork("n1")] in scenario
    S4. *)
Definition networkS4 : driver * World :=
  let '(_, d, w) := CreateNetwork quietEnv "n1" (mkDriver (Some configS4) None) emptyWorld
  in (d, w).

(** The sandbox information that [CreateEndpoint("n1", "e1")] returns in
    scenario S4. *)
Definition infoS4 : Info :=
  mkInfo [mkInterface "veth0d70000" "eth0"
            (Some (mkIPNet [172; 20; 0; 1] [255; 255; 0; 0]))
            (Some (mkIPNet [253; 0; 0; 0; 0; 0; 0; 0; 0; 0; 2; 66; 172; 20; 0; 2]
                           (ipnMask subnetS4)))]
         None None.

(** ** Round trips, as stated *)

(** What the setup steps keep true of a bridge that [CreateNetwork]
    created in a world whose link list was [before]: the interface holds
    the handle of a link named [name], and the link list is [before]
    followed by that bridge. *)
Definition bridgeAppended (name : string) (before : list Link)
    (s : bridgeInterface * World) : Prop :=
  (exists l, bi_Link s.1 = Some l /\ linkName l = name)
  /\ exists b, links s.2 = before ++ [b] /\ linkName b = name /\ linkKind b = KBridge.

(** [CreateNetwork] then [DeleteNetwork] in a world that already has the
    bridge. *)
Definition adoptedThenDeleted : outcome (option error) * driver * World :=
  let '(_, d1, w1) := CreateNetwork quietEnv "n1" configuredS1 worldWithBridge in
  DeleteNetwork quietEnv d1 w1.

(** [CreateEndpoint("n1", "e1")] then [DeleteEndpoint("n1", "e1")] in
    scenario S1 and in scenario S4. *)
Definition createdThenDeleted (start : driver * World)
  : outcome (option error) * driver * World :=
  let '(_, d1, w1) := CreateEndpoint quietEnv "n1" "e1" None start.1 start.2 in
  DeleteEndpoint quietEnv "n1" "e1" d1 w1.

(** ** Failed creations of an endpoint *)

(** An endpoint that publishes 80/tcp on host port 8080. *)
Definition publishWeb : Options :=
  Some {[ options.PortMap := VPortBindings web ]}.

(** Scenario S5: scenario S1 after a first endpoint has taken host port
    8080. *)
Definition portTaken : driver * World :=
  let '(_, d, w) := CreateEndpoint quietEnv "n1" "e1" publishWeb networkS1.1 networkS1.2
  in (d, w).

(** The second endpoint asks for the same host port. *)
Definition portClash : outcome (result Info) * driver * World :=
  CreateEndpoint quietEnv "n1" "e2" publishWeb portTaken.1 portTaken.2.

(** Scenario S1 with IPv6 enabled on a subnet without host addresses,
    fd00::/127. *)
Definition subnetNoHosts : IPNet :=
  mkIPNet [253; 0; 0; 0; 0; 0; 0; 0; 0; 0; 0; 0; 0; 0; 0; 0]
          [255; 255; 255; 255; 255; 255; 255; 255; 255; 255; 255; 255; 255; 255; 255; 254].

Definition configNoHosts : Configuration :=
  mkConfiguration "br-test" (Some subnetS1) None (Some subnetNoHosts) true true false true
                  false false 0 None None None.

Definition networkNoHosts : driver * World :=
  let '(_, d, w) :=
    CreateNetwork quietEnv "n1" (mkDriver (Some configNoHosts) None) emptyWorld
  in (d, w).

Definition noIPv6Left : outcome (result Info) * driver * World :=
  CreateEndpoint quietEnv "n1" "e1" None networkNoHosts.1 networkNoHosts.2.

(** The endpoint table of a driver. *)
Definition endpointsOf (d : driver) : gmap string bridgeEndpoint :=
  match d_network d with
  | Some n => n_endpoints n
  | None => ∅
  end.

(** ** Further scenarios *)

(** Options that carry the configuration of scenario S1 as a
    [*Configuration]. *)
Definition optionsS1 : Options :=
  Some {[ options.GenericData := VConfiguration (Some configS1) ]}.



(** The sandbox information that [CreateEndpoint("n1", "e1")] returns in
    scenario S5. *)
Definition infoS5 : Info :=
  mkInfo [mkInterface "veth0d70000" "eth0"
            (Some (mkIPNet [172; 20; 0; 1] [255; 255; 0; 0])) None]
         None None.

(** The bridge interface and the network of scenario S5, with its one
    endpoint. *)
Definition bridgeS1 : bridgeInterface :=
  mkBridgeInterface (Some (newLinkRecord "br-test" KBridge)) (Some subnetS1) None None None.

Definition endpointS5 : bridgeEndpoint :=
  mkBridgeEndpoint "e1"
    (Some (mkInterface "veth0d70000" "eth0"
             (Some (mkIPNet [172; 20; 0; 1] [255; 255; 0; 0])) None))
    (Some (mkEndpointConfiguration None (Some web)))
    [mkPortBinding TCP [172; 20; 0; 1] 80 (Some [0; 0; 0; 0]) 8080 8080].

Definition tableS5 : bridgeNetwork :=
  mkBridgeNetwork "n1" bridgeS1 {[ "e1" := endpointS5 ]}.

(** Scenario S5 after the sandbox has deleted the veth pair. *)
Definition vethGone : World :=
  setLinks portTaken.2 [newLinkRecord "br-test" KBridge].

(** An environment in which the allocator refuses to take addresses
    back. *)
Definition releaseRefused : Env :=
  mkEnv (fun _ => None) (fun _ => false)
        (fun i => Some (N.of_nat (1000 + i))) (fun i => Some (N.of_nat (2000 + i)))
        [2; 66; 172; 20; 0; 2] (fun _ => None) None (fun _ => None)
        (fun _ _ => Some (ErrSys "address not allocated")).

(** ** Joining and leaving, as observed on the firewall *)

(** A run [join] of [link] that started in [w] enabled the links [ls], in
    this order, and kept them; [leave], the same run with [enable] false,
    disables the same links in the same order from any world and returns
    nil. *)
Definition undoneBy (w : World) (join : Exit World (option error))
    (leave : World -> Exit World (option error)) : Prop :=
  exists ls : list link,
    ex_state join = addLog w (List.map EvEnable ls)
    /\ ex_err join = None
    /\ forall w2, leave w2 = mkExit (Returns None) None (addLog w2 (List.map EvDisable ls)).

(** ** The endpoint table *)

(** Every endpoint of the table is stored under its own id. *)
Definition keyedById (m : gmap string bridgeEndpoint) : Prop :=
  forall k ep, m !! k = Some ep -> ep_id ep = k.

(** The table [m'] differs from [m] at most under [eid]. *)
Definition sameElsewhere (eid : string) (m m' : gmap string bridgeEndpoint) : Prop :=
  forall k, k <> eid -> m' !! k = m !! k.

(** An environment in which the interfaces of the host cannot be
    listed. *)
Definition listingFails : Env :=
  mkEnv (fun _ => None) (fun _ => true)
        (fun i => Some (N.of_nat (1000 + i))) (fun i => Some (N.of_nat (2000 + i)))
        [2; 66; 172; 20; 0; 2] (fun _ => None) None (fun _ => None) (fun _ _ => None).
(** * Properties *)

(** ** Validation of the configuration *)

(** Closing tactics for the invariants once the configuration has been
    taken apart. *)
Ltac invariant_holds :=
  repeat match goal with
         | H : Some _ = Some _ |- _ => injection H as <-
         | H : None = Some _ |- _ => discriminate H
         | H : Some _ = None |- _ => discriminate H
         | H : false = true |- _ => discriminate H
         | |- _ /\ _ => split
         | |- forall _, _ => intro
         | |- exists _, _ => eexists
         end;
  try reflexivity; try assumption; try (simpl in *; lia).

Ltac invariant_fails :=
  let H := fresh in
  intro H;
  repeat match type of H with
         | _ /\ _ => let H' := fresh in destruct H as [H' H]; try clear H'
         end;
  first [ specialize (H _ _ eq_refl eq_refl) | specialize (H eq_refl _ eq_refl) ];
  repeat match type of H with
         | _ /\ _ => let H' := fresh in destruct H as [H' H]
         | ex _ => let x := fresh in destruct H as [x H]
         end;
  simpl in *; first [ congruence | lia ].

(** [Validate] runs its checks in order and reports the first that
    fails. *)
Lemma Validate_cases (c : Configuration) :
  (Mtu c < 0 /\ Validate c = Some ErrInvalidMtu)
  \/ (0 <= Mtu c /\ ~ fixedCIDRInvariant c /\ Validate c = Some ErrInvalidContainerSubnet)
  \/ (0 <= Mtu c /\ fixedCIDRInvariant c
      /\ ~ (gatewayIPv4Invariant c /\ gatewayIPv6Invariant c)
      /\ Validate c = Some ErrInvalidGateway)
  \/ (ConfigurationInvariantsOfSubnet c /\ Validate c = None).
Proof.
  unfold Validate, ConfigurationInvariantsOfSubnet, fixedCIDRInvariant,
    gatewayIPv4Invariant, gatewayIPv6Invariant.
  destruct c as [nm a4 f4 f6 v6 ipt masq icc fwd nd mtu g4 g6 bind]; simpl.
  destruct (Z.ltb_spec mtu 0) as [Hm|Hm]; [by left|right].
  destruct a4 as [br|], f4 as [sub|];
    try destruct (Contains br (ipnIP sub)) eqn:Hc; simpl;
    try destruct (Z.gtb_spec (Size (ipnMask br)).1 (Size (ipnMask sub)).1) as [Hl|Hl];
    try (left; split; [done|split; [invariant_fails|done]]);
    right;
    destruct g4 as [gw|]; try destruct (Contains br gw) eqn:Hg; simpl;
    try (left; split; [done|]; split; [solve [invariant_holds]|]; split; [|done];
         intros [H _]; specialize (H _ _ eq_refl eq_refl); congruence);
    destruct v6, g6 as [gw6|]; try destruct f6 as [n6|];
    try destruct (Contains n6 gw6) eqn:H6; simpl;
    first [ right; split; [|done]; solve [invariant_holds]
          | left; split; [done|]; split; [solve [invariant_holds]|];
            split; [|done]; invariant_fails ].
Qed.

(** C5, as amended: [Validate] accepts a configuration exactly when the
    MTU is not negative, the IPv6 gateway condition holds, and, for a
    configuration that gives the bridge a subnet, the container sub-CIDR
    and the IPv4 gateway lie in it; it reports the first failing check:
    [InvalidMtu], then [InvalidContainerSubnet], then [InvalidGateway]. *)
Theorem Validate_first_failing_check (c : Configuration) :
  (Validate c = None <-> ConfigurationInvariantsOfSubnet c)
  /\ (Validate c = Some ErrInvalidMtu <-> Mtu c < 0)
  /\ (Validate c = Some ErrInvalidContainerSubnet <->
      0 <= Mtu c /\ ~ fixedCIDRInvariant c)
  /\ (Validate c = Some ErrInvalidGateway <->
      0 <= Mtu c /\ fixedCIDRInvariant c
      /\ ~ (gatewayIPv4Invariant c /\ gatewayIPv6Invariant c)).
Proof.
  destruct (Validate_cases c) as [[Hm Hv]|[(Hm & Hf & Hv)|[(Hm & Hf & Hg & Hv)|[Hi Hv]]]];
    rewrite Hv; unfold ConfigurationInvariantsOfSubnet in *;
    intuition (try discriminate; try lia).
Qed.

(** C5, as stated, fails: a configuration with a default gateway and no
    bridge subnet is accepted, though its gateway lies within no bridge
    subnet. *)
Lemma Validate_accepts_gateway_without_subnet :
  Validate gatewayWithoutSubnet = None
  /\ ~ ConfigurationInvariants gatewayWithoutSubnet.
Proof.
  split; [reflexivity|].
  intros (_ & _ & Hg & _).
  destruct (Hg _ eq_refl) as (br & Hbr & _). discriminate.
Qed.

(** ** Creation of the network *)

Lemma applySteps_app {S : Type} (run : setupStep -> S -> option error * S)
    (q1 q2 : list setupStep) (s : S) :
  applySteps run (q1 ++ q2) s =
  match applySteps run q1 s with
  | (Some e, s') => (Some e, s')
  | (None, s') => applySteps run q2 s'
  end.
Proof.
  revert s. induction q1 as [|step q1 IH]; intros s; simpl.
  - reflexivity.
  - destruct (run step s) as [[e|] s']; [reflexivity | apply IH].
Qed.

Ltac by_queue_conditions config bridgeAlreadyExists :=
  unfold queueSetupSteps, canonicalOrder, queuedWhen; simpl;
  destruct bridgeAlreadyExists, (EnableIPv6 config), (FixedCIDR config),
    (FixedCIDRv6 config), (EnableIPTables config), (EnableIPForwarding config),
    (DefaultGatewayIPv4 config), (DefaultGatewayIPv6 config); reflexivity.

Lemma queueSetupSteps_filter (config : Configuration) (i : bridgeInterface)
    (bridgeAlreadyExists : bool) :
  queueSetupSteps config bridgeAlreadyExists (newBridgeSetup config i)
  = mkBridgeSetup config i
      (List.filter (queuedWhen config bridgeAlreadyExists) canonicalOrder).
Proof. by_queue_conditions config bridgeAlreadyExists. Qed.

Lemma queueSetupSteps_steps (config : Configuration) (i : bridgeInterface)
    (bridgeAlreadyExists : bool) :
  bs_steps (queueSetupSteps config bridgeAlreadyExists (newBridgeSetup config i))
  = List.filter (queuedWhen config bridgeAlreadyExists) canonicalOrder.
Proof. by rewrite queueSetupSteps_filter. Qed.

(** What [CreateNetwork] does on a configured driver without network. *)
Lemma CreateNetwork_unfold (env : Env) (id : string) (config : Configuration) (w : World) :
  CreateNetwork env id (mkDriver (Some config) None) w =
  let i := newInterface env config w in
  let '(err, (i', w')) :=
    applySteps (runStep env config)
               (List.filter (queuedWhen config (exists_ i)) canonicalOrder) (i, w) in
  (err,
   mkDriver (Some config)
            (match err with Some _ => None | None => Some (mkBridgeNetwork id i' ∅) end),
   w').
Proof.
  unfold CreateNetwork, apply; cbn [d_config d_network].
  rewrite queueSetupSteps_filter; cbn [bs_config bs_bridge bs_steps].
  destruct (applySteps _ _ _) as [[e|] [i' w']]; reflexivity.
Qed.

(** C3: the queue that [CreateNetwork] assembles is the listed order
    restricted to the steps whose condition holds, [setupDeviceUp] always
    last; [CreateNetwork] applies that queue; and applying a queue runs the
    steps in order and stops at the first that returns an error, leaving
    the state as that step left it. *)
Theorem CreateNetwork_queue_in_order (env : Env) (id : string) (config : Configuration)
    (i : bridgeInterface) (bridgeAlreadyExists : bool) (w : World) :
  bs_steps (queueSetupSteps config bridgeAlreadyExists (newBridgeSetup config i))
  = List.filter (queuedWhen config bridgeAlreadyExists) canonicalOrder
  /\ List.last (bs_steps (queueSetupSteps config bridgeAlreadyExists
                                         (newBridgeSetup config i))) setupDevice
     = setupDeviceUp
  /\ CreateNetwork env id (mkDriver (Some config) None) w
     = (let i := newInterface env config w in
        let '(err, (i', w')) :=
          applySteps (runStep env config)
                     (List.filter (queuedWhen config (exists_ i)) canonicalOrder) (i, w) in
        (err,
         mkDriver (Some config)
                  (match err with
                   | Some _ => None
                   | None => Some (mkBridgeNetwork id i' ∅)
                   end),
         w'))
  /\ (forall (S : Type) (run : setupStep -> S -> option error * S)
             (before after : list setupStep) (step : setupStep) (s s1 s2 : S) (e : error),
        applySteps run before s = (None, s1) ->
        run step s1 = (Some e, s2) ->
        applySteps run (before ++ step :: after) s = (Some e, s2))
  /\ (forall (S : Type) (run : setupStep -> S -> option error * S)
             (q1 q2 : list setupStep) (s s1 : S),
        applySteps run q1 s = (None, s1) ->
        applySteps run (q1 ++ q2) s = applySteps run q2 s1).
Proof.
  split; [apply queueSetupSteps_steps|].
  split.
  { by_queue_conditions config bridgeAlreadyExists. }
  split; [apply CreateNetwork_unfold|].
  split.
  - intros S run before after step s s1 s2 e Hb Hs.
    rewrite applySteps_app, Hb. simpl. by rewrite Hs.
  - intros S run q1 q2 s s1 H1. by rewrite applySteps_app, H1.
Qed.

(** In scenario S1 with a firewall that cannot be programmed, the steps
    before [setupIPTables] run, that step fails, and [setupDeviceUp] does
    not run: the bridge exists and is down. *)
Lemma CreateNetwork_queue_in_order_witness :
  applySteps (runStep iptablesDown configS1) [setupDevice; setupBridgeIPv4]
             (newInterface iptablesDown configS1 emptyWorld, emptyWorld)
  = (None, (mkBridgeInterface (Some (newLinkRecord "br-test" KBridge)) (Some subnetS1)
                              None None None,
            setLinks emptyWorld [newLinkRecord "br-test" KBridge]))
  /\ applySteps (runStep iptablesDown configS1)
                ([setupDevice; setupBridgeIPv4] ++ setupIPTables :: [setupDeviceUp])
                (newInterface iptablesDown configS1 emptyWorld, emptyWorld)
     = (Some (ErrSys "iptables not found"),
        (mkBridgeInterface (Some (newLinkRecord "br-test" KBridge)) (Some subnetS1)
                           None None None,
         setLinks emptyWorld [newLinkRecord "br-test" KBridge])).
Proof.
  split; [reflexivity|].
  destruct (CreateNetwork_queue_in_order iptablesDown "n1" configS1
              (newInterface iptablesDown configS1 emptyWorld) false emptyWorld)
    as (_ & _ & _ & Hstop & _).
  apply Hstop with (s1 := (mkBridgeInterface (Some (newLinkRecord "br-test" KBridge))
                                             (Some subnetS1) None None None,
                           setLinks emptyWorld [newLinkRecord "br-test" KBridge]));
    reflexivity.
Defined.

Lemma CreateNetwork_config (env : Env) (id : string) (d : driver) (w : World) :
  d_config (CreateNetwork env id d w).1.2 = d_config d.
Proof.
  unfold CreateNetwork.
  destruct (d_config d) as [config|] eqn:Hc, (d_network d) as [n|]; simpl; try done.
  destruct (apply _ _ _) as [[e|] [i' w']]; reflexivity.
Qed.

Lemma DeleteNetworkAmong_config (others : driver -> driver) (env : Env) (d : driver)
    (w : World) :
  d_config (DeleteNetworkAmong others env d w).1.2
  = d_config (others (mkDriver (d_config d) None)).
Proof.
  unfold DeleteNetworkAmong, onError; simpl.
  repeat case_match; reflexivity.
Qed.

Lemma CreateEndpoint_config (env : Env) (nid eid : string) (opts : Options)
    (d : driver) (w : World) :
  d_config (CreateEndpoint env nid eid opts d w).1.2 = d_config d.
Proof. unfold CreateEndpoint. repeat case_match; reflexivity. Qed.

Lemma DeleteEndpoint_config (env : Env) (nid eid : string) (d : driver) (w : World) :
  d_config (DeleteEndpoint env nid eid d w).1.2 = d_config d.
Proof. unfold DeleteEndpoint. repeat case_match; reflexivity. Qed.

(** A driver that has a network has a configuration: only
    [CreateNetwork] installs a network, and it wants a configuration. *)
Lemma reachable_network_configured (d : driver) :
  reachable d -> d_config d = None -> d_network d = None.
Proof.
  induction 1 as [|opts d r d' _ IH Hop|env id d w r d' w' _ IH Hop
                  |env d w r d' w' _ IH Hop
                  |env nid eid opts d w r d' w' _ IH Hop
                  |env nid eid d w r d' w' _ IH Hop]; intros Hnone.
  - reflexivity.
  - unfold Config in Hop.
    destruct (d_config d) as [c|] eqn:Hc; [by simplify_eq|].
    repeat case_match; simplify_eq; simpl in *; auto; discriminate.
  - pose proof (CreateNetwork_config env id d w) as Hcfg.
    rewrite Hop in Hcfg; simpl in Hcfg. rewrite Hnone in Hcfg.
    unfold CreateNetwork in Hop. rewrite <- Hcfg in Hop. simplify_eq. auto.
  - pose proof (DeleteNetworkAmong_config (fun d => d) env d w) as Hcfg.
    unfold DeleteNetwork in Hop. rewrite Hop in Hcfg; simpl in Hcfg.
    rewrite Hnone in Hcfg. symmetry in Hcfg. specialize (IH Hcfg).
    unfold DeleteNetworkAmong, onError in Hop. rewrite IH in Hop.
    simpl in Hop. simplify_eq. reflexivity.
  - pose proof (CreateEndpoint_config env nid eid opts d w) as Hcfg.
    rewrite Hop in Hcfg; simpl in Hcfg. rewrite Hnone in Hcfg.
    symmetry in Hcfg. specialize (IH Hcfg).
    unfold CreateEndpoint in Hop. rewrite IH in Hop. by simplify_eq.
  - pose proof (DeleteEndpoint_config env nid eid d w) as Hcfg.
    rewrite Hop in Hcfg; simpl in Hcfg. rewrite Hnone in Hcfg.
    symmetry in Hcfg. specialize (IH Hcfg).
    unfold DeleteEndpoint in Hop. rewrite IH in Hop. by simplify_eq.
Qed.

(** C2: on a driver that a run of the driver can reach, [CreateNetwork]
    returns [InvalidNetworkConfig] when there is no configuration and
    [NetworkExists] when there is a network; when a step of the setup
    pipeline fails, the error is returned and the driver holds no network;
    and after any failure other than [NetworkExists], which keeps the
    network that was there, the driver holds no network. *)
Theorem CreateNetwork_failures (env : Env) (id : string) (d : driver) (w : World) :
  reachable d ->
  (d_config d = None ->
   CreateNetwork env id d w = (Some ErrInvalidNetworkConfig, d, w))
  /\ (d_network d <> None ->
      CreateNetwork env id d w = (Some ErrNetworkExists, d, w))
  /\ (forall config e i' w',
        d_config d = Some config ->
        d_network d = None ->
        apply env (queueSetupSteps config (exists_ (newInterface env config w))
                     (newBridgeSetup config (newInterface env config w))) w
        = (Some e, (i', w')) ->
        CreateNetwork env id d w = (Some e, mkDriver (Some config) None, w'))
  /\ (forall e d' w',
        CreateNetwork env id d w = (Some e, d', w') ->
        d_network d' = None \/ (e = ErrNetworkExists /\ d' = d /\ d_network d <> None)).
Proof.
  intros Hreach.
  pose proof (reachable_network_configured d Hreach) as Hinv.
  repeat split.
  - intros Hc. unfold CreateNetwork. by rewrite Hc.
  - intros Hn. unfold CreateNetwork.
    destruct (d_config d) as [config|]; [|by destruct Hn; auto].
    destruct (d_network d); [reflexivity | done].
  - intros config e i' w' Hc Hn Happly.
    unfold CreateNetwork. rewrite Hc, Hn, Happly. reflexivity.
  - intros e d' w' Hop. unfold CreateNetwork in Hop.
    destruct (d_config d) as [config|] eqn:Hc.
    + destruct (d_network d) as [n|] eqn:Hn.
      * injection Hop as <- <- <-. by right.
      * destruct (apply _ _ _) as [[e'|] [i' w'']]; simplify_eq. by left.
    + injection Hop as <- <- <-. left. auto.
Qed.

(** In scenario S1 with a firewall that cannot be programmed,
    [CreateNetwork] fails in the pipeline and leaves no network; a second
    [CreateNetwork] after a successful one is refused. *)
Lemma CreateNetwork_failures_witness :
  CreateNetwork iptablesDown "n1" configuredS1 emptyWorld
  = (Some (ErrSys "iptables not found"), mkDriver (Some configS1) None,
     setLinks emptyWorld [newLinkRecord "br-test" KBridge])
  /\ CreateNetwork quietEnv "n2" networkS1.1 networkS1.2
     = (Some ErrNetworkExists, networkS1.1, networkS1.2).
Proof.
  assert (Hconf : reachable configuredS1).
  { apply (reach_Config (Some {[ options.GenericData := VConfiguration (Some configS1) ]})
             (mkDriver None None) (Returns None)); [apply reach_New | reflexivity]. }
  split.
  - destruct (CreateNetwork_failures iptablesDown "n1" configuredS1 emptyWorld Hconf)
      as (_ & _ & Hpipe & _).
    eapply Hpipe; reflexivity.
  - assert (Hnet : reachable networkS1.1).
    { apply (reach_CreateNetwork quietEnv "n1" configuredS1 emptyWorld None
               networkS1.1 networkS1.2); [exact Hconf | reflexivity]. }
    destruct (CreateNetwork_failures quietEnv "n2" networkS1.1 networkS1.2 Hnet)
      as (_ & Hexists & _).
    apply Hexists. discriminate.
Defined.

(** ** Deletion of the network *)

Lemma findLink_filter_out (name : string) (keep : Link -> bool) (ls : list Link) :
  (forall x, linkName x = name -> keep x = false) ->
  findLink name (List.filter keep ls) = None.
Proof.
  intros Hout. unfold findLink.
  induction ls as [|x ls IH]; simpl; [reflexivity|].
  destruct (keep x) eqn:Hk; simpl; [|exact IH].
  destruct (String.eqb_spec (linkName x) name) as [Heq|Hne]; [|exact IH].
  rewrite (Hout x Heq) in Hk. discriminate.
Qed.

Lemma findLink_name (name : string) (ls : list Link) (l : Link) :
  findLink name ls = Some l -> linkName l = name.
Proof.
  unfold findLink. intros H. apply find_some in H as [_ H].
  by apply String.eqb_eq.
Qed.

(** A link that has been deleted is not in the link list any more. *)
Lemma LinkDel_absent (env : Env) (l : Link) (w w' : World) :
  LinkDel env l w = (None, w') -> findLink (linkName l) (links w') = None.
Proof.
  unfold LinkDel. destruct (netlinkFault env _); [discriminate|].
  destruct (findLink (linkName l) (links w)) as [cur|] eqn:Hcur; [|discriminate].
  intros [= <-]. simpl. apply findLink_filter_out.
  intros x Hx. apply findLink_name in Hcur.
  rewrite Hx, Hcur, String.eqb_refl. reflexivity.
Qed.

(** C4: [DeleteNetwork] fails with [NoNetwork] when there is no network
    and with [ActiveEndpoints] when the table has endpoints; it succeeds
    exactly when there is a network with an empty table whose bridge link
    the kernel deletes, and then that link is absent; on failure the driver
    gets the detached network back only if no network is installed at that
    moment; on success the driver is left as the other callers left it. *)
Theorem DeleteNetwork_outcome (others : driver -> driver) (env : Env) (d : driver)
    (w : World) :
  let res := DeleteNetworkAmong others env d w in
  let detached := others (mkDriver (d_config d) None) in
  (d_network d = None -> res.1.1 = Returns (Some ErrNoNetwork))
  /\ (forall n, d_network d = Some n -> n_endpoints n <> ∅ ->
        res.1.1 = Returns (Some (ActiveEndpointsError (n_id n))))
  /\ (res.1.1 = Returns None <->
      exists n l, d_network d = Some n /\ n_endpoints n = ∅
                  /\ bi_Link (n_bridge n) = Some l /\ (LinkDel env l w).1 = None)
  /\ (res.1.1 = Returns None ->
      forall n l, d_network d = Some n -> bi_Link (n_bridge n) = Some l ->
        findLink (linkName l) (links res.2) = None)
  /\ (forall e, res.1.1 = Returns (Some e) ->
        res.1.2 = match d_network detached with
                  | None => mkDriver (d_config detached) (d_network d)
                  | Some _ => detached
                  end)
  /\ (res.1.1 = Returns None -> res.1.2 = detached).
Proof.
  assert (Hsize : forall n : bridgeNetwork,
             Nat.eqb (size (n_endpoints n)) 0 = true <-> n_endpoints n = ∅).
  { intros n. rewrite Nat.eqb_eq. apply map_size_empty_iff. }
  unfold DeleteNetworkAmong, onError; simpl.
  destruct (d_network d) as [n|] eqn:Hn; simpl;
    [destruct (Nat.eqb (size (n_endpoints n)) 0) eqn:Hz; simpl;
     [apply Hsize in Hz;
      destruct (bi_Link (n_bridge n)) as [l|] eqn:Hl; simpl;
      [destruct (LinkDel env l w) as [[e|] w'] eqn:Hdel; simpl|]
     |assert (n_endpoints n <> ∅) by (rewrite <- Hsize; congruence)]|];
    split_and!;
    try match goal with
        | |- _ <-> _ =>
            split; [intros ?
                   |intros (n' & l' & ? & ? & ? & Hok); simplify_eq;
                    try rewrite Hdel in Hok]
        | |- _ => intros; simplify_eq
        end;
    try done.
  - exists n, l. by rewrite Hdel.
  - by eapply LinkDel_absent.
Qed.

(** In scenario S1 the network is deleted and its bridge link is gone;
    when the kernel refuses the deletion, the network is put back, unless
    another caller has installed one in the meantime. *)
Lemma DeleteNetwork_outcome_witness :
  findLink "br-test" (links (DeleteNetwork quietEnv networkS1.1 networkS1.2).2) = None
  /\ (DeleteNetworkAmong (fun d => d) linkDelRefused networkS1.1 networkS1.2).1.2
     = networkS1.1
  /\ (DeleteNetworkAmong installsOther linkDelRefused networkS1.1 networkS1.2).1.2
     = installsOther (mkDriver (Some configS1) None).
Proof.
  split; [|split].
  - destruct (DeleteNetwork_outcome (fun d => d) quietEnv networkS1.1 networkS1.2)
      as (_ & _ & _ & Habsent & _).
    apply (Habsent eq_refl (mkBridgeNetwork "n1"
             (mkBridgeInterface (Some (newLinkRecord "br-test" KBridge)) (Some subnetS1)
                                None None None) ∅)
             (newLinkRecord "br-test" KBridge)); reflexivity.
  - destruct (DeleteNetwork_outcome (fun d => d) linkDelRefused networkS1.1 networkS1.2)
      as (_ & _ & _ & _ & Hfail & _).
    apply (Hfail (ErrSys "operation not permitted")). reflexivity.
  - destruct (DeleteNetwork_outcome installsOther linkDelRefused networkS1.1 networkS1.2)
      as (_ & _ & _ & _ & Hfail & _).
    apply (Hfail (ErrSys "operation not permitted")). reflexivity.
Defined.

(** ** Interface names *)

Lemma hexDigit_isHex (n : N) : isHexDigit (hexDigit n) = true.
Proof.
  unfold hexDigit.
  assert (Hlt : (N.to_nat (n mod 16) < 16)%nat).
  { pose proof (N.mod_upper_bound n 16). lia. }
  revert Hlt. generalize (N.to_nat (n mod 16)) as k. intros k Hlt.
  do 16 (destruct k as [|k]; [reflexivity|]). lia.
Qed.

Lemma hexString_hex (size : nat) (e : N) :
  String.length (hexString size e) = size /\ allHex (hexString size e) = true.
Proof.
  revert e. induction size as [|size IH]; intros e; simpl; [done|].
  destruct (IH (e / 16)%N) as [Hlen Hhex].
  by rewrite Hlen, Hhex, hexDigit_isHex.
Qed.

Lemma hasLink_findLink (name : string) (ls : list Link) :
  hasLink name ls = false <-> findLink name ls = None.
Proof. unfold hasLink. destruct (findLink name ls); split; congruence. Qed.

(** One iteration of the loop of [generateIfaceName]. *)
Lemma generateIfaceNameFrom_step (env : Env) (rand : nat -> option N) (w : World)
    (i fuel : nat) :
  (rejected env rand w i
   /\ generateIfaceNameFrom env rand w i (S fuel)
      = generateIfaceNameFrom env rand w (S i) fuel)
  \/ (exists e, rand i = Some e
                /\ ifaceFault env (vethPrefix +:+ hexString vethLen e) = true
                /\ generateIfaceNameFrom env rand w i (S fuel)
                   = Err (ErrSys "route ip+net: netlinkrib: too many open files"))
  \/ (exists e, rand i = Some e
                /\ ifaceFault env (vethPrefix +:+ hexString vethLen e) = false
                /\ findLink (vethPrefix +:+ hexString vethLen e) (links w) = None
                /\ generateIfaceNameFrom env rand w i (S fuel)
                   = Ok (vethPrefix +:+ hexString vethLen e)).
Proof.
  unfold rejected. cbn [generateIfaceNameFrom]. unfold GenerateRandomName, InterfaceByName.
  destruct (rand i) as [e|]; [|by left].
  destruct (ifaceFault env _) eqn:Hf.
  { right; left. exists e. done. }
  unfold hasLink.
  destruct (findLink _ (links w)) as [l|] eqn:Hl.
  - by left.
  - right; right. exists e. done.
Qed.

(** The loop returns a name from the first attempt that is not rejected,
    a system error if listing the interfaces fails at that attempt, and
    [ErrIfaceName] exactly when every attempt is rejected. *)
Lemma generateIfaceNameFrom_spec (env : Env) (rand : nat -> option N) (w : World)
    (fuel i : nat) :
  match generateIfaceNameFrom env rand w i fuel with
  | Ok name =>
      exists j e, (i <= j < i + fuel)%nat /\ rand j = Some e
                  /\ name = vethPrefix +:+ hexString vethLen e
                  /\ findLink name (links w) = None
                  /\ forall k, (i <= k < j)%nat -> rejected env rand w k
  | Err ErrIfaceName => forall k, (i <= k < i + fuel)%nat -> rejected env rand w k
  | Err _ => exists j, (i <= j < i + fuel)%nat /\ ~ rejected env rand w j
  end.
Proof.
  revert i. induction fuel as [|fuel IH]; intros i.
  - simpl. intros k Hk. lia.
  - destruct (generateIfaceNameFrom_step env rand w i fuel)
      as [[Hrej ->]|[(e & He & Hf & ->)|(e & He & Hf & Hl & ->)]].
    + specialize (IH (S i)).
      destruct (generateIfaceNameFrom env rand w (S i) fuel) as [name|err].
      * destruct IH as (j & e & Hj & He & Hn & Hl & Hk).
        exists j, e. split_and!; try done; try lia.
        intros k Hik. destruct (decide (k = i)) as [->|]; [done|]. apply Hk. lia.
      * destruct err; try (destruct IH as (j & Hj & Hnr); exists j; split; [lia|done]).
        intros k Hik. destruct (decide (k = i)) as [->|]; [done|]. apply IH. lia.
    + exists i. split; [lia|]. unfold rejected. rewrite He. intros [Hf' _]. congruence.
    + exists i, e. split_and!; try done; try lia.
Qed.

(** ** Creation of an endpoint: the checks *)

(** Past its checks, [CreateEndpoint] inserts the placeholder and runs
    the rest under the deferred removal of the placeholder. *)
Lemma CreateEndpoint_past_checks (env : Env) (nid eid : string) (opts : Options)
    (d : driver) (w : World) (n : bridgeNetwork)
    (epConfig : option EndpointConfiguration) :
  d_network d = Some n ->
  n_id n = nid ->
  eid <> "" ->
  n_endpoints n !! eid = None ->
  parseEndpointOptions opts = Ok epConfig ->
  CreateEndpoint env nid eid opts d w =
  let ex :=
    onError (fun s => (setEndpoints s.1 (delete eid (n_endpoints s.1)), s.2))
            (CreateEndpoint_veth env (d_config d) eid epConfig
               (setEndpoints n (<[eid := mkBridgeEndpoint eid None epConfig []]>
                                  (n_endpoints n)), w)) in
  (ex_result ex, mkDriver (d_config d) (Some (ex_state ex).1), (ex_state ex).2).
Proof.
  intros Hn Hid Heid Hfresh Hopts. unfold CreateEndpoint, getEndpoint.
  rewrite Hn, Hid, String.eqb_refl; simpl.
  destruct (String.eqb_spec eid "") as [?|_]; [done|].
  by rewrite Hfresh, Hopts.
Qed.

(** Removing the placeholder gives back the table the call found. *)
Lemma placeholder_removed (d : driver) (n : bridgeNetwork) (eid : string)
    (ep : bridgeEndpoint) :
  d_network d = Some n ->
  n_endpoints n !! eid = None ->
  mkDriver (d_config d)
           (Some (setEndpoints (setEndpoints n (<[eid := ep]> (n_endpoints n)))
                               (delete eid (<[eid := ep]> (n_endpoints n)))))
  = d.
Proof.
  intros Hn Hfresh. destruct d as [c net], n as [i b m]; simpl in *. subst net.
  unfold setEndpoints; simpl. by rewrite delete_insert_id.
Qed.

(** When the generation of either name fails, [CreateEndpoint] returns
    that error and leaves the driver and the world as they were. *)
Lemma CreateEndpoint_name_failure (env : Env) (nid eid : string) (opts : Options)
    (d : driver) (w : World) (n : bridgeNetwork)
    (epConfig : option EndpointConfiguration) (e : error) :
  d_network d = Some n ->
  n_id n = nid ->
  eid <> "" ->
  n_endpoints n !! eid = None ->
  parseEndpointOptions opts = Ok epConfig ->
  generateIfaceName env (randHost env) w = Err e
  \/ (exists name1, generateIfaceName env (randHost env) w = Ok name1
                    /\ generateIfaceName env (randSbox env) w = Err e) ->
  CreateEndpoint env nid eid opts d w = (Returns (Err e), d, w).
Proof.
  intros Hn Hid Heid Hfresh Hopts Hgen.
  rewrite (CreateEndpoint_past_checks env nid eid opts d w n epConfig) by done.
  unfold CreateEndpoint_veth.
  destruct Hgen as [->|(name1 & -> & ->)]; unfold onError, failWith; simpl;
    by rewrite placeholder_removed.
Qed.

(** C9: a name that [generateIfaceName] returns is "veth" followed by 7
    hex characters and names no interface of the host; it comes from one
    of at most 3 attempts, every earlier one having been rejected;
    [ErrIfaceName] is returned exactly when all 3 attempts are rejected,
    and [CreateEndpoint] then fails with it, for either side, leaving the
    driver and the world untouched. *)
Theorem generateIfaceName_names (env : Env) (rand : nat -> option N) (w : World) :
  (forall name,
     generateIfaceName env rand w = Ok name ->
     (exists hex, name = "veth" +:+ hex /\ String.length hex = 7%nat /\ allHex hex = true)
     /\ findLink name (links w) = None
     /\ exists i e, (i < 3)%nat /\ rand i = Some e
                    /\ name = "veth" +:+ hexString 7 e
                    /\ forall k, (k < i)%nat -> rejected env rand w k)
  /\ (generateIfaceName env rand w = Err ErrIfaceName <->
      forall k, (k < 3)%nat -> rejected env rand w k)
  /\ (forall nid eid opts d n epConfig,
        d_network d = Some n ->
        n_id n = nid ->
        eid <> "" ->
        n_endpoints n !! eid = None ->
        parseEndpointOptions opts = Ok epConfig ->
        rand = randHost env
        \/ (rand = randSbox env
            /\ exists name1, generateIfaceName env (randHost env) w = Ok name1) ->
        (forall k, (k < 3)%nat -> rejected env rand w k) ->
        CreateEndpoint env nid eid opts d w = (Returns (Err ErrIfaceName), d, w)).
Proof.
  pose proof (generateIfaceNameFrom_spec env rand w 3 0) as Hspec.
  fold (generateIfaceName env rand w) in Hspec.
  assert (Hexhausted : (forall k, (k < 3)%nat -> rejected env rand w k) ->
                       generateIfaceName env rand w = Err ErrIfaceName).
  { intros Hrej. destruct (generateIfaceName env rand w) as [name|err].
    - destruct Hspec as (j & e & Hj & He & -> & Hl & _).
      specialize (Hrej j ltac:(lia)). unfold rejected in Hrej. rewrite He in Hrej.
      destruct Hrej as [_ Hhas]. apply hasLink_findLink in Hl. congruence.
    - destruct err; try reflexivity;
        destruct Hspec as (j & Hj & Hnr); destruct Hnr; apply Hrej; lia. }
  split_and!.
  - intros name Hname. rewrite Hname in Hspec.
    destruct Hspec as (j & e & Hj & He & -> & Hl & Hk).
    split_and!; [|done|].
    + exists (hexString vethLen e). split; [done|]. apply hexString_hex.
    + exists j, e. split_and!; try done; try lia. intros k ?. apply Hk. lia.
  - split; [|exact Hexhausted].
    intros Herr. rewrite Herr in Hspec. intros k ?. apply Hspec. lia.
  - intros nid eid opts d n epConfig Hn Hid Heid Hfresh Hopts Hside Hrej.
    apply Hexhausted in Hrej.
    apply (CreateEndpoint_name_failure env nid eid opts d w n epConfig); try done.
    destruct Hside as [->|[-> Hhost]]; [by left|right].
    destruct Hhost as [name1 Hhost]. by exists name1.
Qed.

(** In an empty world the first draw for the host side is accepted; in
    a world where the names of its three draws are taken, [CreateEndpoint]
    fails with [ErrIfaceName]. *)
Lemma generateIfaceName_names_witness :
  findLink "veth8e30000" (links emptyWorld) = None
  /\ CreateEndpoint quietEnv "n1" "e1" None crowdedDriver crowdedWorld
     = (Returns (Err ErrIfaceName), crowdedDriver, crowdedWorld).
Proof.
  split.
  - destruct (generateIfaceName_names quietEnv (randHost quietEnv) emptyWorld)
      as (Hok & _).
    destruct (Hok "veth8e30000" eq_refl) as (_ & Hfree & _). exact Hfree.
  - destruct (generateIfaceName_names quietEnv (randHost quietEnv) crowdedWorld)
      as (_ & _ & Hfail).
    apply (Hfail "n1" "e1" None crowdedDriver
             (mkBridgeNetwork "n1"
                (mkBridgeInterface (Some (newLinkRecord "br-test" KBridge))
                                   (Some subnetS1) None None None) ∅) None);
      try done; [by left|].
    intros k Hk. unfold rejected.
    destruct k as [|[|[|k]]]; [done..|lia].
Defined.

(** ** Empty endpoint ids *)

(** C10, as amended: a call with an empty endpoint id never changes the
    driver or the world; [CreateEndpoint] and [DeleteEndpoint] reject it
    with [InvalidEndpointID] once the network exists and has the given id;
    [Join] and [Leave] reject it when ICC is disabled and there is a
    network, and return nil without any lookup when ICC is enabled. *)
Theorem empty_endpoint_id (env : Env) (nid sboxKey : string) (opts : Options)
    (d : driver) (w : World) :
  getEndpoint_rejects_empty
  /\ (CreateEndpoint env nid "" opts d w).1.2 = d
  /\ (CreateEndpoint env nid "" opts d w).2 = w
  /\ (DeleteEndpoint env nid "" d w).1.2 = d
  /\ (DeleteEndpoint env nid "" d w).2 = w
  /\ (Join env nid "" sboxKey opts d w).2 = w
  /\ (Leave env nid "" opts d w).2 = w
  /\ (forall n, d_network d = Some n -> n_id n = nid ->
        (CreateEndpoint env nid "" opts d w).1.1 = Returns (Err (InvalidEndpointIDError ""))
        /\ (DeleteEndpoint env nid "" d w).1.1
           = Returns (Some (InvalidEndpointIDError "")))
  /\ (forall config n, d_config d = Some config -> d_network d = Some n ->
        EnableICC config = false ->
        (Join env nid "" sboxKey opts d w).1 = Returns (Some (InvalidEndpointIDError ""))
        /\ (Leave env nid "" opts d w).1 = Returns (Some (InvalidEndpointIDError "")))
  /\ (forall config, d_config d = Some config -> EnableICC config = true ->
        (Join env nid "" sboxKey opts d w).1 = Returns None
        /\ (Leave env nid "" opts d w).1 = Returns None).
Proof.
  unfold getEndpoint_rejects_empty, CreateEndpoint, DeleteEndpoint, Join, Leave, link_,
    getEndpoint; simpl.
  split_and!; try done.
  - by repeat case_match.
  - by repeat case_match.
  - by repeat case_match.
  - by repeat case_match.
  - by repeat case_match.
  - by repeat case_match.
  - intros n -> <-. by rewrite String.eqb_refl.
  - by intros config n -> -> ->.
  - by intros config -> ->.
Qed.

(** C10, as stated, fails: with ICC enabled [Join] accepts the empty
    endpoint id, and without a network [CreateEndpoint] reports
    [NoNetwork] for it. *)
Lemma empty_endpoint_id_not_always_rejected :
  Join quietEnv "n1" "" "sandbox" None networkS1.1 networkS1.2
  = (Returns None, networkS1.2)
  /\ CreateEndpoint quietEnv "n1" "" None configuredS1 emptyWorld
     = (Returns (Err ErrNoNetwork), configuredS1, emptyWorld).
Proof. split; reflexivity. Qed.

(** In scenario S1 the empty id is rejected by [CreateEndpoint] and
    [DeleteEndpoint]; in scenario S6, where ICC is disabled, by [Join] and
    [Leave]. *)
Lemma empty_endpoint_id_witness :
  ((CreateEndpoint quietEnv "n1" "" None networkS1.1 networkS1.2).1.1
   = Returns (Err (InvalidEndpointIDError ""))
   /\ (DeleteEndpoint quietEnv "n1" "" networkS1.1 networkS1.2).1.1
      = Returns (Some (InvalidEndpointIDError "")))
  /\ ((Join quietEnv "n1" "" "sandbox" None driverS6 emptyWorld).1
      = Returns (Some (InvalidEndpointIDError ""))
      /\ (Leave quietEnv "n1" "" None driverS6 emptyWorld).1
         = Returns (Some (InvalidEndpointIDError ""))).
Proof.
  split.
  - destruct (empty_endpoint_id quietEnv "n1" "sandbox" None networkS1.1 networkS1.2)
      as (_ & _ & _ & _ & _ & _ & _ & Hep & _).
    by eapply Hep.
  - destruct (empty_endpoint_id quietEnv "n1" "sandbox" None driverS6 emptyWorld)
      as (_ & _ & _ & _ & _ & _ & _ & _ & Hlink & _).
    by eapply Hlink.
Defined.

(** ** Links between containers *)

Lemma addLog_nil (w : World) : addLog w [] = w.
Proof. destruct w. unfold addLog; simpl. by rewrite app_nil_r. Qed.

Lemma addLog_app (w : World) (a b : list fwEvent) :
  addLog (addLog w a) b = addLog w (a ++ b).
Proof. unfold addLog; simpl. by rewrite app_assoc. Qed.

Lemma logFw_addLog (w : World) (e : fwEvent) : logFw w e = addLog w [e].
Proof. reflexivity. Qed.

Lemma transactionalFrom_stop (w : World) (r : outcome (option error)) :
  transactionalFrom w (mkExit r (returnedError r) w).
Proof.
  split; [reflexivity|]. exists []. simpl.
  unfold enableCalls. destruct (returnedError r); simpl; by rewrite addLog_nil.
Qed.

Lemma programLink_enable (env : Env) (l : link)
    (rest : World -> Exit World (option error)) (w : World) :
  (forall w1, transactionalFrom w1 (rest w1)) ->
  transactionalFrom w (programLink env true l rest w).
Proof.
  intros Hrest. unfold programLink, Enable.
  destruct (enableFault env l) as [e|].
  { apply (transactionalFrom_stop w (Returns (Some e))). }
  destruct (Hrest (logFw w (EvEnable l))) as (Herr & enabled & Hstate).
  unfold onError, transactionalFrom.
  destruct (ex_err (rest (logFw w (EvEnable l)))) as [e|] eqn:He; simpl.
  - split; [by rewrite <- Herr|]. exists (l :: enabled).
    rewrite Hstate. unfold Disable. rewrite !logFw_addLog, !addLog_app.
    f_equal. unfold enableCalls; simpl.
    rewrite List.map_app; simpl. by rewrite <- !app_assoc.
  - rewrite He. split; [done|]. exists (l :: enabled).
    rewrite Hstate. by rewrite logFw_addLog, addLog_app.
Qed.

Lemma linkParents_enable (env : Env) (network : bridgeNetwork) (endpoint : bridgeEndpoint)
    (ports : list PortBinding) (bridge : string) (ps : list string)
    (rest : World -> Exit World (option error)) :
  (forall w1, transactionalFrom w1 (rest w1)) ->
  forall w, transactionalFrom w
              (linkParents env network endpoint ports bridge true ps rest w).
Proof.
  intros Hrest. induction ps as [|p ps IH]; intros w; simpl; [apply Hrest|].
  destruct (getEndpoint network p) as [[parentEndpoint|]|e].
  - destruct (endpointIPv4 parentEndpoint), (endpointIPv4 endpoint);
      try apply (transactionalFrom_stop w Panics).
    by apply programLink_enable.
  - apply (transactionalFrom_stop w (Returns (Some (InvalidEndpointIDError p)))).
  - apply (transactionalFrom_stop w (Returns (Some e))).
Qed.

Lemma linkChildren_enable (env : Env) (network : bridgeNetwork) (endpoint : bridgeEndpoint)
    (bridge : string) (cs : list string) :
  forall w, transactionalFrom w (linkChildren env network endpoint bridge true cs w).
Proof.
  induction cs as [|c cs IH]; intros w; simpl.
  { apply (transactionalFrom_stop w (Returns None)). }
  destruct (getEndpoint network c) as [[childEndpoint|]|e].
  - destruct (ep_config childEndpoint) as [[mac [childPorts|]]|]; try apply IH.
    destruct (endpointIPv4 endpoint), (endpointIPv4 childEndpoint);
      try apply (transactionalFrom_stop w Panics).
    by apply programLink_enable.
  - apply (transactionalFrom_stop w (Returns (Some (InvalidEndpointIDError c)))).
  - apply (transactionalFrom_stop w (Returns (Some e))).
Qed.

Lemma link_enable (env : Env) (config : Configuration) (eid : string) (opts : Options)
    (d : driver) (w : World) :
  transactionalFrom w (link_ env config eid opts true d w).
Proof.
  unfold link_.
  destruct (d_network d) as [network|]; [|apply (transactionalFrom_stop w Panics)].
  destruct (getEndpoint network eid) as [[endpoint|]|e].
  - destruct (parseContainerOptions opts) as [[cc|]|e].
    + destruct (ep_config endpoint) as [[mac [ports|]]|];
        try apply linkChildren_enable.
      apply linkParents_enable. intros w1. apply linkChildren_enable.
    + apply (transactionalFrom_stop w (Returns None)).
    + apply (transactionalFrom_stop w (Returns (Some e))).
  - apply (transactionalFrom_stop w (Returns (Some (EndpointNotFoundError eid)))).
  - apply (transactionalFrom_stop w (Returns (Some e))).
Qed.

Lemma disablesFrom_stop (w : World) (r : outcome (option error)) (err : option error) :
  disablesFrom w (mkExit r err w).
Proof. exists []. simpl. by rewrite addLog_nil. Qed.

Lemma programLink_disable (env : Env) (l : link)
    (rest : World -> Exit World (option error)) (w : World) :
  (forall w1, disablesFrom w1 (rest w1)) ->
  disablesFrom w (programLink env false l rest w).
Proof.
  intros Hrest. unfold programLink.
  destruct (Hrest (Disable l w)) as (disabled & Hstate).
  exists (l :: disabled). rewrite Hstate. unfold Disable.
  by rewrite logFw_addLog, addLog_app.
Qed.

Lemma linkChildren_disable (env : Env) (network : bridgeNetwork) (endpoint : bridgeEndpoint)
    (bridge : string) (cs : list string) :
  forall w, disablesFrom w (linkChildren env network endpoint bridge false cs w).
Proof.
  induction cs as [|c cs IH]; intros w; simpl; [apply disablesFrom_stop|].
  destruct (getEndpoint network c) as [[childEndpoint|]|e];
    try apply disablesFrom_stop.
  destruct (ep_config childEndpoint) as [[mac [childPorts|]]|]; try apply IH.
  destruct (endpointIPv4 endpoint), (endpointIPv4 childEndpoint);
    try apply disablesFrom_stop.
  by apply (programLink_disable env).
Qed.

Lemma linkParents_disable (env : Env) (network : bridgeNetwork) (endpoint : bridgeEndpoint)
    (ports : list PortBinding) (bridge : string) (ps : list string)
    (rest : World -> Exit World (option error)) :
  (forall w1, disablesFrom w1 (rest w1)) ->
  forall w, disablesFrom w
              (linkParents env network endpoint ports bridge false ps rest w).
Proof.
  intros Hrest. induction ps as [|p ps IH]; intros w; simpl; [apply Hrest|].
  destruct (getEndpoint network p) as [[parentEndpoint|]|e];
    try apply disablesFrom_stop.
  destruct (endpointIPv4 parentEndpoint), (endpointIPv4 endpoint);
    try apply disablesFrom_stop.
  by apply (programLink_disable env).
Qed.

Lemma link_disable (env : Env) (config : Configuration) (eid : string) (opts : Options)
    (d : driver) (w : World) :
  disablesFrom w (link_ env config eid opts false d w).
Proof.
  unfold link_.
  destruct (d_network d) as [network|]; [|apply disablesFrom_stop].
  destruct (getEndpoint network eid) as [[endpoint|]|e]; try apply disablesFrom_stop.
  destruct (parseContainerOptions opts) as [[cc|]|e]; try apply disablesFrom_stop.
  destruct (ep_config endpoint) as [[mac [ports|]]|]; try apply linkChildren_disable.
  apply linkParents_disable. intros w1. apply linkChildren_disable.
Qed.

(** C7: with ICC enabled [Join] and [Leave] return nil and leave the
    world alone; the calls that [Join] makes to the firewall enable links,
    and when [Join] returns an error every link it had enabled is disabled
    again, last first, before it returns; [Leave] only disables. *)
Theorem link_programming_transactional (env : Env) (nid eid sboxKey : string)
    (opts : Options) (d : driver) (w : World) :
  (forall config, d_config d = Some config -> EnableICC config = true ->
     Join env nid eid sboxKey opts d w = (Returns None, w)
     /\ Leave env nid eid opts d w = (Returns None, w))
  /\ (exists enabled,
        (Join env nid eid sboxKey opts d w).2
        = addLog w (enableCalls enabled
                      (returnedError (Join env nid eid sboxKey opts d w).1)))
  /\ (exists disabled,
        (Leave env nid eid opts d w).2 = addLog w (List.map EvDisable disabled)).
Proof.
  unfold Join, Leave. split_and!.
  - by intros config -> ->.
  - destruct (d_config d) as [config|]; simpl.
    + destruct (EnableICC config); simpl.
      * exists []. by rewrite addLog_nil.
      * destruct (link_enable env config eid opts d w) as (Herr & enabled & Hstate).
        exists enabled. by rewrite <- Herr.
    + exists []. by rewrite addLog_nil.
  - destruct (d_config d) as [config|]; simpl.
    + destruct (EnableICC config); simpl.
      * exists []. by rewrite addLog_nil.
      * apply link_disable.
    + exists []. by rewrite addLog_nil.
Qed.

(** Scenario S6 with a firewall that refuses the rules of the second
    child: [Join] returns the error after enabling and disabling the link
    to the first child. *)
Lemma link_programming_transactional_witness :
  Join secondLinkFails "n1" "parentEp" "sandbox" joinChildren driverS6 emptyWorld
  = (Returns (Some (ErrSys "iptables failed")),
     addLog emptyWorld [EvEnable (linkTo 3); EvDisable (linkTo 3)])
  /\ exists enabled,
       (Join secondLinkFails "n1" "parentEp" "sandbox" joinChildren driverS6 emptyWorld).2
       = addLog emptyWorld (enableCalls enabled (Some (ErrSys "iptables failed"))).
Proof.
  split; [reflexivity|].
  destruct (link_programming_transactional secondLinkFails "n1" "parentEp" "sandbox"
              joinChildren driverS6 emptyWorld) as (_ & Hjoin & _).
  exact Hjoin.
Defined.

(** ** The allocator and the port mapper *)

Lemma sameBooks_refl (w : World) : sameBooks w w.
Proof. by unfold sameBooks. Qed.

Lemma sameBooks_trans (w1 w2 w3 : World) :
  sameBooks w1 w2 -> sameBooks w2 w3 -> sameBooks w1 w3.
Proof. unfold sameBooks. intros (-> & -> & -> & ->) (-> & -> & -> & ->). done. Qed.

Lemma sameBooks_setLinks (w : World) (ls : list Link) : sameBooks w (setLinks w ls).
Proof. by unfold sameBooks. Qed.

Lemma linkSet_books (env : Env) (call : NetlinkCall) (l : Link) (f : Link -> Link)
    (w w' : World) (r : option error) :
  linkSet env call l f w = (r, w') -> sameBooks w w'.
Proof.
  unfold linkSet. repeat case_match; intros [= <- <-];
    auto using sameBooks_refl, sameBooks_setLinks.
Qed.

Lemma LinkAddVeth_books (env : Env) (name peerName : string) (w w' : World)
    (r : option error) :
  LinkAddVeth env name peerName w = (r, w') -> sameBooks w w'.
Proof.
  unfold LinkAddVeth. repeat case_match; intros [= <- <-];
    auto using sameBooks_refl, sameBooks_setLinks.
Qed.

Lemma LinkDel_books (env : Env) (l : Link) (w : World) :
  sameBooks w (LinkDel env l w).2.
Proof.
  unfold LinkDel. repeat case_match; simpl;
    auto using sameBooks_refl, sameBooks_setLinks.
Qed.

Lemma LinkSetMaster_books (env : Env) (l : Link) (master : string) (w w' : World)
    (r : option error) :
  LinkSetMaster env l master w = (r, w') -> sameBooks w w'.
Proof.
  unfold LinkSetMaster. case_match; [apply linkSet_books|].
  intros [= <- <-]. apply sameBooks_refl.
Qed.

Lemma firstFree_free (fuel : nat) (taken : Z -> bool) (cand last z : Z) :
  firstFree fuel taken cand last = Some z -> taken z = false.
Proof.
  revert cand. induction fuel as [|fuel IH]; intros cand; simpl; [discriminate|].
  destruct (cand >? last); [discriminate|].
  destruct (taken cand) eqn:Ht; [apply IH|].
  by intros [= <-].
Qed.

(** An address that [RequestIP] grants was free, and joins the pool of
    the subnet it was requested from; a refusal leaves the world alone. *)
Lemma RequestIP_inv (network : IPNet) (preferred : option IP) (w w' : World)
    (r : result IP) :
  RequestIP network preferred w = (r, w') ->
  match r with
  | Ok ip =>
      ((network, ip) ∉ allocatedIPs w)
      /\ w' = setAllocated w ({[ (network, ip) ]} ∪ allocatedIPs w)
  | Err _ => w' = w
  end.
Proof.
  unfold RequestIP.
  set (search := match firstFree _ _ _ _ with Some z => _ | None => _ end).
  assert (Hsearch : search = (r, w') ->
                    match r with
                    | Ok ip => ((network, ip) ∉ allocatedIPs w)
                               /\ w' = setAllocated w ({[ (network, ip) ]} ∪ allocatedIPs w)
                    | Err _ => w' = w
                    end).
  { subst search. destruct (firstFree _ _ _ _) as [z|] eqn:Hz; intros [= <- <-]; [|done].
    apply firstFree_free in Hz. apply negb_false_iff in Hz.
    unfold ipFree in Hz. apply andb_true_iff in Hz as [Hz _].
    apply bool_decide_eq_true in Hz. done. }
  destruct preferred as [ip|]; [|exact Hsearch].
  destruct (ipFree network ip w) eqn:Hfree; [|exact Hsearch].
  intros [= <- <-]. unfold ipFree in Hfree. apply andb_true_iff in Hfree as [Hfree _].
  apply bool_decide_eq_true in Hfree. done.
Qed.

(** A preferred address that is free is the one granted. *)
Lemma RequestIP_preferred (network : IPNet) (ip : IP) (w : World) :
  ipFree network ip w = true ->
  RequestIP network (Some ip) w
  = (Ok ip, setAllocated w ({[ (network, ip) ]} ∪ allocatedIPs w)).
Proof. intros Hfree. unfold RequestIP. by rewrite Hfree. Qed.

Lemma releasePortsInternal_inv (bs : list PortBinding) (w : World) :
  releasePortsInternal bs w = setBound w (boundPorts w ∖ keysOf bs).
Proof.
  unfold releasePortsInternal, keysOf. revert w.
  induction bs as [|b bs IH]; intros w; simpl.
  - destruct w; unfold setBound; simpl. f_equal. set_solver.
  - rewrite IH. unfold releasePort, bindingKey.
    destruct (pbHostIP b) as [hip|]; simpl; unfold setBound; simpl; f_equal; set_solver.
Qed.

Lemma allocatePort_inv (b : PortBinding) (containerIP defHostIP : IP) (w w' : World)
    (r : result PortBinding) :
  allocatePort b containerIP defHostIP w = (r, w') ->
  match r with
  | Ok realized =>
      exists key, bindingKey realized = Some key
                  /\ (key ∉ boundPorts w)
                  /\ w' = setBound w ({[ key ]} ∪ boundPorts w)
  | Err _ => w' = w
  end.
Proof.
  unfold allocatePort.
  destruct (List.find _ _) as [p|] eqn:Hfind; intros [= <- <-]; [|done].
  apply find_some in Hfind as [_ Hfree]. apply bool_decide_eq_true in Hfree.
  eexists. split; [reflexivity|]. done.
Qed.

(** The bindings that [allocatePortsInternal] installs were all unbound;
    a failure leaves the port mapper as it was. *)
Lemma allocatePortsInternal_inv (bindings : list PortBinding) (containerIP defHostIP : IP) :
  forall (installed : list PortBinding) (w w' : World) (r : result (list PortBinding)),
    allocatePortsInternal bindings containerIP defHostIP installed w = (r, w') ->
    match r with
    | Ok pm =>
        exists new, pm = installed ++ new
                    /\ keysOf new ## boundPorts w
                    /\ w' = setBound w (keysOf new ∪ boundPorts w)
    | Err _ => w' = setBound w (boundPorts w ∖ keysOf installed)
    end.
Proof.
  induction bindings as [|b rest IH]; intros installed w w' r; simpl.
  - intros [= <- <-]. exists []. rewrite app_nil_r. split; [done|].
    split; [set_solver|]. destruct w; unfold setBound, keysOf; simpl. f_equal. set_solver.
  - destruct (allocatePort b containerIP defHostIP w) as [[realized|e] w1] eqn:Hb;
      apply allocatePort_inv in Hb.
    + destruct Hb as (key & Hkey & Hfresh & ->). intros Hrest.
      apply IH in Hrest. destruct r as [pm|e].
      * destruct Hrest as (new & -> & Hdisj & ->). simpl in *.
        exists (realized :: new). rewrite <- app_assoc. split; [done|].
        unfold keysOf in *; simpl. rewrite Hkey; simpl.
        split; [set_solver|]. unfold setBound; simpl. f_equal. set_solver.
      * subst w'. unfold setBound, keysOf; simpl. f_equal.
        rewrite omap_app, list_to_set_app_L; simpl. rewrite Hkey; simpl. set_solver.
    + subst w1. intros [= <- <-]. apply releasePortsInternal_inv.
Qed.

(** ** Creation of an endpoint: the successful run *)

(** What a successful run of the second half of [CreateEndpoint] did. *)
Lemma CreateEndpoint_addresses_ok (env : Env) (config : Configuration) (eid : string)
    (epConfig : option EndpointConfiguration) (name2 : string) (mac : HardwareAddr)
    (n : bridgeNetwork) (w : World) (sinfo : Info) :
  ex_result (CreateEndpoint_addresses env config eid epConfig name2 mac (n, w))
  = Returns (Ok sinfo) ->
  exists br4 ip4 w4 v6addr w6 pm w7,
    bridgeIPv4 (n_bridge n) = Some br4
    /\ RequestIP br4 None w = (Ok ip4, w4)
    /\ ((EnableIPv6 config = false /\ v6addr = None /\ w6 = w4)
        \/ (exists network hint ip6,
              EnableIPv6 config = true
              /\ ipv6Network config n = Some network
              /\ preferredIPv6 network mac = Returns hint
              /\ RequestIP network hint w4 = (Ok ip6, w6)
              /\ v6addr = Some (mkIPNet ip6 (ipnMask network))))
    /\ sinfo = mkInfo [mkInterface name2 containerVeth (Some (mkIPNet ip4 (ipnMask br4)))
                                   v6addr]
                      (gatewayIPv4 (n_bridge n))
                      (if EnableIPv6 config then gatewayIPv6 (n_bridge n) else None)
    /\ allocatePorts epConfig sinfo (DefaultBindingIP config) w6 = Returns (Ok pm, w7)
    /\ CreateEndpoint_addresses env config eid epConfig name2 mac (n, w)
       = mkExit (Returns (Ok sinfo)) None
           (setEndpoints n
              (<[eid := mkBridgeEndpoint eid
                          (Some (mkInterface name2 containerVeth
                                             (Some (mkIPNet ip4 (ipnMask br4))) v6addr))
                          epConfig pm]> (n_endpoints n)),
            w7).
Proof.
  unfold CreateEndpoint_addresses.
  destruct (bridgeIPv4 (n_bridge n)) as [br4|]; [|discriminate].
  destruct (RequestIP br4 None w) as [[ip4|e] w4] eqn:H4; [|discriminate].
  destruct (EnableIPv6 config) eqn:Hv6.
  - destruct (ipv6Network config n) as [network|]; [|discriminate].
    destruct (preferredIPv6 network mac) as [hint|] eqn:Hhint; [|discriminate].
    destruct (RequestIP network hint w4) as [[ip6|e] w6] eqn:H6; [|discriminate].
    cbn [ex_result ex_state ex_err].
    destruct (allocatePorts _ _ _ _) as [[[pm|e] w7]|] eqn:Hpm; try discriminate.
    intros [= <-]. exists br4, ip4, w4, (Some (mkIPNet ip6 (ipnMask network))), w6, pm, w7.
    split_and!; try done. right. by exists network, hint, ip6.
  - cbn [ex_result ex_state ex_err].
    destruct (allocatePorts _ _ _ _) as [[[pm|e] w7]|] eqn:Hpm; try discriminate.
    intros [= <-]. exists br4, ip4, w4, None, w4, pm, w7.
    split_and!; try done. by left.
Qed.

Lemma onError_result {S R : Type} (cleanup : S -> S) (rest : Exit S R) :
  ex_result (onError cleanup rest) = ex_result rest.
Proof. unfold onError. by destruct (ex_err rest). Qed.

Lemma onError_quiet {S R : Type} (cleanup : S -> S) (rest : Exit S R) :
  ex_err rest = None -> onError cleanup rest = rest.
Proof. unfold onError. by intros ->. Qed.

Lemma setMTU_books (env : Env) (host sbox : Link) (mtu : Z) (w w' : World)
    (r : option error) :
  (if negb (mtu =? 0)
   then match LinkSetMTU env host mtu w with
        | (Some e, w) => (Some e, w)
        | (None, w) => LinkSetMTU env sbox mtu w
        end
   else (None, w)) = (r, w') ->
  sameBooks w w'.
Proof.
  destruct (negb _).
  - destruct (LinkSetMTU env host mtu w) as [[e|] wm] eqn:Hm1;
      apply linkSet_books in Hm1.
    + by intros [= <- <-].
    + intros Hm2. apply linkSet_books in Hm2. by eapply sameBooks_trans.
  - intros [= <- <-]. apply sameBooks_refl.
Qed.

(** What a successful run of the first half of [CreateEndpoint] did: the
    kernel calls changed the link list only, and the run went on to the
    addresses with the elected MAC. *)
Lemma CreateEndpoint_veth_ok (env : Env) (config : option Configuration) (eid : string)
    (epConfig : option EndpointConfiguration) (n : bridgeNetwork) (w : World)
    (sinfo : Info) :
  ex_result (CreateEndpoint_veth env config eid epConfig (n, w)) = Returns (Ok sinfo) ->
  exists cfg name2 w1,
    config = Some cfg
    /\ sameBooks w w1
    /\ ex_result (CreateEndpoint_addresses env cfg eid epConfig name2
                    (electMacAddress env epConfig) (n, w1)) = Returns (Ok sinfo)
    /\ CreateEndpoint_veth env config eid epConfig (n, w)
       = CreateEndpoint_addresses env cfg eid epConfig name2
           (electMacAddress env epConfig) (n, w1).
Proof.
  unfold CreateEndpoint_veth.
  destruct (generateIfaceName env (randHost env) w) as [name1|e]; [|discriminate].
  destruct (generateIfaceName env (randSbox env) w) as [name2|e]; [|discriminate].
  destruct (LinkAddVeth env name1 name2 w) as [[e|] wa] eqn:Hadd; [discriminate|].
  apply LinkAddVeth_books in Hadd.
  destruct (LinkByName env name1 wa) as [host|e]; [|discriminate].
  rewrite onError_result.
  destruct (LinkByName env name2 wa) as [sbox|e]; [|discriminate].
  rewrite onError_result.
  destruct (LinkSetHardwareAddr env sbox _ wa) as [[e|] wb] eqn:Hmac; [discriminate|].
  apply linkSet_books in Hmac.
  destruct config as [cfg|]; [|discriminate].
  destruct (if negb (Mtu cfg =? 0) then _ else _) as [[e|] wc] eqn:Hm; [discriminate|].
  apply setMTU_books in Hm.
  destruct (LinkSetMaster env host (BridgeName cfg) wc) as [[e|] wd] eqn:Hmaster;
    [discriminate|].
  apply LinkSetMaster_books in Hmaster.
  intros Hok. exists cfg, name2, wd.
  assert (Hquiet : ex_err (CreateEndpoint_addresses env cfg eid epConfig name2
                             (electMacAddress env epConfig) (n, wd)) = None).
  { apply CreateEndpoint_addresses_ok in Hok.
    destruct Hok as (? & ? & ? & ? & ? & ? & ? & _ & _ & _ & _ & _ & ->). done. }
  split_and!; try done.
  - eapply sameBooks_trans; [exact Hadd|].
    eapply sameBooks_trans; [exact Hmac|].
    eapply sameBooks_trans; [exact Hm|exact Hmaster].
  - by rewrite !(onError_quiet _ _ Hquiet).
Qed.

Lemma CreateEndpoint_ok (env : Env) (nid eid : string) (opts : Options) (d d' : driver)
    (w w' : World) (sinfo : Info) :
  CreateEndpoint env nid eid opts d w = (Returns (Ok sinfo), d', w') ->
  exists n epConfig cfg name2 w1,
    d_network d = Some n
    /\ n_id n = nid
    /\ n_endpoints n !! eid = None
    /\ parseEndpointOptions opts = Ok epConfig
    /\ d_config d = Some cfg
    /\ sameBooks w w1
    /\ ex_result (CreateEndpoint_addresses env cfg eid epConfig name2
                    (electMacAddress env epConfig)
                    (setEndpoints n (<[eid := mkBridgeEndpoint eid None epConfig []]>
                                       (n_endpoints n)), w1)) = Returns (Ok sinfo)
    /\ d' = mkDriver (d_config d)
              (Some (ex_state (CreateEndpoint_addresses env cfg eid epConfig name2
                                 (electMacAddress env epConfig)
                                 (setEndpoints n
                                    (<[eid := mkBridgeEndpoint eid None epConfig []]>
                                       (n_endpoints n)), w1))).1)
    /\ w' = (ex_state (CreateEndpoint_addresses env cfg eid epConfig name2
                         (electMacAddress env epConfig)
                         (setEndpoints n
                            (<[eid := mkBridgeEndpoint eid None epConfig []]>
                               (n_endpoints n)), w1))).2.
Proof.
  unfold CreateEndpoint, getEndpoint.
  destruct (d_network d) as [n|]; [|discriminate].
  destruct (String.eqb_spec (n_id n) nid) as [Hid|]; [|discriminate]; simpl.
  destruct (String.eqb eid ""); [discriminate|].
  destruct (n_endpoints n !! eid) eqn:Hfresh; [discriminate|].
  destruct (parseEndpointOptions opts) as [epConfig|]; [|discriminate].
  intros [= Hres <- <-]. rewrite onError_result in Hres.
  destruct (CreateEndpoint_veth_ok _ _ _ _ _ _ _ Hres) as (cfg & name2 & w1 & Hcfg & Hbooks & Hok & Heq).
  exists n, epConfig, cfg, name2, w1.
  assert (Hquiet : ex_err (CreateEndpoint_veth env (d_config d) eid epConfig
                             (setEndpoints n
                                (<[eid := mkBridgeEndpoint eid None epConfig []]>
                                   (n_endpoints n)), w)) = None).
  { rewrite Heq. apply CreateEndpoint_addresses_ok in Hok.
    destruct Hok as (? & ? & ? & ? & ? & ? & ? & _ & _ & _ & _ & _ & ->). done. }
  rewrite (onError_quiet _ _ Hquiet), Heq.
  split_and!; done.
Qed.

(** ** The preferred IPv6 address *)

Lemma copyMAC_spec (mac : HardwareAddr) :
  forall (i : nat) (ip6 : IP),
    (i + 10 + length mac <= length ip6)%nat ->
    copyMAC ip6 i mac
    = Returns (take (i + 10) ip6 ++ mac ++ drop (i + 10 + length mac) ip6).
Proof.
  induction mac as [|h mac IH]; intros i ip6 Hlen; cbn [copyMAC]; cbn [length] in Hlen.
  - simpl. by rewrite Nat.add_0_r, take_drop.
  - destruct (Nat.ltb_spec (i + 10) (length ip6)) as [Hlt|]; [|lia].
    unfold IP in *.
    rewrite IH by (rewrite length_insert; lia).
    change (S i + 10)%nat with (S (i + 10)).
    rewrite (take_S_r _ _ h) by (by apply list_lookup_insert_eq).
    rewrite take_insert_ge by lia.
    rewrite drop_insert_lt by lia.
    rewrite <- app_assoc. cbn [app length].
    replace (S (i + 10) + length mac)%nat with (i + 10 + S (length mac))%nat by lia.
    reflexivity.
Qed.

Lemma preferredIPv6_short_prefix (network : IPNet) (mac : HardwareAddr) :
  (Size (ipnMask network)).1 <= 80 ->
  length (ipnIP network) = 16%nat ->
  length mac = 6%nat ->
  preferredIPv6 network mac = Returns (Some (take 10 (ipnIP network) ++ mac)).
Proof.
  intros Hones Hip Hmac. unfold preferredIPv6.
  destruct (Z.leb_spec (Size (ipnMask network)).1 80); [|lia].
  rewrite copyMAC_spec by (rewrite Hip, Hmac; lia). simpl.
  rewrite drop_ge by (rewrite Hip, Hmac; lia). by rewrite app_nil_r.
Qed.

Lemma preferredIPv6_long_prefix (network : IPNet) (mac : HardwareAddr) :
  80 < (Size (ipnMask network)).1 ->
  preferredIPv6 network mac = Returns None.
Proof.
  intros Hones. unfold preferredIPv6.
  destruct (Z.leb_spec (Size (ipnMask network)).1 80); [lia|done].
Qed.

Lemma ipFree_after_other (network other : IPNet) (ip ip' : IP) (w w1 : World) :
  ipFree network ip w = true ->
  sameBooks w w1 ->
  other <> network ->
  ipFree network ip (setAllocated w1 ({[ (other, ip') ]} ∪ allocatedIPs w1)) = true.
Proof.
  unfold ipFree. intros Hfree (Ha & Hr & _) Hne.
  apply andb_true_iff in Hfree as [H1 H2].
  apply bool_decide_eq_true in H1. apply bool_decide_eq_true in H2.
  simpl. rewrite Ha, Hr. apply andb_true_iff.
  split; apply bool_decide_eq_true; [|done].
  set_solver.
Qed.

(** C6: with a prefix of at most 80 bits the preferred address is the
    network address with the 6 bytes of the MAC copied from offset 10;
    with a longer prefix there is none; a successful [CreateEndpoint] with
    IPv6 enabled requested its IPv6 address with exactly that preferred
    address as the hint, in the world left by its IPv4 allocation; and
    when the hint is free, the low bytes of the IPv6 address it returns
    are the MAC of the endpoint. *)
Theorem CreateEndpoint_IPv6_from_MAC (env : Env) (network : IPNet) (mac : HardwareAddr) :
  ((Size (ipnMask network)).1 <= 80 ->
   length (ipnIP network) = 16%nat ->
   length mac = 6%nat ->
   preferredIPv6 network mac = Returns (Some (take 10 (ipnIP network) ++ mac)))
  /\ (80 < (Size (ipnMask network)).1 -> preferredIPv6 network mac = Returns None)
  /\ (forall nid eid opts d w n config epConfig sinfo d' w',
        d_network d = Some n ->
        d_config d = Some config ->
        parseEndpointOptions opts = Ok epConfig ->
        electMacAddress env epConfig = mac ->
        EnableIPv6 config = true ->
        ipv6Network config n = Some network ->
        CreateEndpoint env nid eid opts d w = (Returns (Ok sinfo), d', w') ->
        exists br4 ip4 w4 hint ip6 w6 intf,
          bridgeIPv4 (n_bridge n) = Some br4
          /\ sameBooks w (setAllocated w4 (allocatedIPs w4 ∖ {[ (br4, ip4) ]}))
          /\ preferredIPv6 network mac = Returns hint
          /\ RequestIP network hint w4 = (Ok ip6, w6)
          /\ Interfaces sinfo = [intf]
          /\ AddressIPv6 intf = Some (mkIPNet ip6 (ipnMask network)))
  /\ (forall nid eid opts d w n config epConfig sinfo d' w',
        d_network d = Some n ->
        d_config d = Some config ->
        parseEndpointOptions opts = Ok epConfig ->
        electMacAddress env epConfig = mac ->
        EnableIPv6 config = true ->
        ipv6Network config n = Some network ->
        (Size (ipnMask network)).1 <= 80 ->
        length (ipnIP network) = 16%nat ->
        length mac = 6%nat ->
        ipFree network (take 10 (ipnIP network) ++ mac) w = true ->
        bridgeIPv4 (n_bridge n) <> Some network ->
        CreateEndpoint env nid eid opts d w = (Returns (Ok sinfo), d', w') ->
        exists intf a6,
          Interfaces sinfo = [intf]
          /\ AddressIPv6 intf = Some a6
          /\ ipnIP a6 = take 10 (ipnIP network) ++ mac
          /\ drop 10 (ipnIP a6) = mac).
Proof.
  assert (Hrun : forall nid eid opts d w n config epConfig sinfo d' w',
             d_network d = Some n ->
             d_config d = Some config ->
             parseEndpointOptions opts = Ok epConfig ->
             electMacAddress env epConfig = mac ->
             EnableIPv6 config = true ->
             ipv6Network config n = Some network ->
             CreateEndpoint env nid eid opts d w = (Returns (Ok sinfo), d', w') ->
             exists br4 ip4 w1 hint ip6 w6,
               bridgeIPv4 (n_bridge n) = Some br4
               /\ sameBooks w w1
               /\ ((br4, ip4) ∉ allocatedIPs w1)
               /\ preferredIPv6 network mac = Returns hint
               /\ RequestIP network hint
                    (setAllocated w1 ({[ (br4, ip4) ]} ∪ allocatedIPs w1)) = (Ok ip6, w6)
               /\ Interfaces sinfo
                  = [mkInterface (SrcName (default (mkInterface "" "" None None)
                                                   (head (Interfaces sinfo))))
                                 containerVeth (Some (mkIPNet ip4 (ipnMask br4)))
                                 (Some (mkIPNet ip6 (ipnMask network)))]).
  { intros nid eid opts d w n config epConfig sinfo d' w' Hn Hc Hopts Hmac Hv6 Hnet Hrun.
    apply CreateEndpoint_ok in Hrun
      as (n' & epConfig' & cfg & name2 & w1 & Hn' & _ & _ & Hopts' & Hc' & Hbooks & Hok & _).
    rewrite Hn in Hn'. injection Hn' as <-.
    rewrite Hc in Hc'. injection Hc' as <-.
    rewrite Hopts in Hopts'. injection Hopts' as <-.
    apply CreateEndpoint_addresses_ok in Hok
      as (br4 & ip4 & w4 & v6addr & w6 & pm & w7 & Hbr & H4 & H6 & -> & _).
    simpl in Hbr. apply RequestIP_inv in H4 as [Hfresh ->].
    destruct H6 as [(Hoff & _)|(network' & hint & ip6 & _ & Hnet' & Hhint & H6 & ->)];
      [congruence|].
    change (ipv6Network config n = Some network') in Hnet'.
    rewrite Hnet in Hnet'. injection Hnet' as <-. rewrite Hmac in *.
    exists br4, ip4, w1, hint, ip6, w6. done. }
  split_and!.
  - apply preferredIPv6_short_prefix.
  - apply preferredIPv6_long_prefix.
  - intros nid eid opts d w n config epConfig sinfo d' w' Hn Hc Hopts Hmac Hv6 Hnet Hcreate.
    destruct (Hrun _ _ _ _ _ _ _ _ _ _ _ Hn Hc Hopts Hmac Hv6 Hnet Hcreate)
      as (br4 & ip4 & w1 & hint & ip6 & w6 & Hbr & Hbooks & Hfresh & Hhint & H6 & Hinfo).
    eexists br4, ip4, _, hint, ip6, w6, _. split_and!; try done.
    destruct Hbooks as (Ha & Hr & Hb & He). unfold sameBooks; simpl.
    split_and!; try done. rewrite <- Ha. set_solver.
  - intros nid eid opts d w n config epConfig sinfo d' w' Hn Hc Hopts Hmac Hv6 Hnet
      Hones Hip Hlen Hfree Hother Hcreate.
    destruct (Hrun _ _ _ _ _ _ _ _ _ _ _ Hn Hc Hopts Hmac Hv6 Hnet Hcreate)
      as (br4 & ip4 & w1 & hint & ip6 & w6 & Hbr & Hbooks & Hfresh & Hhint & H6 & Hinfo).
    rewrite preferredIPv6_short_prefix in Hhint by done. injection Hhint as <-.
    pose proof (RequestIP_preferred network (take 10 (ipnIP network) ++ mac)
                  (setAllocated w1 ({[ (br4, ip4) ]} ∪ allocatedIPs w1))) as Hgrant.
    specialize (Hgrant ltac:(eapply ipFree_after_other;
                               [exact Hfree | exact Hbooks | congruence])).
    pose proof (eq_trans (eq_sym H6) Hgrant) as Heq.
    injection Heq as -> ->. eexists _, _. split_and!; try done.
    simpl. rewrite drop_app_length'; [done|].
    rewrite length_take. unfold IP in *. lia.
Qed.

(** Scenario S4: the endpoint gets fd00::0242:ac14:0002, whose low bytes
    are its MAC 02:42:ac:14:00:02. *)
Lemma CreateEndpoint_IPv6_from_MAC_witness :
  exists intf a6,
    Interfaces infoS4 = [intf]
    /\ AddressIPv6 intf = Some a6
    /\ ipnIP a6 = take 10 (ipnIP subnetS4) ++ [2; 66; 172; 20; 0; 2]
    /\ drop 10 (ipnIP a6) = [2; 66; 172; 20; 0; 2].
Proof.
  destruct (CreateEndpoint_IPv6_from_MAC quietEnv subnetS4 [2; 66; 172; 20; 0; 2])
    as (_ & _ & _ & Hlow).
  apply (Hlow "n1" "e1" None networkS4.1 networkS4.2
           (mkBridgeNetwork "n1"
              (mkBridgeInterface (Some (newLinkRecord "br-test" KBridge)) (Some subnetS1)
                                 (Some linkLocalIPv6) None None) ∅)
           configS4 None infoS4
           (CreateEndpoint quietEnv "n1" "e1" None networkS4.1 networkS4.2).1.2
           (CreateEndpoint quietEnv "n1" "e1" None networkS4.1 networkS4.2).2);
    try (vm_compute; reflexivity).
  - vm_compute. intros [=].
  - vm_compute. intros [=].
Defined.

(** ** Round trip of the network *)

Lemma findLink_app_absent (name : string) (ls more : list Link) :
  findLink name ls = None -> findLink name (ls ++ more) = findLink name more.
Proof.
  unfold findLink. induction ls as [|x ls IH]; simpl; [done|].
  destruct (String.eqb (linkName x) name); [discriminate|exact IH].
Qed.

Lemma updateLink_absent (name : string) (f : Link -> Link) (ls : list Link) :
  findLink name ls = None -> updateLink name f ls = ls.
Proof.
  unfold findLink, updateLink. induction ls as [|x ls IH]; simpl; [done|].
  destruct (String.eqb (linkName x) name); [discriminate|].
  intros H. by rewrite IH.
Qed.

Lemma filter_absent (name : string) (ls : list Link) :
  findLink name ls = None ->
  List.filter (fun x => negb (String.eqb (linkName x) name || false)) ls = ls.
Proof.
  unfold findLink. induction ls as [|x ls IH]; simpl; [done|].
  destruct (String.eqb (linkName x) name); [discriminate|]; simpl.
  intros H. by rewrite IH.
Qed.

(** Every setup step keeps the created bridge at the end of the link
    list it was appended to. *)
Lemma runStep_bridgeAppended (env : Env) (config : Configuration) (step : setupStep)
    (before : list Link) (s s' : bridgeInterface * World) (r : option error) :
  findLink (BridgeName config) before = None ->
  bridgeAppended (BridgeName config) before s ->
  runStep env config step s = (r, s') ->
  bridgeAppended (BridgeName config) before s'.
Proof.
  intros Habsent Hinv. destruct s as [i w].
  destruct Hinv as [(l & Hl & Hname) (b & Hlinks & Hb & Hkind)]; simpl in *.
  unfold runStep. destruct (stepFault env step); [by intros [= <- <-]; split; eauto|].
  destruct step;
    try (intros [= <- <-]; split; simpl; eauto; fail);
    try (repeat case_match; intros [= <- <-]; split; simpl; eauto; fail).
  - (* setupDevice: the name is taken *)
    unfold LinkAddBridge. destruct (netlinkFault env _); [by intros [= <- <-]; split; eauto|].
    unfold hasLink. rewrite Hlinks, findLink_app_absent by done.
    unfold findLink; simpl. rewrite Hb, String.eqb_refl.
    intros [= <- <-]. split; simpl; eauto.
  - (* setupDeviceUp *)
    rewrite Hl. intros [= <- <-]. split; simpl; [eauto|].
    rewrite Hname, Hlinks. unfold updateLink. rewrite List.map_app.
    fold (updateLink (BridgeName config)
            (fun x => mkLink (linkName x) (linkKind x) (linkHardwareAddr x) (linkMTU x)
                             (linkMaster x) true) before).
    rewrite updateLink_absent by done. simpl. rewrite Hb, String.eqb_refl.
    eexists. split; [reflexivity|]. done.
Qed.

Lemma applySteps_bridgeAppended (env : Env) (config : Configuration) (before : list Link)
    (steps : list setupStep) :
  findLink (BridgeName config) before = None ->
  forall s s' r,
    bridgeAppended (BridgeName config) before s ->
    applySteps (runStep env config) steps s = (r, s') ->
    bridgeAppended (BridgeName config) before s'.
Proof.
  intros Habsent. induction steps as [|step steps IH]; intros s s' r Hinv; simpl.
  - by intros [= <- <-].
  - destruct (runStep env config step s) as [[e|] s1] eqn:Hstep;
      eapply runStep_bridgeAppended in Hstep; try done.
    + by intros [= <- <-].
    + by apply IH.
Qed.

(** A network created where no link had the name of the bridge leaves
    the link list as it was, followed by the bridge, whose handle the
    network holds. *)
Lemma CreateNetwork_appends_bridge (env : Env) (id : string) (d d1 : driver)
    (w w1 : World) (config : Configuration) :
  d_config d = Some config ->
  findLink (BridgeName config) (links w) = None ->
  CreateNetwork env id d w = (None, d1, w1) ->
  exists i, d1 = mkDriver (Some config) (Some (mkBridgeNetwork id i ∅))
            /\ bridgeAppended (BridgeName config) (links w) (i, w1).
Proof.
  intros Hc Habsent Hcreate.
  assert (Hn : d_network d = None).
  { unfold CreateNetwork in Hcreate. rewrite Hc in Hcreate.
    destruct (d_network d); [discriminate|done]. }
  destruct d as [c net]; simpl in *; subst c net.
  rewrite CreateNetwork_unfold in Hcreate.
  assert (Hnew : newInterface env config w = mkBridgeInterface None None None None None).
  { unfold newInterface, LinkByName. rewrite Habsent.
    by destruct (netlinkFault env _). }
  rewrite Hnew in Hcreate. cbn [exists_ bi_Link] in Hcreate.
  cbv zeta in Hcreate.
  change (List.filter (queuedWhen config false) canonicalOrder)
    with (setupDevice :: setupBridgeIPv4
          :: List.filter (queuedWhen config false)
               [ setupBridgeIPv6; setupVerifyAndReconcile; setupFixedCIDRv4;
                 setupFixedCIDRv6; setupIPTables; setupIPForwarding;
                 setupGatewayIPv4; setupGatewayIPv6; setupDeviceUp ]) in Hcreate.
  cbn [applySteps] in Hcreate.
  destruct (runStep env config setupDevice _) as [[e|] [i0 w0]] eqn:Hdev;
    [by destruct e; discriminate Hcreate|].
  assert (Hinv : bridgeAppended (BridgeName config) (links w) (i0, w0)).
  { unfold runStep, LinkAddBridge, hasLink in Hdev.
    destruct (stepFault env setupDevice); [discriminate|].
    destruct (netlinkFault env _); [discriminate|].
    rewrite Habsent in Hdev. injection Hdev as <- <-. simpl.
    rewrite findLink_app_absent by done.
    unfold findLink; simpl. rewrite String.eqb_refl.
    split; simpl; eexists; split_and!; reflexivity. }
  match type of Hcreate with
  | (let '(_, _) := ?rest in _) = _ => destruct rest as [[e|] [i' w']] eqn:Hrest
  end; [discriminate Hcreate|]. injection Hcreate as <- <-.
  exists i'. split; [reflexivity|].
  apply (applySteps_bridgeAppended env config (links w)
           (setupBridgeIPv4
            :: List.filter (queuedWhen config false)
                 [ setupBridgeIPv6; setupVerifyAndReconcile; setupFixedCIDRv4;
                   setupFixedCIDRv6; setupIPTables; setupIPForwarding;
                   setupGatewayIPv4; setupGatewayIPv6; setupDeviceUp ])
           Habsent (i0, w0) (i', w') None Hinv Hrest).
Qed.

(** ** Round trip of an endpoint *)

Lemma allocatePorts_inv (epConfig : option EndpointConfiguration) (sinfo : Info)
    (reqDefBindIP : option IP) (w w' : World) (pm : list PortBinding) :
  allocatePorts epConfig sinfo reqDefBindIP w = Returns (Ok pm, w') ->
  keysOf pm ## boundPorts w /\ w' = setBound w (keysOf pm ∪ boundPorts w).
Proof.
  assert (Hnone : keysOf [] ## boundPorts w
                  /\ w = setBound w (keysOf [] ∪ boundPorts w)).
  { split; [set_solver|]. destruct w; unfold setBound, keysOf; simpl. f_equal. set_solver. }
  unfold allocatePorts.
  destruct epConfig as [[mac [bs|]]|]; try (by intros [= <- <-]).
  destruct (Interfaces sinfo) as [|[src dst [a|] a6] rest]; try discriminate.
  intros [= Halloc]. apply allocatePortsInternal_inv in Halloc.
  destruct Halloc as (new & -> & Hdisj & ->). done.
Qed.

Lemma ReleaseIP_inv (env : Env) (network : IPNet) (ip : IP) (w w' : World) :
  ReleaseIP env network ip w = (None, w') ->
  w' = setAllocated w (allocatedIPs w ∖ {[ (network, ip) ]}).
Proof.
  unfold ReleaseIP. destruct (releaseFault env network ip); [discriminate|].
  by intros [= <-].
Qed.

(** What a run of the second half of [DeleteEndpoint] that returns nil
    did. *)
Lemma DeleteEndpoint_release_ok (env : Env) (config : option Configuration)
    (ep : bridgeEndpoint) (n : bridgeNetwork) (w : World) :
  ex_result (DeleteEndpoint_release env config ep (n, w)) = Returns None ->
  exists cfg br4 intf a4 w9 w10,
    config = Some cfg
    /\ bridgeIPv4 (n_bridge n) = Some br4
    /\ ep_intf ep = Some intf
    /\ Address intf = Some a4
    /\ ReleaseIP env br4 (ipnIP a4) (releasePorts ep w) = (None, w9)
    /\ ((EnableIPv6 cfg = false /\ w10 = w9)
        \/ (exists br6 a6,
              EnableIPv6 cfg = true
              /\ bridgeIPv6 (n_bridge n) = Some br6
              /\ AddressIPv6 intf = Some a6
              /\ ReleaseIP env br6 (ipnIP a6) w9 = (None, w10)))
    /\ sameBooks w10 (ex_state (DeleteEndpoint_release env config ep (n, w))).2.
Proof.
  unfold DeleteEndpoint_release.
  destruct (bridgeIPv4 (n_bridge n)) as [br4|]; [|by repeat case_match].
  destruct (ep_intf ep) as [intf|]; [|discriminate].
  destruct (Address intf) as [a4|] eqn:Ha4; [|discriminate].
  destruct (ReleaseIP env br4 (ipnIP a4) (releasePorts ep w)) as [[e|] w9] eqn:H4;
    [discriminate|].
  destruct config as [cfg|]; [|discriminate].
  destruct (EnableIPv6 cfg) eqn:Hv6.
  - destruct (bridgeIPv6 (n_bridge n)) as [br6|]; [|discriminate].
    destruct (AddressIPv6 intf) as [a6|] eqn:Ha6; [|discriminate].
    destruct (ReleaseIP env br6 (ipnIP a6) w9) as [[e|] w10] eqn:H6; [discriminate|].
    cbn [ex_result ex_state]. intros _.
    exists cfg, br4, intf, a4, w9, w10.
    split_and!; [done..| right; by exists br6, a6 |].
    destruct (LinkByName env (SrcName intf) w10); simpl;
      [apply LinkDel_books | apply sameBooks_refl].
  - cbn [ex_result ex_state]. intros _.
    exists cfg, br4, intf, a4, w9, w9.
    split_and!; [done..| by left |].
    destruct (LinkByName env (SrcName intf) w9); simpl;
      [apply LinkDel_books | apply sameBooks_refl].
Qed.

Lemma restore_keeps_world (eid : string) (ep : bridgeEndpoint)
    (ex : Exit NetState (option error)) :
  (ex_state (onError
     (fun s : NetState =>
        match n_endpoints s.1 !! eid with
        | None => (setEndpoints s.1 (<[eid := ep]> (n_endpoints s.1)), s.2)
        | Some _ => s
        end) ex)).2 = (ex_state ex).2.
Proof.
  unfold onError. destruct (ex_err ex); [|done]. simpl.
  by destruct (n_endpoints (ex_state ex).1 !! eid).
Qed.

(** With IPv6 disabled, or enabled without [FixedCIDRv6], a successful
    [CreateEndpoint] followed by a [DeleteEndpoint] that returns nil
    leaves the allocator and the port mapper as they were. *)
Lemma CreateEndpoint_DeleteEndpoint_books (env env' : Env) (nid eid : string)
    (opts : Options) (d d1 d2 : driver) (w w1 w2 : World) (sinfo : Info)
    (config : Configuration) :
  d_config d = Some config ->
  EnableIPv6 config = false \/ FixedCIDRv6 config = None ->
  CreateEndpoint env nid eid opts d w = (Returns (Ok sinfo), d1, w1) ->
  DeleteEndpoint env' nid eid d1 w1 = (Returns None, d2, w2) ->
  sameBooks w w2.
Proof.
  intros Hc Hv6 Hcreate Hdelete.
  apply CreateEndpoint_ok in Hcreate
    as (n & epConfig & cfg & name2 & wa & Hn & Hid & Hfresh & Hopts & Hc' & Hbooks
        & Hok & -> & ->).
  rewrite Hc in Hc'. injection Hc' as <-.
  apply CreateEndpoint_addresses_ok in Hok
    as (br4 & ip4 & w4 & v6addr & w6 & pm & w7 & Hbr & H4 & H6 & _ & Hpm & Heq).
  rewrite Heq in Hdelete. cbn [ex_state fst snd] in Hdelete. clear Heq.
  simpl in Hbr.
  apply RequestIP_inv in H4 as [Hfresh4 ->].
  apply allocatePorts_inv in Hpm as [Hdisj ->].
  (* the deletion *)
  unfold DeleteEndpoint, getEndpoint in Hdelete. cbn [d_network d_config] in Hdelete.
  cbn [setEndpoints n_endpoints n_id n_bridge] in Hdelete.
  rewrite Hid, String.eqb_refl in Hdelete. cbn [negb] in Hdelete.
  destruct (String.eqb eid ""); [discriminate|].
  rewrite lookup_insert_eq in Hdelete.
  pose proof (f_equal (fun p => p.1.1) Hdelete) as Hres.
  pose proof (f_equal (fun p => p.2) Hdelete) as Hw2.
  cbn [fst snd] in Hres, Hw2. subst w2. clear Hdelete.
  rewrite onError_result in Hres.
  apply DeleteEndpoint_release_ok in Hres
    as (cfg & br4' & intf & a4 & w9 & w10 & Hcfg & Hbr' & Hintf & Ha4 & Hr4 & Hr6 & Hend).
  rewrite Hc in Hcfg. injection Hcfg as <-.
  simpl in Hbr', Hintf. rewrite Hbr in Hbr'. injection Hbr' as <-.
  injection Hintf as <-. simpl in Ha4. injection Ha4 as <-. simpl in Hr4.
  apply ReleaseIP_inv in Hr4. unfold releasePorts in Hr4; simpl in Hr4.
  rewrite releasePortsInternal_inv in Hr4.
  rewrite restore_keeps_world.
  eapply sameBooks_trans; [|exact Hend]. clear Hend.
  destruct Hbooks as (Ha & Hr & Hb & He).
  destruct H6 as [(Hoff & -> & ->)|(network & hint & ip6 & Hon & Hnet & _ & H6 & ->)].
  - destruct Hr6 as [(_ & ->)|(br6 & a6 & Hon & _)]; [|congruence].
    subst w9. unfold sameBooks; simpl. rewrite Ha, Hr, Hb, He.
    split_and!; try done; set_solver.
  - destruct Hr6 as [(Hoff & _)|(br6 & a6 & _ & Hbr6 & Ha6 & Hr6)]; [congruence|].
    destruct Hv6 as [Hoff|Hfixed]; [congruence|].
    unfold ipv6Network in Hnet. rewrite Hfixed in Hnet. simpl in Hnet, Hbr6.
    rewrite Hnet in Hbr6. injection Hbr6 as <-.
    simpl in Ha6. injection Ha6 as <-. simpl in Hr6.
    apply RequestIP_inv in H6 as [Hfresh6 ->].
    apply ReleaseIP_inv in Hr6. subst w10 w9.
    simpl in Hfresh6.
    unfold sameBooks; simpl. rewrite Ha, Hr, Hb, He.
    split_and!; try done; set_solver.
Qed.

(** C8, as amended: with IPv6 disabled, or enabled without
    [FixedCIDRv6], a successful [CreateEndpoint] followed by a
    [DeleteEndpoint] of the same endpoint that returns nil leaves the IP
    allocator and the port mapper as they were; and when no link bore the
    name of the bridge, a successful [CreateNetwork] followed by a
    successful [DeleteNetwork] leaves the kernel link list as it was. *)
Theorem round_trips :
  (forall (env env' : Env) (nid eid : string) (opts : Options) (d d1 d2 : driver)
          (w w1 w2 : World) (sinfo : Info) (config : Configuration),
      d_config d = Some config ->
      EnableIPv6 config = false \/ FixedCIDRv6 config = None ->
      CreateEndpoint env nid eid opts d w = (Returns (Ok sinfo), d1, w1) ->
      DeleteEndpoint env' nid eid d1 w1 = (Returns None, d2, w2) ->
      sameBooks w w2)
  /\ (forall (env env' : Env) (id : string) (d d1 d2 : driver) (w w1 w2 : World)
             (config : Configuration),
        d_config d = Some config ->
        findLink (BridgeName config) (links w) = None ->
        CreateNetwork env id d w = (None, d1, w1) ->
        DeleteNetwork env' d1 w1 = (Returns None, d2, w2) ->
        links w2 = links w).
Proof.
  split.
  - intros. by eapply CreateEndpoint_DeleteEndpoint_books.
  - intros env env' id d d1 d2 w w1 w2 config Hc Habsent Hcreate Hdelete.
    destruct (CreateNetwork_appends_bridge env id d d1 w w1 config Hc Habsent Hcreate)
      as (i & -> & (l & Hl & Hname) & (b & Hlinks & Hb & Hkind)).
    simpl in Hl, Hlinks.
    unfold DeleteNetwork, DeleteNetworkAmong, onError in Hdelete.
    cbn [d_network d_config n_endpoints n_bridge n_id] in Hdelete.
    rewrite map_size_empty in Hdelete. cbn [Nat.eqb negb] in Hdelete.
    rewrite Hl in Hdelete. unfold LinkDel in Hdelete.
    destruct (netlinkFault env' _); [discriminate|].
    rewrite Hname, Hlinks, findLink_app_absent in Hdelete by done.
    unfold findLink in Hdelete; simpl in Hdelete.
    rewrite Hb, String.eqb_refl in Hdelete. simpl in Hdelete.
    pose proof (f_equal (fun p => links p.2) Hdelete) as Hlinks2.
    cbn [fst snd ex_state setLinks links] in Hlinks2. rewrite <- Hlinks2.
    rewrite Hkind, Hb, List.filter_app, filter_absent by done.
    simpl. rewrite Hb, String.eqb_refl. simpl. by rewrite app_nil_r.
Qed.

(** Scenario S1: after [CreateEndpoint] and [DeleteEndpoint] the
    allocator and the port mapper are as after [CreateNetwork]; after
    [CreateNetwork] and [DeleteNetwork] the link list is empty again. *)
Lemma round_trips_witness :
  sameBooks networkS1.2 (createdThenDeleted networkS1).2
  /\ links (DeleteNetwork quietEnv networkS1.1 networkS1.2).2 = links emptyWorld.
Proof.
  destruct round_trips as [Hendpoint Hnetwork]. split.
  - apply (Hendpoint quietEnv quietEnv "n1" "e1" None networkS1.1
             (CreateEndpoint quietEnv "n1" "e1" None networkS1.1 networkS1.2).1.2
             (createdThenDeleted networkS1).1.2
             networkS1.2
             (CreateEndpoint quietEnv "n1" "e1" None networkS1.1 networkS1.2).2
             (createdThenDeleted networkS1).2
             (mkInfo [mkInterface "veth0d70000" "eth0"
                        (Some (mkIPNet [172; 20; 0; 1] [255; 255; 0; 0])) None]
                     None None)
             configS1);
      first [ by left | vm_compute; reflexivity ].
  - apply (Hnetwork quietEnv quietEnv "n1" configuredS1 networkS1.1
             (DeleteNetwork quietEnv networkS1.1 networkS1.2).1.2
             emptyWorld networkS1.2
             (DeleteNetwork quietEnv networkS1.1 networkS1.2).2
             configS1);
      vm_compute; reflexivity.
Defined.

(** C8, as stated, fails: when the bridge was there before
    [CreateNetwork], which adopts it, [DeleteNetwork] deletes it, and the
    link list does not return to its initial state. *)
Lemma network_round_trip_deletes_adopted_bridge :
  (CreateNetwork quietEnv "n1" configuredS1 worldWithBridge).1.1 = None
  /\ adoptedThenDeleted.1.1 = Returns None
  /\ links adoptedThenDeleted.2 = []
  /\ links worldWithBridge = [newLinkRecord "br-test" KBridge].
Proof. split_and!; vm_compute; reflexivity. Qed.

(** Scenario S4, where [FixedCIDRv6] is set: [DeleteEndpoint] releases
    the IPv6 address to the pool of the bridge's link-local subnet, and
    the address stays allocated in the pool of fd00::/64 that
    [CreateEndpoint] took it from. *)
Lemma endpoint_round_trip_keeps_fixed_cidr_address :
  (createdThenDeleted networkS4).1.1 = Returns None
  /\ allocatedIPs networkS4.2 = ∅
  /\ allocatedIPs (createdThenDeleted networkS4).2
     = {[ (subnetS4, [253; 0; 0; 0; 0; 0; 0; 0; 0; 0; 2; 66; 172; 20; 0; 2]) ]}.
Proof. split_and!; vm_compute; reflexivity. Qed.

(** ** Failed creations of an endpoint *)

(** C1 does not hold of the code.  In scenario S5 the second endpoint
    fails with [AllocatePort]; its placeholder, its veth pair and its port
    bindings are gone, but the IPv4 address 172.20.0.2 that it was granted
    stays allocated.  With IPv6 on a subnet without free addresses the
    call fails with [NoAvailableIPs] through a shadowing [err]: no
    deferred function runs, and the placeholder, the veth pair and the
    IPv4 address all stay. *)
Theorem CreateEndpoint_failure_leaves_state :
  (Validate configS1 = None
   /\ portClash.1.1 = Returns (Err ErrAllocatePort)
   /\ portClash.1.2 = portTaken.1
   /\ links portClash.2 = links portTaken.2
   /\ boundPorts portClash.2 = boundPorts portTaken.2
   /\ allocatedIPs portTaken.2 = {[ (subnetS1, [172; 20; 0; 1]) ]}
   /\ allocatedIPs portClash.2
      = {[ (subnetS1, [172; 20; 0; 2]) ]} ∪ allocatedIPs portTaken.2)
  /\ (Validate configNoHosts = None
      /\ noIPv6Left.1.1 = Returns (Err ErrNoAvailableIPs)
      /\ endpointsOf networkNoHosts.1 = ∅
      /\ endpointsOf noIPv6Left.1.2 = {[ "e1" := mkBridgeEndpoint "e1" None None [] ]}
      /\ List.map linkName (links networkNoHosts.2) = ["br-test"]
      /\ List.map linkName (links noIPv6Left.2) = ["br-test"; "veth8e30000"; "veth0d70000"]
      /\ allocatedIPs networkNoHosts.2 = ∅
      /\ allocatedIPs noIPv6Left.2 = {[ (subnetS1, [172; 20; 0; 1]) ]}).
Proof. split; split_and!; vm_compute; reflexivity. Qed.

(** * Further properties of the driver *)

(** ** Configuration of the driver *)

(** X1: [Config] never touches the network; it refuses a second
    configuration with [ConfigExists]; whenever it does not return nil the
    driver is as before; and when it returns nil, either the options held
    no generic data and the driver is as before, or the driver was
    unconfigured and now holds a configuration that [Validate] accepts. *)
Theorem Config_outcome (opts : Options) (d d' : driver) (r : outcome (option error)) :
  Config opts d = (r, d') ->
  d_network d' = d_network d
  /\ (d_config d <> None -> r = Returns (Some ErrConfigExists) /\ d' = d)
  /\ (r <> Returns None -> d' = d)
  /\ (r = Returns None ->
      (optionLookup opts options.GenericData = None /\ d' = d)
      \/ (exists c, d_config d = None /\ d_config d' = Some c /\ Validate c = None)).
Proof.
  unfold Config. intros Hop.
  destruct (d_config d) as [c0|] eqn:Hc.
  { injection Hop as <- <-. split_and!; try done. }
  destruct (optionLookup opts options.GenericData) as [v|] eqn:Hv.
  - assert (Hstore : forall c,
               match Validate c with
               | Some e => (Returns (Some e), d)
               | None => (Returns None, mkDriver (Some c) (d_network d))
               end = (r, d') ->
               d_network d' = d_network d
               /\ (r <> Returns None -> d' = d)
               /\ (r = Returns None ->
                   exists c, d_config d' = Some c /\ Validate c = None)).
    { intros c. destruct (Validate c) eqn:Hval; intros [= <- <-]; split_and!; try done.
      intros _. by exists c. }
    destruct v as [[c|e] cc|[c|]|cc|mac|bs|];
      try (injection Hop as <- <-; by split_and!);
      apply Hstore in Hop as (Hnet & Hfail & Hok);
      (split_and!; [done|done|done|]);
      intros Hr; right; destruct (Hok Hr) as (c' & ? & ?); by exists c'.
  - injection Hop as <- <-. split_and!; try done. intros _. by left.
Qed.

(** Configuring a new driver with the configuration of scenario S1
    stores it. *)
Lemma Config_outcome_witness :
  d_network configuredS1 = None
  /\ ((optionLookup optionsS1 options.GenericData = None
       /\ configuredS1 = mkDriver None None)
      \/ exists c, d_config (mkDriver None None) = None
                   /\ d_config configuredS1 = Some c /\ Validate c = None).
Proof.
  destruct (Config_outcome optionsS1 (mkDriver None None) configuredS1 (Returns None)
              eq_refl) as (Hnet & _ & _ & Hok).
  split; [exact Hnet|]. exact (Hok eq_refl).
Defined.

Lemma Config_stores_valid (opts : Options) (d d' : driver) (r : outcome (option error))
    (c : Configuration) :
  Config opts d = (r, d') ->
  d_config d' = Some c ->
  d_config d = Some c \/ Validate c = None.
Proof.
  unfold Config. intros Hop Hc.
  destruct (d_config d) as [c0|] eqn:Hc0.
  { injection Hop as <- <-. left. congruence. }
  assert (Hsame : forall r0, (r0, d) = (r, d') -> False).
  { intros r0 [= <- <-]. congruence. }
  assert (Hstore : forall c1,
             match Validate c1 with
             | Some e => (Returns (Some e), d)
             | None => (Returns None, mkDriver (Some c1) (d_network d))
             end = (r, d') -> Validate c = None).
  { intros c1. destruct (Validate c1) eqn:Hval; [intros H; by apply Hsame in H|].
    intros [= <- <-]. simpl in Hc. congruence. }
  destruct (optionLookup opts options.GenericData) as [v|];
    [|by apply Hsame in Hop].
  right.
  destruct v as [[c1|e] cc|[c1|]|cc|mac|bs|];
    first [ by apply Hsame in Hop | by apply Hstore in Hop ].
Qed.

(** X2: every driver that calls of the driver can produce holds either
    no configuration or one that [Validate] accepts: [Config] is the only
    operation that stores one, and it validates first. *)
Theorem reachable_configuration_valid (d : driver) (c : Configuration) :
  reachable d -> d_config d = Some c -> Validate c = None.
Proof.
  intros Hreach. revert c.
  induction Hreach as [|opts d r d' _ IH Hop|env id d w r d' w' _ IH Hop
                       |env d w r d' w' _ IH Hop
                       |env nid eid opts d w r d' w' _ IH Hop
                       |env nid eid d w r d' w' _ IH Hop]; intros c Hc.
  - discriminate.
  - destruct (Config_stores_valid opts d d' r c Hop Hc); auto.
  - pose proof (CreateNetwork_config env id d w) as Hcfg.
    rewrite Hop in Hcfg; simpl in Hcfg. apply IH. congruence.
  - pose proof (DeleteNetworkAmong_config (fun d => d) env d w) as Hcfg.
    unfold DeleteNetwork in Hop. rewrite Hop in Hcfg; simpl in Hcfg.
    apply IH. congruence.
  - pose proof (CreateEndpoint_config env nid eid opts d w) as Hcfg.
    rewrite Hop in Hcfg; simpl in Hcfg. apply IH. congruence.
  - pose proof (DeleteEndpoint_config env nid eid d w) as Hcfg.
    rewrite Hop in Hcfg; simpl in Hcfg. apply IH. congruence.
Qed.

(** The driver of scenario S1 after [CreateNetwork] is reachable, and its
    configuration is valid. *)
Lemma reachable_configuration_valid_witness : Validate configS1 = None.
Proof.
  apply (reachable_configuration_valid networkS1.1 configS1); [|reflexivity].
  apply (reach_CreateNetwork quietEnv "n1" configuredS1 emptyWorld None
           networkS1.1 networkS1.2); [|reflexivity].
  apply (reach_Config optionsS1 (mkDriver None None) (Returns None)); [|reflexivity].
  apply reach_New.
Defined.

(** X3: the configuration is set once: no operation of the driver
    changes the configuration of a configured driver. *)
Theorem configuration_is_kept (env : Env) (nid eid : string) (opts : Options)
    (d : driver) (w : World) (c : Configuration) :
  d_config d = Some c ->
  d_config (Config opts d).2 = Some c
  /\ d_config (CreateNetwork env nid d w).1.2 = Some c
  /\ d_config (DeleteNetwork env d w).1.2 = Some c
  /\ d_config (CreateEndpoint env nid eid opts d w).1.2 = Some c
  /\ d_config (DeleteEndpoint env nid eid d w).1.2 = Some c.
Proof.
  intros Hc. split_and!.
  - unfold Config. by rewrite Hc.
  - by rewrite CreateNetwork_config.
  - unfold DeleteNetwork. by rewrite DeleteNetworkAmong_config.
  - by rewrite CreateEndpoint_config.
  - by rewrite DeleteEndpoint_config.
Qed.

(** In scenario S1 a second [Config] with another configuration leaves
    the first in place. *)
Lemma configuration_is_kept_witness :
  d_config (Config (Some {[ options.GenericData := VConfiguration (Some configS6) ]})
                   configuredS1).2 = Some configS1.
Proof.
  destruct (configuration_is_kept quietEnv "n1" "e1"
              (Some {[ options.GenericData := VConfiguration (Some configS6) ]})
              configuredS1 emptyWorld configS1 eq_refl) as (Hconfig & _).
  exact Hconfig.
Defined.

(** ** Options of endpoints and containers *)





(** X6: [parseContainerOptions] fails only when the generic data is an
    [options.Generic] whose decoding fails, with the error of the
    decoding; a nil map, a map without generic data and generic data of
    another type give no configuration and no error; a
    [*ContainerConfiguration] is returned as it is. *)
Theorem parseContainerOptions_outcome (cOptions : Options) :
  (forall e, parseContainerOptions cOptions = Err e <->
     exists asConfig, optionLookup cOptions options.GenericData
                      = Some (VGeneric asConfig (Err e)))
  /\ (optionLookup cOptions options.GenericData = None ->
      parseContainerOptions cOptions = Ok None)
  /\ (forall cc, optionLookup cOptions options.GenericData
                 = Some (VContainerConfiguration cc) ->
        parseContainerOptions cOptions = Ok cc)
  /\ (forall cc, parseContainerOptions cOptions = Ok (Some cc) ->
        optionLookup cOptions options.GenericData
        = Some (VContainerConfiguration (Some cc))
        \/ exists asConfig, optionLookup cOptions options.GenericData
                            = Some (VGeneric asConfig (Ok cc))).
Proof.
  unfold parseContainerOptions, optionLookup.
  destruct cOptions as [m|].
  - destruct (m !! options.GenericData) as [[ac [cc|e0]|c|cc|mac|bs|]|];
      (split_and!;
       [ intros e; split;
         [ intros H; simplify_eq; by eexists
         | intros [ac' H]; by simplify_eq ]
       | intros H; by simplify_eq
       | intros cc' H; by simplify_eq
       | intros cc' H; simplify_eq;
         first [ by left | right; by eexists ] ]).
  - split_and!; try done.
    intros e. split; [done|]. by intros [? ?].
Qed.

Lemma parseContainerOptions_outcome_witness :
  parseContainerOptions joinChildren
  = Ok (Some (mkContainerConfiguration [] ["childA"; "childB"])).
Proof.
  destruct (parseContainerOptions_outcome joinChildren) as (_ & _ & Hptr & _).
  by apply Hptr.
Defined.

(** ** Creation of an endpoint *)

(** X7: the refusals of [CreateEndpoint], in the order of its checks: no
    network, another network id, an endpoint already under that id,
    options that do not parse.  Each leaves the driver and the world
    untouched. *)
Theorem CreateEndpoint_refusals (env : Env) (nid eid : string) (opts : Options)
    (d : driver) (w : World) :
  (d_network d = None ->
   CreateEndpoint env nid eid opts d w = (Returns (Err ErrNoNetwork), d, w))
  /\ (forall n, d_network d = Some n -> n_id n <> nid ->
        CreateEndpoint env nid eid opts d w
        = (Returns (Err (InvalidNetworkIDError nid)), d, w))
  /\ (forall n ep, d_network d = Some n -> n_id n = nid -> eid <> "" ->
        n_endpoints n !! eid = Some ep ->
        CreateEndpoint env nid eid opts d w = (Returns (Err ErrEndpointExists), d, w))
  /\ (forall n e, d_network d = Some n -> n_id n = nid -> eid <> "" ->
        n_endpoints n !! eid = None ->
        parseEndpointOptions opts = Err e ->
        CreateEndpoint env nid eid opts d w = (Returns (Err e), d, w)).
Proof.
  unfold CreateEndpoint, getEndpoint. split_and!.
  - by intros ->.
  - intros n -> Hid. by destruct (String.eqb_spec (n_id n) nid).
  - intros n ep -> <- Heid Hep. rewrite String.eqb_refl; simpl.
    destruct (String.eqb_spec eid ""); [done|]. by rewrite Hep.
  - intros n e -> <- Heid Hfresh Hopts. rewrite String.eqb_refl; simpl.
    destruct (String.eqb_spec eid ""); [done|]. by rewrite Hfresh, Hopts.
Qed.

(** In scenario S5 the first endpoint cannot be created twice; in
    scenario S1 a value of the wrong type under the MAC key is refused. *)
Lemma CreateEndpoint_refusals_witness :
  CreateEndpoint quietEnv "n1" "e1" None portTaken.1 portTaken.2
  = (Returns (Err ErrEndpointExists), portTaken.1, portTaken.2)
  /\ CreateEndpoint quietEnv "n1" "e1"
       (Some {[ options.MacAddress := VPortBindings web ]}) networkS1.1 networkS1.2
     = (Returns (Err ErrInvalidEndpointConfig), networkS1.1, networkS1.2).
Proof.
  split.
  - destruct (CreateEndpoint_refusals quietEnv "n1" "e1" None portTaken.1 portTaken.2)
      as (_ & _ & Hexists & _).
    eapply Hexists; [vm_compute; reflexivity|reflexivity|discriminate|].
    vm_compute. reflexivity.
  - destruct (CreateEndpoint_refusals quietEnv "n1" "e1"
                (Some {[ options.MacAddress := VPortBindings web ]})
                networkS1.1 networkS1.2) as (_ & _ & _ & Hopts).
    eapply Hopts; [reflexivity|reflexivity|discriminate|reflexivity|reflexivity].
Defined.

(** The driver and the books after a successful [CreateEndpoint]. *)
Lemma CreateEndpoint_installs (env : Env) (nid eid : string) (opts : Options)
    (d d' : driver) (w w' : World) (sinfo : Info) :
  CreateEndpoint env nid eid opts d w = (Returns (Ok sinfo), d', w') ->
  exists n epConfig br4 ip4 v6addr pm,
    d_network d = Some n
    /\ n_id n = nid
    /\ eid <> ""
    /\ n_endpoints n !! eid = None
    /\ parseEndpointOptions opts = Ok epConfig
    /\ bridgeIPv4 (n_bridge n) = Some br4
    /\ sinfo = mkInfo [mkInterface (SrcName (default (mkInterface "" "" None None)
                                                      (head (Interfaces sinfo))))
                                   containerVeth (Some (mkIPNet ip4 (ipnMask br4)))
                                   v6addr]
                      (gatewayIPv4 (n_bridge n)) (GatewayIPv6 sinfo)
    /\ d' = mkDriver (d_config d)
              (Some (setEndpoints n
                       (<[eid := mkBridgeEndpoint eid (head (Interfaces sinfo)) epConfig pm]>
                          (n_endpoints n))))
    /\ ((br4, ip4) ∉ allocatedIPs w)
    /\ ((br4, ip4) ∈ allocatedIPs w')
    /\ allocatedIPs w ⊆ allocatedIPs w'
    /\ keysOf pm ## boundPorts w
    /\ boundPorts w' = keysOf pm ∪ boundPorts w.
Proof.
  intros Hcreate.
  assert (Heid : eid <> "").
  { intros ->. unfold CreateEndpoint, getEndpoint in Hcreate.
    destruct (d_network d); [|discriminate].
    destruct (negb _); discriminate. }
  apply CreateEndpoint_ok in Hcreate
    as (n & epConfig & cfg & name2 & wa & Hn & Hid & Hfresh & Hopts & Hc & Hbooks
        & Hok & -> & ->).
  apply CreateEndpoint_addresses_ok in Hok
    as (br4 & ip4 & w4 & v6addr & w6 & pm & w7 & Hbr & H4 & H6 & -> & Hpm & ->).
  simpl in Hbr. apply RequestIP_inv in H4 as [Hfresh4 ->].
  apply allocatePorts_inv in Hpm as [Hdisj ->].
  destruct Hbooks as (Ha & Hr & Hb & He).
  exists n, epConfig, br4, ip4, v6addr, pm. simpl.
  split_and!; try done.
  - unfold setEndpoints; simpl. by rewrite insert_insert_eq.
  - by rewrite <- Ha.
  - destruct H6 as [(_ & _ & ->)|(network & hint & ip6 & _ & _ & _ & H6 & _)].
    + simpl. set_solver.
    + apply RequestIP_inv in H6 as [_ ->]. simpl. set_solver.
  - destruct H6 as [(_ & _ & ->)|(network & hint & ip6 & _ & _ & _ & H6 & _)].
    + simpl. rewrite <- Ha. set_solver.
    + apply RequestIP_inv in H6 as [_ ->]. simpl. rewrite <- Ha. set_solver.
  - destruct H6 as [(_ & _ & ->)|(network & hint & ip6 & _ & _ & _ & H6 & _)].
    + simpl in *. by rewrite <- Hb.
    + apply RequestIP_inv in H6 as [_ ->]. simpl in *. by rewrite <- Hb.
  - destruct H6 as [(_ & _ & ->)|(network & hint & ip6 & _ & _ & _ & H6 & _)].
    + simpl. by rewrite Hb.
    + apply RequestIP_inv in H6 as [_ ->]. simpl. by rewrite Hb.
Qed.

(** X8: what a successful [CreateEndpoint] leaves behind.  The network
    had the given id and no endpoint under [eid]; the information
    returned has one interface, named [eth0] in the sandbox, whose IPv4
    address was free in the bridge's network before the call and is
    allocated after it, with the mask of the bridge; the gateway is the
    bridge's; the table of the network has gained under [eid] an endpoint
    that carries this id and this interface; and the host ports of its
    mappings, none of them bound before, are what the port mapper has
    gained. *)
Theorem CreateEndpoint_success (env : Env) (nid eid : string) (opts : Options)
    (d d' : driver) (w w' : World) (sinfo : Info) :
  CreateEndpoint env nid eid opts d w = (Returns (Ok sinfo), d', w') ->
  exists n br4 ip4 intf ep,
    d_network d = Some n
    /\ n_id n = nid
    /\ n_endpoints n !! eid = None
    /\ bridgeIPv4 (n_bridge n) = Some br4
    /\ Interfaces sinfo = [intf]
    /\ DstName intf = "eth0"
    /\ Address intf = Some (mkIPNet ip4 (ipnMask br4))
    /\ Gateway sinfo = gatewayIPv4 (n_bridge n)
    /\ ((br4, ip4) ∉ allocatedIPs w)
    /\ ((br4, ip4) ∈ allocatedIPs w')
    /\ d_config d' = d_config d
    /\ d_network d' = Some (setEndpoints n (<[eid := ep]> (n_endpoints n)))
    /\ ep_id ep = eid
    /\ ep_intf ep = Some intf
    /\ keysOf (ep_portMapping ep) ## boundPorts w
    /\ boundPorts w' = keysOf (ep_portMapping ep) ∪ boundPorts w.
Proof.
  intros Hcreate.
  apply CreateEndpoint_installs in Hcreate
    as (n & epConfig & br4 & ip4 & v6addr & pm & Hn & Hid & _ & Hfresh & _ & Hbr
        & Hinfo & -> & Hfree & Htaken & _ & Hdisj & Hbound).
  rewrite Hinfo. simpl.
  eexists n, br4, ip4, _, _. split_and!; try done.
Qed.

Lemma CreateEndpoint_success_witness :
  exists n br4 ip4 intf ep,
    d_network networkS1.1 = Some n
    /\ n_id n = "n1"
    /\ n_endpoints n !! "e1" = None
    /\ bridgeIPv4 (n_bridge n) = Some br4
    /\ Interfaces infoS5 = [intf]
    /\ DstName intf = "eth0"
    /\ Address intf = Some (mkIPNet ip4 (ipnMask br4))
    /\ Gateway infoS5 = gatewayIPv4 (n_bridge n)
    /\ ((br4, ip4) ∉ allocatedIPs networkS1.2)
    /\ ((br4, ip4) ∈ allocatedIPs portTaken.2)
    /\ d_config portTaken.1 = d_config networkS1.1
    /\ d_network portTaken.1 = Some (setEndpoints n (<["e1" := ep]> (n_endpoints n)))
    /\ ep_id ep = "e1"
    /\ ep_intf ep = Some intf
    /\ keysOf (ep_portMapping ep) ## boundPorts networkS1.2
    /\ boundPorts portTaken.2 = keysOf (ep_portMapping ep) ∪ boundPorts networkS1.2.
Proof.
  apply (CreateEndpoint_success quietEnv "n1" "e1" publishWeb networkS1.1 portTaken.1
           networkS1.2 portTaken.2 infoS5).
  vm_compute. reflexivity.
Defined.

(** X9: an endpoint id is used once.  After a successful
    [CreateEndpoint], creating an endpoint under the same ids again,
    whatever the options and the state of the host, fails with
    [ErrEndpointExists] and changes nothing. *)
Theorem CreateEndpoint_twice (env env2 : Env) (nid eid : string) (opts opts2 : Options)
    (d d' : driver) (w w' w2 : World) (sinfo : Info) :
  CreateEndpoint env nid eid opts d w = (Returns (Ok sinfo), d', w') ->
  CreateEndpoint env2 nid eid opts2 d' w2 = (Returns (Err ErrEndpointExists), d', w2).
Proof.
  intros Hcreate.
  apply CreateEndpoint_installs in Hcreate
    as (n & epConfig & br4 & ip4 & v6addr & pm & Hn & Hid & Heid & _ & _ & _
        & _ & -> & _).
  unfold CreateEndpoint, getEndpoint. simpl. rewrite Hid, String.eqb_refl. simpl.
  destruct (String.eqb_spec eid ""); [done|].
  by rewrite lookup_insert_eq.
Qed.

Lemma CreateEndpoint_twice_witness :
  CreateEndpoint iptablesDown "n1" "e1" None portTaken.1 emptyWorld
  = (Returns (Err ErrEndpointExists), portTaken.1, emptyWorld).
Proof.
  apply (CreateEndpoint_twice quietEnv iptablesDown "n1" "e1" publishWeb None
           networkS1.1 portTaken.1 networkS1.2 portTaken.2 emptyWorld infoS5).
  vm_compute. reflexivity.
Defined.

(** X10: a network with an endpoint is not deleted.  After a successful
    [CreateEndpoint], [DeleteNetwork] fails with [ActiveEndpointsError]
    of the network's id, deletes no link and leaves the driver as it
    was. *)
Theorem DeleteNetwork_after_CreateEndpoint (env env2 : Env) (nid eid : string)
    (opts : Options) (d d' : driver) (w w' w2 : World) (sinfo : Info) :
  CreateEndpoint env nid eid opts d w = (Returns (Ok sinfo), d', w') ->
  DeleteNetwork env2 d' w2 = (Returns (Some (ActiveEndpointsError nid)), d', w2).
Proof.
  intros Hcreate.
  apply CreateEndpoint_installs in Hcreate
    as (n & epConfig & br4 & ip4 & v6addr & pm & Hn & Hid & Heid & Hfresh & _ & _
        & _ & -> & _).
  unfold DeleteNetwork, DeleteNetworkAmong. simpl.
  rewrite map_size_insert_None by done. simpl. by rewrite Hid.
Qed.

Lemma DeleteNetwork_after_CreateEndpoint_witness :
  DeleteNetwork quietEnv portTaken.1 portTaken.2
  = (Returns (Some (ActiveEndpointsError "n1")), portTaken.1, portTaken.2).
Proof.
  apply (DeleteNetwork_after_CreateEndpoint quietEnv quietEnv "n1" "e1" publishWeb
           networkS1.1 portTaken.1 networkS1.2 portTaken.2 portTaken.2 infoS5).
  vm_compute. reflexivity.
Defined.

(** ** Deletion of an endpoint *)

(** X11: the refusals of [DeleteEndpoint] for a well-formed endpoint id,
    in the order of its checks: no network, another network id, no
    endpoint under that id.  Each leaves the driver and the world
    untouched. *)
Theorem DeleteEndpoint_refusals (env : Env) (nid eid : string) (d : driver) (w : World) :
  (d_network d = None ->
   DeleteEndpoint env nid eid d w = (Returns (Some ErrNoNetwork), d, w))
  /\ (forall n, d_network d = Some n -> n_id n <> nid ->
        DeleteEndpoint env nid eid d w
        = (Returns (Some (InvalidNetworkIDError nid)), d, w))
  /\ (forall n, d_network d = Some n -> n_id n = nid -> eid <> "" ->
        n_endpoints n !! eid = None ->
        DeleteEndpoint env nid eid d w
        = (Returns (Some (EndpointNotFoundError eid)), d, w)).
Proof.
  unfold DeleteEndpoint, getEndpoint. split_and!.
  - by intros ->.
  - intros n -> Hid. by destruct (String.eqb_spec (n_id n) nid).
  - intros n -> <- Heid Hep. rewrite String.eqb_refl; simpl.
    destruct (String.eqb_spec eid ""); [done|]. by rewrite Hep.
Qed.

(** In scenario S1 the network has no endpoint to delete, and it is not
    the network [n2]. *)
Lemma DeleteEndpoint_refusals_witness :
  DeleteEndpoint quietEnv "n1" "e1" networkS1.1 networkS1.2
  = (Returns (Some (EndpointNotFoundError "e1")), networkS1.1, networkS1.2)
  /\ DeleteEndpoint quietEnv "n2" "e1" networkS1.1 networkS1.2
     = (Returns (Some (InvalidNetworkIDError "n2")), networkS1.1, networkS1.2).
Proof.
  destruct (DeleteEndpoint_refusals quietEnv "n1" "e1" networkS1.1 networkS1.2)
    as (_ & _ & Hnone).
  destruct (DeleteEndpoint_refusals quietEnv "n2" "e1" networkS1.1 networkS1.2)
    as (_ & Hother & _).
  split.
  - eapply Hnone; [reflexivity|reflexivity|discriminate|reflexivity].
  - eapply Hother; [reflexivity|vm_compute; discriminate].
Defined.

Lemma LinkByName_links (env : Env) (name : string) (w1 w2 : World) :
  links w1 = links w2 -> LinkByName env name w1 = LinkByName env name w2.
Proof. unfold LinkByName. by intros ->. Qed.

Lemma LinkDel_links (env : Env) (l : Link) (w1 w2 : World) :
  links w1 = links w2 -> links (LinkDel env l w1).2 = links (LinkDel env l w2).2.
Proof.
  unfold LinkDel. intros Hl. rewrite Hl.
  destruct (netlinkFault env _); [done|].
  by destruct (findLink _ _).
Qed.

Lemma ReleaseIP_links (env : Env) (network : IPNet) (ip : IP) (w : World) :
  links (ReleaseIP env network ip w).2 = links w.
Proof. unfold ReleaseIP. by destruct (releaseFault env network ip). Qed.

Lemma releasePorts_links (ep : bridgeEndpoint) (w : World) :
  links (releasePorts ep w) = links w.
Proof. unfold releasePorts. by rewrite releasePortsInternal_inv. Qed.

(** The second half of [DeleteEndpoint] does not touch the network. *)
Lemma DeleteEndpoint_release_network (env : Env) (config : option Configuration)
    (ep : bridgeEndpoint) (n : bridgeNetwork) (w : World) :
  (ex_state (DeleteEndpoint_release env config ep (n, w))).1 = n.
Proof.
  unfold DeleteEndpoint_release. repeat case_match; simplify_eq; try done.
  all: repeat match goal with
         | H : context [if ?b then _ else _] |- _ => destruct b
         | H : context [match ?x with _ => _ end] |- _ => destruct x
         end; simpl in *; simplify_eq; done.
Qed.

Lemma onError_failed {S R : Type} (cleanup : S -> S) (rest : Exit S R) (e : error) :
  ex_err rest = Some e -> ex_state (onError cleanup rest) = cleanup (ex_state rest).
Proof. unfold onError. by intros ->. Qed.

(** A run of the second half of [DeleteEndpoint] that returns nil reached
    the removal of the link: [err] is what [LinkByName] reported. *)
Lemma DeleteEndpoint_release_nil (env : Env) (config : option Configuration)
    (ep : bridgeEndpoint) (n : bridgeNetwork) (w : World) :
  ex_result (DeleteEndpoint_release env config ep (n, w)) = Returns None ->
  exists intf,
    ep_intf ep = Some intf
    /\ match LinkByName env (SrcName intf) w with
       | Ok l =>
           ex_err (DeleteEndpoint_release env config ep (n, w)) = None
           /\ links (ex_state (DeleteEndpoint_release env config ep (n, w))).2
              = links (LinkDel env l w).2
       | Err e =>
           ex_err (DeleteEndpoint_release env config ep (n, w)) = Some e
           /\ links (ex_state (DeleteEndpoint_release env config ep (n, w))).2 = links w
       end.
Proof.
  unfold DeleteEndpoint_release.
  destruct (bridgeIPv4 (n_bridge n)) as [br4|]; [|by repeat case_match].
  destruct (ep_intf ep) as [intf|]; [|discriminate].
  destruct (Address intf) as [a4|] eqn:Ha4; [|discriminate].
  pose proof (ReleaseIP_links env br4 (ipnIP a4) (releasePorts ep w)) as Hl9.
  rewrite releasePorts_links in Hl9.
  destruct (ReleaseIP env br4 (ipnIP a4) (releasePorts ep w)) as [[e|] w9] eqn:H4;
    [discriminate|].
  simpl in Hl9.
  destruct config as [cfg|]; [|discriminate].
  destruct (EnableIPv6 cfg) eqn:Hv6.
  - destruct (bridgeIPv6 (n_bridge n)) as [br6|]; [|discriminate].
    destruct (AddressIPv6 intf) as [a6|] eqn:Ha6; [|discriminate].
    pose proof (ReleaseIP_links env br6 (ipnIP a6) w9) as Hl10.
    destruct (ReleaseIP env br6 (ipnIP a6) w9) as [[e|] w10] eqn:H6; [discriminate|].
    simpl in Hl10. cbn [ex_result ex_state]. intros _. exists intf. split; [done|].
    assert (Hl : links w10 = links w) by congruence.
    rewrite (LinkByName_links env (SrcName intf) w10 w Hl).
    destruct (LinkByName env (SrcName intf) w) as [l|e]; simpl; split; try done.
    by apply LinkDel_links.
  - cbn [ex_result ex_state]. intros _. exists intf. split; [done|].
    rewrite (LinkByName_links env (SrcName intf) w9 w Hl9).
    destruct (LinkByName env (SrcName intf) w) as [l|e]; simpl; split; try done.
    by apply LinkDel_links.
Qed.

(** X12: a [DeleteEndpoint] that returns nil has not always removed the
    endpoint.  When the host side of the veth pair is found, the endpoint
    is gone from the table and the link is deleted as [LinkDel] does it;
    when [LinkByName] fails, which is the case the code means to
    tolerate, the error lands in [err], the deferred function puts the
    endpoint back, and the driver is as before the call although nil is
    returned. *)
Theorem DeleteEndpoint_nil_outcome (env : Env) (nid eid : string) (d d' : driver)
    (w w' : World) (n : bridgeNetwork) (ep : bridgeEndpoint) :
  d_network d = Some n ->
  n_endpoints n !! eid = Some ep ->
  DeleteEndpoint env nid eid d w = (Returns None, d', w') ->
  exists intf,
    ep_intf ep = Some intf
    /\ match LinkByName env (SrcName intf) w with
       | Ok l =>
           d' = mkDriver (d_config d)
                         (Some (setEndpoints n (delete eid (n_endpoints n))))
           /\ links w' = links (LinkDel env l w).2
       | Err _ => d' = d /\ links w' = links w
       end.
Proof.
  intros Hn Hep Hdelete. unfold DeleteEndpoint, getEndpoint in Hdelete.
  rewrite Hn in Hdelete.
  destruct (negb _); [discriminate|].
  destruct (String.eqb eid ""); [discriminate|].
  rewrite Hep in Hdelete.
  set (n1 := setEndpoints n (delete eid (n_endpoints n))) in *.
  pose proof (DeleteEndpoint_release_network env (d_config d) ep n1 w) as Hnet.
  set (rel := DeleteEndpoint_release env (d_config d) ep (n1, w)) in *.
  unfold NetState in *.
  pose proof (f_equal (fun p => p.1.1) Hdelete) as Hres.
  pose proof (f_equal (fun p => p.1.2) Hdelete) as Hd.
  pose proof (f_equal (fun p => p.2) Hdelete) as Hw.
  cbn [fst snd] in Hres, Hd, Hw. rewrite onError_result in Hres.
  rewrite restore_keeps_world in Hw.
  destruct (DeleteEndpoint_release_nil env (d_config d) ep n1 w Hres)
    as (intf & Hintf & Hlink).
  exists intf. split; [done|]. fold rel in Hlink.
  destruct (LinkByName env (SrcName intf) w) as [l|e]; destruct Hlink as [Herr Hlinks].
  - split; [|congruence].
    rewrite <- Hd. rewrite (onError_quiet _ _ Herr). by rewrite Hnet.
  - split; [|congruence].
    rewrite <- Hd. rewrite (onError_failed _ _ e Herr). cbv beta.
    unfold NetState in *. rewrite Hnet.
    unfold n1. cbn [setEndpoints n_endpoints n_id n_bridge fst].
    rewrite lookup_delete_eq. cbn [fst setEndpoints n_endpoints n_id n_bridge].
    rewrite insert_delete_id by done.
    destruct d as [c nw]; simpl in *. subst nw. by destruct n.
Qed.

(** In scenario S5, once the sandbox has deleted the veth pair, the
    endpoint can no longer be deleted: the call returns nil and the
    endpoint stays. *)
Lemma DeleteEndpoint_nil_outcome_witness :
  exists intf,
    ep_intf endpointS5 = Some intf
    /\ match LinkByName quietEnv (SrcName intf) vethGone with
       | Ok l =>
           (DeleteEndpoint quietEnv "n1" "e1" portTaken.1 vethGone).1.2
           = mkDriver (d_config portTaken.1)
                      (Some (setEndpoints tableS5 (delete "e1" (n_endpoints tableS5))))
           /\ links (DeleteEndpoint quietEnv "n1" "e1" portTaken.1 vethGone).2
              = links (LinkDel quietEnv l vethGone).2
       | Err _ =>
           (DeleteEndpoint quietEnv "n1" "e1" portTaken.1 vethGone).1.2 = portTaken.1
           /\ links (DeleteEndpoint quietEnv "n1" "e1" portTaken.1 vethGone).2
              = links vethGone
       end.
Proof.
  apply (DeleteEndpoint_nil_outcome quietEnv "n1" "e1" portTaken.1
           (DeleteEndpoint quietEnv "n1" "e1" portTaken.1 vethGone).1.2
           vethGone (DeleteEndpoint quietEnv "n1" "e1" portTaken.1 vethGone).2
           tableS5 endpointS5); vm_compute; reflexivity.
Defined.

(** A run of the second half of [DeleteEndpoint] that returns an error
    stopped at one of the two releases. *)
Lemma DeleteEndpoint_release_error (env : Env) (config : option Configuration)
    (ep : bridgeEndpoint) (n : bridgeNetwork) (w : World) (e : error) :
  ex_result (DeleteEndpoint_release env config ep (n, w)) = Returns (Some e) ->
  links (ex_state (DeleteEndpoint_release env config ep (n, w))).2 = links w
  /\ boundPorts (ex_state (DeleteEndpoint_release env config ep (n, w))).2
     = boundPorts w ∖ keysOf (ep_portMapping ep)
  /\ exists br4 intf a4,
       bridgeIPv4 (n_bridge n) = Some br4
       /\ ep_intf ep = Some intf
       /\ Address intf = Some a4
       /\ ((releaseFault env br4 (ipnIP a4) = Some e
            /\ ex_err (DeleteEndpoint_release env config ep (n, w)) = Some e
            /\ allocatedIPs (ex_state (DeleteEndpoint_release env config ep (n, w))).2
               = allocatedIPs w)
           \/ (exists cfg br6 a6,
                 config = Some cfg
                 /\ EnableIPv6 cfg = true
                 /\ bridgeIPv6 (n_bridge n) = Some br6
                 /\ AddressIPv6 intf = Some a6
                 /\ releaseFault env br6 (ipnIP a6) = Some e
                 /\ ex_err (DeleteEndpoint_release env config ep (n, w)) = None
                 /\ allocatedIPs (ex_state (DeleteEndpoint_release env config ep (n, w))).2
                    = allocatedIPs w ∖ {[ (br4, ipnIP a4) ]})).
Proof.
  unfold DeleteEndpoint_release, releasePorts, ReleaseIP.
  rewrite releasePortsInternal_inv.
  destruct (bridgeIPv4 (n_bridge n)) as [br4|]; [|by repeat case_match].
  destruct (ep_intf ep) as [intf|]; [|discriminate].
  destruct (Address intf) as [a4|] eqn:Ha4; [|discriminate].
  destruct (releaseFault env br4 (ipnIP a4)) as [e4|] eqn:H4.
  { cbn [ex_result ex_state ex_err snd]. intros [= <-]. split_and!; [done..|].
    exists br4, intf, a4. split_and!; [done..|]. by left. }
  destruct config as [cfg|]; [|discriminate].
  destruct (EnableIPv6 cfg) eqn:Hv6.
  - destruct (bridgeIPv6 (n_bridge n)) as [br6|]; [|discriminate].
    destruct (AddressIPv6 intf) as [a6|] eqn:Ha6; [|discriminate].
    destruct (releaseFault env br6 (ipnIP a6)) as [e6|] eqn:H6.
    + cbn [ex_result ex_state ex_err snd]. intros [= <-]. split_and!; [done..|].
      exists br4, intf, a4. split_and!; [done..|]. right.
      exists cfg, br6, a6. by split_and!.
    + cbn [ex_result ex_state]. by destruct (LinkByName _ _ _).
  - cbn [ex_result ex_state]. by destruct (LinkByName _ _ _).
Qed.

(** X13: a [DeleteEndpoint] that fails on an endpoint of the table has
    released the ports of the endpoint and deleted no link.  When the
    IPv4 address could not be released, the driver is as before the call.
    When the IPv6 address could not be released, the error is held in a
    variable of the inner block, the deferred function does not run its
    repair, and the endpoint is gone from the table with its IPv4 address
    released, although an error is returned. *)
Theorem DeleteEndpoint_error_outcome (env : Env) (nid eid : string) (d d' : driver)
    (w w' : World) (n : bridgeNetwork) (ep : bridgeEndpoint) (e : error) :
  d_network d = Some n ->
  n_id n = nid ->
  eid <> "" ->
  n_endpoints n !! eid = Some ep ->
  DeleteEndpoint env nid eid d w = (Returns (Some e), d', w') ->
  links w' = links w
  /\ boundPorts w' = boundPorts w ∖ keysOf (ep_portMapping ep)
  /\ exists br4 intf a4,
       bridgeIPv4 (n_bridge n) = Some br4
       /\ ep_intf ep = Some intf
       /\ Address intf = Some a4
       /\ ((releaseFault env br4 (ipnIP a4) = Some e
            /\ d' = d
            /\ allocatedIPs w' = allocatedIPs w)
           \/ (exists br6 a6,
                 bridgeIPv6 (n_bridge n) = Some br6
                 /\ AddressIPv6 intf = Some a6
                 /\ releaseFault env br6 (ipnIP a6) = Some e
                 /\ d' = mkDriver (d_config d)
                           (Some (setEndpoints n (delete eid (n_endpoints n))))
                 /\ allocatedIPs w' = allocatedIPs w ∖ {[ (br4, ipnIP a4) ]})).
Proof.
  intros Hn Hid Heid Hep Hdelete. unfold DeleteEndpoint, getEndpoint in Hdelete.
  rewrite Hn, Hid, String.eqb_refl in Hdelete. cbn [negb] in Hdelete.
  destruct (String.eqb_spec eid ""); [done|].
  rewrite Hep in Hdelete.
  set (n1 := setEndpoints n (delete eid (n_endpoints n))) in *.
  pose proof (DeleteEndpoint_release_network env (d_config d) ep n1 w) as Hnet.
  set (rel := DeleteEndpoint_release env (d_config d) ep (n1, w)) in *.
  unfold NetState in *.
  pose proof (f_equal (fun p => p.1.1) Hdelete) as Hres.
  pose proof (f_equal (fun p => p.1.2) Hdelete) as Hd.
  pose proof (f_equal (fun p => p.2) Hdelete) as Hw.
  cbn [fst snd] in Hres, Hd, Hw. rewrite onError_result in Hres.
  rewrite restore_keeps_world in Hw.
  destruct (DeleteEndpoint_release_error env (d_config d) ep n1 w e Hres)
    as (Hlinks & Hbound & br4 & intf & a4 & Hbr & Hintf & Ha4 & Hcase).
  fold rel in Hlinks, Hbound, Hcase. unfold NetState in *.
  rewrite Hw in Hlinks, Hbound.
  split_and!; [done..|]. exists br4, intf, a4. split_and!; [done..|].
  destruct Hcase as [(H4 & Herr & Halloc)|(cfg & br6 & a6 & _ & _ & Hbr6 & Ha6 & H6 & Herr & Halloc)].
  - left. unfold NetState in *. rewrite Hw in Halloc. split_and!; [done| |done].
    rewrite <- Hd. rewrite (onError_failed _ _ e Herr). cbv beta.
    unfold NetState in *. rewrite Hnet.
    unfold n1. cbn [setEndpoints n_endpoints n_id n_bridge fst].
    rewrite lookup_delete_eq. cbn [fst setEndpoints n_endpoints n_id n_bridge].
    rewrite insert_delete_id by done.
    destruct d as [c nw]; simpl in *. subst nw. by destruct n.
  - right. unfold NetState in *. rewrite Hw in Halloc.
    exists br6, a6. split_and!; [done..| |done].
    rewrite <- Hd. rewrite (onError_quiet _ _ Herr). by rewrite Hnet.
Qed.

(** In scenario S5, when the allocator refuses the address, the ports of
    the endpoint are released and the endpoint stays. *)
Lemma DeleteEndpoint_error_outcome_witness :
  links (DeleteEndpoint releaseRefused "n1" "e1" portTaken.1 portTaken.2).2
  = links portTaken.2
  /\ boundPorts (DeleteEndpoint releaseRefused "n1" "e1" portTaken.1 portTaken.2).2
     = boundPorts portTaken.2 ∖ keysOf (ep_portMapping endpointS5)
  /\ exists br4 intf a4,
       bridgeIPv4 (n_bridge tableS5) = Some br4
       /\ ep_intf endpointS5 = Some intf
       /\ Address intf = Some a4
       /\ ((releaseFault releaseRefused br4 (ipnIP a4)
            = Some (ErrSys "address not allocated")
            /\ (DeleteEndpoint releaseRefused "n1" "e1" portTaken.1 portTaken.2).1.2
               = portTaken.1
            /\ allocatedIPs (DeleteEndpoint releaseRefused "n1" "e1" portTaken.1
                               portTaken.2).2
               = allocatedIPs portTaken.2)
           \/ (exists br6 a6,
                 bridgeIPv6 (n_bridge tableS5) = Some br6
                 /\ AddressIPv6 intf = Some a6
                 /\ releaseFault releaseRefused br6 (ipnIP a6)
                    = Some (ErrSys "address not allocated")
                 /\ (DeleteEndpoint releaseRefused "n1" "e1" portTaken.1 portTaken.2).1.2
                    = mkDriver (d_config portTaken.1)
                        (Some (setEndpoints tableS5 (delete "e1" (n_endpoints tableS5))))
                 /\ allocatedIPs (DeleteEndpoint releaseRefused "n1" "e1" portTaken.1
                                    portTaken.2).2
                    = allocatedIPs portTaken.2 ∖ {[ (br4, ipnIP a4) ]})).
Proof.
  apply (DeleteEndpoint_error_outcome releaseRefused "n1" "e1" portTaken.1
           (DeleteEndpoint releaseRefused "n1" "e1" portTaken.1 portTaken.2).1.2
           portTaken.2
           (DeleteEndpoint releaseRefused "n1" "e1" portTaken.1 portTaken.2).2
           tableS5 endpointS5 (ErrSys "address not allocated"));
    first [discriminate | vm_compute; reflexivity].
Defined.

(** ** Joining and leaving *)

(** X14: edge cases of [Join] and [Leave] with inter-container
    communication disabled.  An unknown endpoint is refused with
    [EndpointNotFoundError]; options without a container configuration
    program nothing and return nil; and the parents of the container
    configuration are only looked at when the endpoint itself has port
    bindings: without them, and without children, nothing is programmed
    and nil is returned whatever the parents are. *)
Theorem Join_Leave_edge_cases (env : Env) (nid eid sboxKey : string) (opts : Options)
    (d : driver) (w : World) (config : Configuration) (network : bridgeNetwork) :
  d_config d = Some config ->
  EnableICC config = false ->
  d_network d = Some network ->
  eid <> "" ->
  (n_endpoints network !! eid = None ->
   Join env nid eid sboxKey opts d w = (Returns (Some (EndpointNotFoundError eid)), w)
   /\ Leave env nid eid opts d w = (Returns (Some (EndpointNotFoundError eid)), w))
  /\ (forall endpoint, n_endpoints network !! eid = Some endpoint ->
        parseContainerOptions opts = Ok None ->
        Join env nid eid sboxKey opts d w = (Returns None, w)
        /\ Leave env nid eid opts d w = (Returns None, w))
  /\ (forall endpoint cc, n_endpoints network !! eid = Some endpoint ->
        parseContainerOptions opts = Ok (Some cc) ->
        childEndpoints cc = [] ->
        (ep_config endpoint = None
         \/ exists ec, ep_config endpoint = Some ec /\ PortBindings ec = None) ->
        Join env nid eid sboxKey opts d w = (Returns None, w)
        /\ Leave env nid eid opts d w = (Returns None, w)).
Proof.
  intros Hc Hicc Hn Heid. unfold Join, Leave, link_, getEndpoint.
  rewrite Hc, Hicc, Hn. cbn [negb].
  destruct (String.eqb_spec eid ""); [done|].
  split_and!.
  - by intros ->.
  - intros endpoint -> Hopts. by rewrite Hopts.
  - intros endpoint cc -> Hopts Hcs Hports. rewrite Hopts, Hcs.
    destruct Hports as [->|(ec & -> & Hnone)]; [done|].
    destruct ec as [mac ports]. simpl in Hnone. by subst ports.
Qed.

(** In scenario S6, the first child has port bindings but the options
    name no container configuration; and an endpoint [ghost] is not
    known. *)
Lemma Join_Leave_edge_cases_witness :
  (Join quietEnv "n1" "ghost" "sandbox" joinChildren driverS6 emptyWorld
   = (Returns (Some (EndpointNotFoundError "ghost")), emptyWorld)
   /\ Leave quietEnv "n1" "ghost" joinChildren driverS6 emptyWorld
      = (Returns (Some (EndpointNotFoundError "ghost")), emptyWorld))
  /\ (Join quietEnv "n1" "childA" "sandbox" None driverS6 emptyWorld
      = (Returns None, emptyWorld)
      /\ Leave quietEnv "n1" "childA" None driverS6 emptyWorld = (Returns None, emptyWorld)).
Proof.
  split.
  - destruct (Join_Leave_edge_cases quietEnv "n1" "ghost" "sandbox" joinChildren driverS6
                emptyWorld configS6
                (default (mkBridgeNetwork "" bridgeS1 ∅) (d_network driverS6))
                eq_refl eq_refl eq_refl)
      as (Hunknown & _ & _); [discriminate|].
    apply Hunknown. vm_compute. reflexivity.
  - destruct (Join_Leave_edge_cases quietEnv "n1" "childA" "sandbox" None driverS6
                emptyWorld configS6
                (default (mkBridgeNetwork "" bridgeS1 ∅) (d_network driverS6))
                eq_refl eq_refl eq_refl)
      as (_ & Hnone & _); [discriminate|].
    apply (Hnone (endpointS6 "childA" 3 (Some web))); [vm_compute|]; reflexivity.
Defined.

Lemma undoneBy_programLink (env : Env) (l : link)
    (join leave : World -> Exit World (option error)) (w : World) :
  (forall w1, ex_result (join w1) = Returns None -> undoneBy w1 (join w1) leave) ->
  ex_result (programLink env true l join w) = Returns None ->
  undoneBy w (programLink env true l join w) (programLink env false l leave).
Proof.
  intros Hrest. unfold programLink, Enable.
  destruct (enableFault env l) as [e|]; [discriminate|].
  rewrite onError_result. intros Hres.
  destruct (Hrest _ Hres) as (ls & Hstate & Herr & Hleave).
  exists (l :: ls). rewrite (onError_quiet _ _ Herr). split_and!.
  - rewrite Hstate. by rewrite logFw_addLog, addLog_app.
  - done.
  - intros w2. rewrite Hleave. unfold Disable. by rewrite logFw_addLog, addLog_app.
Qed.

Lemma undoneBy_linkChildren (env : Env) (network : bridgeNetwork)
    (endpoint : bridgeEndpoint) (bridge : string) (cs : list string) (w : World) :
  ex_result (linkChildren env network endpoint bridge true cs w) = Returns None ->
  undoneBy w (linkChildren env network endpoint bridge true cs w)
           (linkChildren env network endpoint bridge false cs).
Proof.
  revert w. induction cs as [|c cs IH]; intros w; simpl.
  { intros _. exists []. split_and!; try done.
    - by rewrite addLog_nil.
    - intros w2. by rewrite addLog_nil. }
  destruct (getEndpoint network c) as [[childEndpoint|]|e]; try discriminate.
  destruct (ep_config childEndpoint) as [[mac [childPorts|]]|]; try apply IH.
  destruct (endpointIPv4 endpoint), (endpointIPv4 childEndpoint); try discriminate.
  apply undoneBy_programLink. intros w1. apply IH.
Qed.

Lemma undoneBy_linkParents (env : Env) (network : bridgeNetwork)
    (endpoint : bridgeEndpoint) (ports : list PortBinding) (bridge : string)
    (ps : list string) (join leave : World -> Exit World (option error)) (w : World) :
  (forall w1, ex_result (join w1) = Returns None -> undoneBy w1 (join w1) leave) ->
  ex_result (linkParents env network endpoint ports bridge true ps join w) = Returns None ->
  undoneBy w (linkParents env network endpoint ports bridge true ps join w)
           (linkParents env network endpoint ports bridge false ps leave).
Proof.
  intros Hrest. revert w. induction ps as [|p ps IH]; intros w; simpl; [apply Hrest|].
  destruct (getEndpoint network p) as [[parentEndpoint|]|e]; try discriminate.
  destruct (endpointIPv4 parentEndpoint), (endpointIPv4 endpoint); try discriminate.
  apply undoneBy_programLink. intros w1. apply IH.
Qed.

(** X15: [Leave] undoes [Join].  When [Join] returns nil, the firewall
    has seen the enabling of a list of links and nothing else, and a
    [Leave] of the same endpoint with the same options on the same driver
    returns nil after disabling exactly these links, in the same order,
    whatever the state of the host. *)
Theorem Leave_undoes_Join (env : Env) (nid eid sboxKey : string) (opts : Options)
    (d : driver) (w w' : World) :
  Join env nid eid sboxKey opts d w = (Returns None, w') ->
  exists ls : list link,
    w' = addLog w (List.map EvEnable ls)
    /\ forall nid2 w2,
         Leave env nid2 eid opts d w2
         = (Returns None, addLog w2 (List.map EvDisable ls)).
Proof.
  unfold Join, Leave. destruct (d_config d) as [config|]; [|discriminate].
  destruct (EnableICC config); cbn [negb].
  { intros [= <-]. exists []. split; [by rewrite addLog_nil|].
    intros _ w2. by rewrite addLog_nil. }
  intros Hjoin.
  pose proof (f_equal fst Hjoin) as Hres. pose proof (f_equal snd Hjoin) as Hw.
  cbn [fst snd] in Hres, Hw. clear Hjoin.
  assert (Hundone : undoneBy w (link_ env config eid opts true d w)
                             (link_ env config eid opts false d)).
  { revert Hres. unfold link_.
    destruct (d_network d) as [network|]; [|discriminate].
    destruct (getEndpoint network eid) as [[endpoint|]|e]; try discriminate.
    destruct (parseContainerOptions opts) as [[cc|]|e]; try discriminate.
    - destruct (ep_config endpoint) as [[mac [ports|]]|];
        try apply undoneBy_linkChildren.
      apply undoneBy_linkParents. intros w1. apply undoneBy_linkChildren.
    - intros _. exists []. split_and!; try done.
      + by rewrite addLog_nil.
      + intros w2. by rewrite addLog_nil. }
  destruct Hundone as (ls & Hstate & _ & Hleave).
  exists ls. split; [congruence|].
  intros _ w2. by rewrite Hleave.
Qed.

(** In scenario S6, joining the parent with its two children enables the
    two links, and leaving disables them. *)
Lemma Leave_undoes_Join_witness :
  exists ls : list link,
    addLog emptyWorld [EvEnable (linkTo 3); EvEnable (linkTo 4)]
    = addLog emptyWorld (List.map EvEnable ls)
    /\ forall nid2 w2,
         Leave quietEnv nid2 "parentEp" joinChildren driverS6 w2
         = (Returns None, addLog w2 (List.map EvDisable ls)).
Proof.
  apply (Leave_undoes_Join quietEnv "n1" "parentEp" "sandbox" joinChildren driverS6
           emptyWorld (addLog emptyWorld [EvEnable (linkTo 3); EvEnable (linkTo 4)])).
  vm_compute. reflexivity.
Defined.

(** ** The endpoint table *)

Lemma onError_network {R : Type} (cleanup : NetState -> NetState)
    (rest : Exit NetState R) :
  (forall s, (cleanup s).1 = s.1) ->
  (ex_state (onError cleanup rest)).1 = (ex_state rest).1.
Proof. intros Hkeep. unfold onError. destruct (ex_err rest); [apply Hkeep|done]. Qed.

(** The second half of [CreateEndpoint] leaves the network as it is or
    stores an endpoint with the id [eid] under [eid]. *)
Lemma CreateEndpoint_addresses_network (env : Env) (config : Configuration)
    (eid : string) (epConfig : option EndpointConfiguration) (name2 : string)
    (mac : HardwareAddr) (n : bridgeNetwork) (w : World) :
  (ex_state (CreateEndpoint_addresses env config eid epConfig name2 mac (n, w))).1 = n
  \/ exists ep,
       ep_id ep = eid
       /\ (ex_state (CreateEndpoint_addresses env config eid epConfig name2 mac (n, w))).1
          = setEndpoints n (<[eid := ep]> (n_endpoints n)).
Proof.
  unfold CreateEndpoint_addresses.
  destruct (bridgeIPv4 (n_bridge n)) as [br4|]; [|by left].
  destruct (RequestIP br4 None w) as [[ip4|e4] w4]; [|by left].
  destruct (EnableIPv6 config).
  - destruct (ipv6Network config n) as [network|]; [|by left].
    destruct (preferredIPv6 network mac) as [ip6|]; [|by left].
    destruct (RequestIP network ip6 w4) as [[a6|e6] w6]; [|by left].
    cbn [ex_result ex_state].
    destruct (allocatePorts _ _ _ _) as [[[pm|e] w7]|]; right;
      (eexists; split; [|reflexivity]; reflexivity).
  - cbn [ex_result ex_state].
    destruct (allocatePorts _ _ _ _) as [[[pm|e] w7]|]; right;
      (eexists; split; [|reflexivity]; reflexivity).
Qed.

Lemma CreateEndpoint_veth_network (env : Env) (config : option Configuration)
    (eid : string) (epConfig : option EndpointConfiguration) (n : bridgeNetwork)
    (w : World) :
  (ex_state (CreateEndpoint_veth env config eid epConfig (n, w))).1 = n
  \/ exists ep,
       ep_id ep = eid
       /\ (ex_state (CreateEndpoint_veth env config eid epConfig (n, w))).1
          = setEndpoints n (<[eid := ep]> (n_endpoints n)).
Proof.
  unfold CreateEndpoint_veth.
  destruct (generateIfaceName env (randHost env) w) as [name1|e]; [|by left].
  destruct (generateIfaceName env (randSbox env) w) as [name2|e]; [|by left].
  destruct (LinkAddVeth env name1 name2 w) as [[e|] w1]; [by left|].
  destruct (LinkByName env name1 w1) as [host|e]; [|by left].
  rewrite onError_network by done.
  destruct (LinkByName env name2 w1) as [sbox|e]; [|by left].
  rewrite onError_network by done.
  destruct (LinkSetHardwareAddr env sbox _ w1) as [[e|] w2]; [by left|].
  destruct config as [cfg|]; [|by left].
  destruct (if negb (Mtu cfg =? 0)
            then match LinkSetMTU env host (Mtu cfg) w2 with
                 | (Some e, w) => (Some e, w)
                 | (None, w) => LinkSetMTU env sbox (Mtu cfg) w
                 end
            else (None, w2)) as [[e|] w3]; [by left|].
  destruct (LinkSetMaster env host (BridgeName cfg) w3) as [[e|] w4]; [by left|].
  apply CreateEndpoint_addresses_network.
Qed.

(** [CreateEndpoint], whatever it returns, keeps the id and the bridge of
    the network and the endpoints under other ids; what the table holds
    under [eid] afterwards was there before or carries the id [eid]. *)
Lemma CreateEndpoint_frame (env : Env) (nid eid : string) (opts : Options)
    (d : driver) (w : World) (n : bridgeNetwork) :
  d_network d = Some n ->
  exists m,
    d_network (CreateEndpoint env nid eid opts d w).1.2 = Some (setEndpoints n m)
    /\ sameElsewhere eid (n_endpoints n) m
    /\ forall ep, m !! eid = Some ep ->
                  ep_id ep = eid \/ n_endpoints n !! eid = Some ep.
Proof.
  intros Hn.
  assert (Hsame : exists m,
             d_network d = Some (setEndpoints n m)
             /\ sameElsewhere eid (n_endpoints n) m
             /\ forall ep, m !! eid = Some ep ->
                           ep_id ep = eid \/ n_endpoints n !! eid = Some ep).
  { exists (n_endpoints n). split_and!; [by destruct n|done|by right]. }
  unfold CreateEndpoint. rewrite Hn.
  destruct (negb _); [done|].
  destruct (getEndpoint n eid) as [[ep0|]|e]; [done| |done].
  destruct (parseEndpointOptions opts) as [epConfig|e]; [|done].
  clear Hsame. cbn [fst snd d_network].
  set (n1 := setEndpoints n (<[eid := mkBridgeEndpoint eid None epConfig []]>
                               (n_endpoints n))).
  set (run := CreateEndpoint_veth env (d_config d) eid epConfig (n1, w)).
  assert (Hrun : exists ep, ep_id ep = eid
                            /\ (ex_state run).1
                               = setEndpoints n (<[eid := ep]> (n_endpoints n))).
  { destruct (CreateEndpoint_veth_network env (d_config d) eid epConfig n1 w)
      as [Hkeep|(ep & Hid & Hput)]; fold run in Hkeep || fold run in Hput.
    - eexists. split; [|exact Hkeep]. done.
    - exists ep. split; [done|]. rewrite Hput. unfold n1, setEndpoints; simpl.
      by rewrite insert_insert_eq. }
  destruct Hrun as (ep & Hid & Hstate).
  destruct (ex_err run) as [e|] eqn:Herr.
  - rewrite (onError_failed _ _ e Herr). cbv beta. cbn [fst].
    unfold NetState in *. rewrite Hstate.
    exists (delete eid (n_endpoints n)). split_and!.
    + unfold setEndpoints; simpl. by rewrite delete_insert_eq.
    + intros k Hk. by rewrite lookup_delete_ne.
    + intros ep'. by rewrite lookup_delete_eq.
  - rewrite (onError_quiet _ _ Herr). unfold NetState in *. rewrite Hstate.
    exists (<[eid := ep]> (n_endpoints n)). split_and!.
    + done.
    + intros k Hk. by rewrite lookup_insert_ne.
    + intros ep'. rewrite lookup_insert_eq. intros [= <-]. by left.
Qed.

(** [DeleteEndpoint], whatever it returns, keeps the id and the bridge of
    the network and the endpoints under other ids, and stores nothing new
    under [eid]. *)
Lemma DeleteEndpoint_frame (env : Env) (nid eid : string) (d : driver) (w : World)
    (n : bridgeNetwork) :
  d_network d = Some n ->
  exists m,
    d_network (DeleteEndpoint env nid eid d w).1.2 = Some (setEndpoints n m)
    /\ sameElsewhere eid (n_endpoints n) m
    /\ forall ep, m !! eid = Some ep -> n_endpoints n !! eid = Some ep.
Proof.
  intros Hn.
  assert (Hsame : exists m,
             d_network d = Some (setEndpoints n m)
             /\ sameElsewhere eid (n_endpoints n) m
             /\ forall ep, m !! eid = Some ep -> n_endpoints n !! eid = Some ep).
  { exists (n_endpoints n). split_and!; [by destruct n|done|done]. }
  unfold DeleteEndpoint. rewrite Hn.
  destruct (negb _); [done|].
  destruct (getEndpoint n eid) as [[ep0|]|e] eqn:Hget; [|done|done].
  clear Hsame. cbn [fst snd d_network].
  assert (Hep0 : n_endpoints n !! eid = Some ep0).
  { unfold getEndpoint in Hget. destruct (String.eqb eid ""); congruence. }
  set (n1 := setEndpoints n (delete eid (n_endpoints n))).
  pose proof (DeleteEndpoint_release_network env (d_config d) ep0 n1 w) as Hnet.
  set (rel := DeleteEndpoint_release env (d_config d) ep0 (n1, w)) in *.
  unfold NetState in *.
  destruct (ex_err rel) as [e|] eqn:Herr.
  - rewrite (onError_failed _ _ e Herr). cbv beta.
    unfold NetState in *. rewrite Hnet.
    unfold n1 at 1. cbn [setEndpoints n_endpoints]. rewrite lookup_delete_eq.
    cbn [fst]. exists (n_endpoints n). split_and!; [|done|done].
    unfold n1, setEndpoints; simpl. by rewrite insert_delete_id.
  - rewrite (onError_quiet _ _ Herr). unfold NetState in *. rewrite Hnet.
    exists (delete eid (n_endpoints n)). split_and!.
    + done.
    + intros k Hk. by rewrite lookup_delete_ne.
    + intros ep'. by rewrite lookup_delete_eq.
Qed.

(** X16: the operations on endpoints touch one entry of the table.
    Whatever [CreateEndpoint] and [DeleteEndpoint] return, the network
    keeps its id and its bridge and the endpoints under other ids are as
    before; under [eid], [CreateEndpoint] leaves what was there or an
    endpoint that carries the id [eid], and [DeleteEndpoint] leaves what
    was there or nothing. *)
Theorem endpoint_operations_frame (env : Env) (nid eid : string) (opts : Options)
    (d : driver) (w : World) (n : bridgeNetwork) :
  d_network d = Some n ->
  (exists m,
     d_network (CreateEndpoint env nid eid opts d w).1.2 = Some (setEndpoints n m)
     /\ sameElsewhere eid (n_endpoints n) m
     /\ forall ep, m !! eid = Some ep ->
                   ep_id ep = eid \/ n_endpoints n !! eid = Some ep)
  /\ (exists m,
        d_network (DeleteEndpoint env nid eid d w).1.2 = Some (setEndpoints n m)
        /\ sameElsewhere eid (n_endpoints n) m
        /\ forall ep, m !! eid = Some ep -> n_endpoints n !! eid = Some ep).
Proof.
  intros Hn. split.
  - by apply CreateEndpoint_frame.
  - by apply DeleteEndpoint_frame.
Qed.

(** In scenario S6, creating or deleting an endpoint [e9] leaves the
    three endpoints of the table alone. *)
Lemma endpoint_operations_frame_witness :
  (exists m,
     d_network (CreateEndpoint quietEnv "n1" "e9" None driverS6 worldWithBridge).1.2
     = Some (setEndpoints (default tableS5 (d_network driverS6)) m)
     /\ sameElsewhere "e9" (n_endpoints (default tableS5 (d_network driverS6))) m
     /\ forall ep, m !! "e9" = Some ep ->
                   ep_id ep = "e9"
                   \/ n_endpoints (default tableS5 (d_network driverS6)) !! "e9" = Some ep)
  /\ (exists m,
        d_network (DeleteEndpoint quietEnv "n1" "e9" driverS6 worldWithBridge).1.2
        = Some (setEndpoints (default tableS5 (d_network driverS6)) m)
        /\ sameElsewhere "e9" (n_endpoints (default tableS5 (d_network driverS6))) m
        /\ forall ep, m !! "e9" = Some ep ->
                      n_endpoints (default tableS5 (d_network driverS6)) !! "e9" = Some ep).
Proof.
  apply (endpoint_operations_frame quietEnv "n1" "e9" None driverS6 worldWithBridge
           (default tableS5 (d_network driverS6))).
  reflexivity.
Defined.

Lemma keyedById_frame (eid : string) (m m' : gmap string bridgeEndpoint) :
  keyedById m ->
  sameElsewhere eid m m' ->
  (forall ep, m' !! eid = Some ep -> ep_id ep = eid \/ m !! eid = Some ep) ->
  keyedById m'.
Proof.
  intros Hkeyed Hsame Hat k ep Hk.
  destruct (decide (k = eid)) as [->|Hne].
  - destruct (Hat ep Hk) as [Hid|Hold]; [done|by apply Hkeyed].
  - apply Hkeyed. by rewrite <- (Hsame k Hne).
Qed.

(** X17: in every driver that calls of the driver can produce, each
    endpoint of the table is stored under its own id. *)
Theorem reachable_table_keyed (d : driver) (n : bridgeNetwork) :
  reachable d -> d_network d = Some n -> keyedById (n_endpoints n).
Proof.
  intros Hreach. revert n.
  induction Hreach as [|opts d r d' _ IH Hop|env id d w r d' w' _ IH Hop
                       |env d w r d' w' _ IH Hop
                       |env nid eid opts d w r d' w' _ IH Hop
                       |env nid eid d w r d' w' _ IH Hop]; intros n Hn.
  - discriminate.
  - apply IH. rewrite <- Hn. unfold Config in Hop.
    repeat case_match; by simplify_eq.
  - unfold CreateNetwork in Hop.
    destruct (d_config d) as [config|]; [|simplify_eq; by apply IH].
    destruct (d_network d) as [n0|] eqn:Hn0; [simplify_eq; by apply IH|].
    destruct (apply _ _ _) as [[e|] [i' w1]]; unfold onError in Hop; simpl in Hop;
      simplify_eq.
    simpl in Hn. injection Hn as <-. intros k ep Hk. simpl in Hk.
    by rewrite lookup_empty in Hk.
  - unfold DeleteNetwork, DeleteNetworkAmong, onError in Hop.
    destruct (d_network d) as [n0|] eqn:Hn0; simpl in Hop.
    + destruct (negb _); simpl in Hop; [simplify_eq; by apply IH|].
      destruct (bi_Link (n_bridge n0)) as [l|]; simpl in Hop; [|by simplify_eq].
      destruct (LinkDel env l w) as [[e|] w1]; simpl in Hop; simplify_eq.
      by apply IH.
    + by simplify_eq.
  - destruct (d_network d) as [n0|] eqn:Hn0.
    + destruct (CreateEndpoint_frame env nid eid opts d w n0 Hn0)
        as (m & Hnet & Hsame & Hat).
      rewrite Hop in Hnet. simpl in Hnet. rewrite Hn in Hnet.
      injection Hnet as ->. simpl.
      by apply (keyedById_frame eid (n_endpoints n0)); [apply IH|..].
    + unfold CreateEndpoint in Hop. rewrite Hn0 in Hop. simplify_eq; congruence.
  - destruct (d_network d) as [n0|] eqn:Hn0.
    + destruct (DeleteEndpoint_frame env nid eid d w n0 Hn0)
        as (m & Hnet & Hsame & Hat).
      rewrite Hop in Hnet. simpl in Hnet. rewrite Hn in Hnet.
      injection Hnet as ->. simpl.
      apply (keyedById_frame eid (n_endpoints n0)); [by apply IH|done|].
      intros ep Hep. right. by apply Hat.
    + unfold DeleteEndpoint in Hop. rewrite Hn0 in Hop. simplify_eq; congruence.
Qed.

(** The driver of scenario S5 is reachable, and its endpoint is stored
    under its id. *)
Lemma reachable_table_keyed_witness : keyedById (n_endpoints tableS5).
Proof.
  apply (reachable_table_keyed portTaken.1 tableS5); [|vm_compute; reflexivity].
  apply (reach_CreateEndpoint quietEnv "n1" "e1" publishWeb networkS1.1 networkS1.2
           (Returns (Ok infoS5)) portTaken.1 portTaken.2); [|vm_compute; reflexivity].
  apply (reach_CreateNetwork quietEnv "n1" configuredS1 emptyWorld None
           networkS1.1 networkS1.2); [|reflexivity].
  apply (reach_Config optionsS1 (mkDriver None None) (Returns None)); [|reflexivity].
  apply reach_New.
Defined.

(** ** Interface names: failures of the lookup *)

(** The loop fails with [ErrIfaceName] or at the first attempt whose
    lookup fails for another reason than an absent interface. *)
Lemma generateIfaceNameFrom_failure (env : Env) (rand : nat -> option N) (w : World)
    (fuel i : nat) (e : error) :
  generateIfaceNameFrom env rand w i fuel = Err e ->
  e = ErrIfaceName
  \/ exists j x,
       (i <= j < i + fuel)%nat
       /\ rand j = Some x
       /\ ifaceFault env (vethPrefix +:+ hexString vethLen x) = true
       /\ e = ErrSys "route ip+net: netlinkrib: too many open files"
       /\ forall k, (i <= k < j)%nat -> rejected env rand w k.
Proof.
  revert i. induction fuel as [|fuel IH]; intros i.
  - simpl. intros [= <-]. by left.
  - destruct (generateIfaceNameFrom_step env rand w i fuel)
      as [[Hrej ->]|[(x & Hx & Hf & ->)|(x & Hx & Hf & Hl & ->)]].
    + intros Hrest. destruct (IH (S i) Hrest) as [->|(j & x & Hj & Hx & Hf & -> & Hk)];
        [by left|right].
      exists j, x. split_and!; try done; try lia.
      intros k Hik. destruct (decide (k = i)) as [->|]; [done|]. apply Hk. lia.
    + intros [= <-]. right. exists i, x. split_and!; try done; try lia.
    + discriminate.
Qed.

(** The loop stops at the first attempt that is not rejected when its
    lookup fails. *)
Lemma generateIfaceNameFrom_stops (env : Env) (rand : nat -> option N) (w : World)
    (fuel i j : nat) (x : N) :
  (i <= j < i + fuel)%nat ->
  rand j = Some x ->
  ifaceFault env (vethPrefix +:+ hexString vethLen x) = true ->
  (forall k, (i <= k < j)%nat -> rejected env rand w k) ->
  generateIfaceNameFrom env rand w i fuel
  = Err (ErrSys "route ip+net: netlinkrib: too many open files").
Proof.
  revert i. induction fuel as [|fuel IH]; intros i Hj Hx Hf Hk; [lia|].
  destruct (decide (i = j)) as [->|Hne].
  - destruct (generateIfaceNameFrom_step env rand w j fuel)
      as [[Hrej _]|[(y & Hy & _ & ->)|(y & Hy & Hf' & _)]].
    + unfold rejected in Hrej. rewrite Hx in Hrej. destruct Hrej. congruence.
    + done.
    + congruence.
  - assert (Hrej : rejected env rand w i) by (apply Hk; lia).
    destruct (generateIfaceNameFrom_step env rand w i fuel)
      as [[_ ->]|[(y & Hy & Hf' & _)|(y & Hy & _ & Hl & _)]].
    + apply IH; try done; [lia|]. intros k Hik. apply Hk. lia.
    + unfold rejected in Hrej. rewrite Hy in Hrej. destruct Hrej. congruence.
    + unfold rejected in Hrej. rewrite Hy in Hrej. destruct Hrej as [_ Hhas].
      unfold hasLink in Hhas. by rewrite Hl in Hhas.
Qed.

(** X18: [generateIfaceName] does not retry after a lookup that fails
    for another reason than an absent interface.  Its errors are
    [ErrIfaceName] and the error of such a lookup at an attempt whose
    earlier attempts were all rejected; and whenever the first attempt
    that is not rejected meets such a failure, its error is returned at
    once, and [CreateEndpoint] fails with it on the host side leaving the
    driver and the world as they were. *)
Theorem generateIfaceName_lookup_failure (env : Env) (rand : nat -> option N)
    (w : World) :
  (forall e, generateIfaceName env rand w = Err e ->
     e = ErrIfaceName
     \/ exists i x msg,
          (i < 3)%nat
          /\ rand i = Some x
          /\ InterfaceByName env ("veth" +:+ hexString 7 x) w = inr msg
          /\ strContains msg "no such" = false
          /\ e = ErrSys msg
          /\ forall k, (k < i)%nat -> rejected env rand w k)
  /\ (forall i x,
        (i < 3)%nat ->
        rand i = Some x ->
        ifaceFault env ("veth" +:+ hexString 7 x) = true ->
        (forall k, (k < i)%nat -> rejected env rand w k) ->
        exists msg,
          InterfaceByName env ("veth" +:+ hexString 7 x) w = inr msg
          /\ strContains msg "no such" = false
          /\ generateIfaceName env rand w = Err (ErrSys msg)
          /\ forall nid eid opts d n epConfig,
               d_network d = Some n ->
               n_id n = nid ->
               eid <> "" ->
               n_endpoints n !! eid = None ->
               parseEndpointOptions opts = Ok epConfig ->
               rand = randHost env ->
               CreateEndpoint env nid eid opts d w = (Returns (Err (ErrSys msg)), d, w)).
Proof.
  split.
  - intros e He. unfold generateIfaceName in He.
    apply generateIfaceNameFrom_failure in He
      as [->|(j & x & Hj & Hx & Hf & -> & Hk)]; [by left|right].
    exists j, x, "route ip+net: netlinkrib: too many open files".
    split_and!; try done; try lia.
    + unfold InterfaceByName. change ("veth" +:+ hexString 7 x)
        with (vethPrefix +:+ hexString vethLen x). by rewrite Hf.
    + intros k Hik. apply Hk. lia.
  - intros i x Hi Hx Hf Hk.
    assert (Hgen : generateIfaceName env rand w
                   = Err (ErrSys "route ip+net: netlinkrib: too many open files")).
    { unfold generateIfaceName.
      apply (generateIfaceNameFrom_stops env rand w 3 0 i x); try done; [lia|].
      intros k Hik. apply Hk. lia. }
    exists "route ip+net: netlinkrib: too many open files". split_and!; try done.
    + unfold InterfaceByName. by rewrite Hf.
    + intros nid eid opts d n epConfig Hn Hid Heid Hfresh Hopts ->.
      apply (CreateEndpoint_name_failure env nid eid opts d w n epConfig); try done.
      by left.
Qed.

(** When the interfaces of the host cannot be listed, the first attempt
    fails and no endpoint is created in scenario S1. *)
Lemma generateIfaceName_lookup_failure_witness :
  exists msg,
    InterfaceByName listingFails ("veth" +:+ hexString 7 1000) networkS1.2 = inr msg
    /\ strContains msg "no such" = false
    /\ generateIfaceName listingFails (randHost listingFails) networkS1.2
       = Err (ErrSys msg)
    /\ CreateEndpoint listingFails "n1" "e1" None networkS1.1 networkS1.2
       = (Returns (Err (ErrSys msg)), networkS1.1, networkS1.2).
Proof.
  destruct (generateIfaceName_lookup_failure listingFails (randHost listingFails)
              networkS1.2) as [_ Hstop].
  destruct (Hstop 0%nat 1000%N) as (msg & Hby & Hno & Hgen & Hcreate);
    [lia|reflexivity|reflexivity|intros k Hk; lia|].
  exists msg. split_and!; try done.
  eapply Hcreate; [reflexivity|reflexivity|discriminate|reflexivity|reflexivity|reflexivity].
Defined.

(** ** A new network *)

(** X19: a [CreateNetwork] that returns nil found a configured driver
    without network and installed a network with the given id and an
    empty table.  From then on another [CreateNetwork] fails with
    [ErrNetworkExists] and changes nothing, and no endpoint is found in
    the network. *)
Theorem CreateNetwork_success (env : Env) (id : string) (d d' : driver) (w w' : World) :
  CreateNetwork env id d w = (None, d', w') ->
  d_network d = None
  /\ (exists config br,
        d_config d = Some config
        /\ d' = mkDriver (Some config) (Some (mkBridgeNetwork id br ∅)))
  /\ (forall env2 id2 w2,
        CreateNetwork env2 id2 d' w2 = (Some ErrNetworkExists, d', w2))
  /\ (forall env2 eid w2, eid <> "" ->
        DeleteEndpoint env2 id eid d' w2
        = (Returns (Some (EndpointNotFoundError eid)), d', w2)).
Proof.
  unfold CreateNetwork at 1.
  destruct (d_config d) as [config|] eqn:Hc; [|discriminate].
  destruct (d_network d) as [n0|] eqn:Hn0; [discriminate|].
  destruct (apply _ _ _) as [[e|] [br w1]]; [discriminate|].
  unfold onError; simpl. intros [= <- <-].
  split_and!.
  - done.
  - by exists config, br.
  - intros env2 id2 w2. reflexivity.
  - intros env2 eid w2 Heid. unfold DeleteEndpoint, getEndpoint; simpl.
    rewrite String.eqb_refl; simpl.
    destruct (String.eqb_spec eid ""); [done|]. by rewrite lookup_empty.
Qed.

Lemma CreateNetwork_success_witness :
  d_network configuredS1 = None
  /\ (exists config br,
        d_config configuredS1 = Some config
        /\ networkS1.1 = mkDriver (Some config) (Some (mkBridgeNetwork "n1" br ∅)))
  /\ (forall env2 id2 w2,
        CreateNetwork env2 id2 networkS1.1 w2 = (Some ErrNetworkExists, networkS1.1, w2))
  /\ (forall env2 eid w2, eid <> "" ->
        DeleteEndpoint env2 "n1" eid networkS1.1 w2
        = (Returns (Some (EndpointNotFoundError eid)), networkS1.1, w2)).
Proof.
  apply (CreateNetwork_success quietEnv "n1" configuredS1 networkS1.1 emptyWorld
           networkS1.2).
  reflexivity.
Defined.
